(** * Black-Scholes pricing notebook: a shallow embedding

    Source: [src/Pricing_Functions.ipynb], functions [black_scholes_price],
    [calculate_bs_prices], [enrich_option_data] and the pipeline cell that
    chains them, then [get_todays_price] and [fetch_full_option_chain],
    which feed that cell.

    Numbers.  Floats are idealised as exact extended reals: a finite real,
    the two infinities, or NaN.  Rounding, overflow and the sign of zero are
    not modelled (a zero divisor is taken to be [+0.0]).  Arithmetic follows
    IEEE conventions: NaN is absorbing and every ordered comparison with NaN
    is false.  A number is either a built-in Python number or a NumPy
    scalar; the two differ in [/] only, where a zero divisor raises
    [ZeroDivisionError] between built-in numbers and yields an infinity or
    NaN as soon as a NumPy scalar takes part.

    Two places where this idealisation shows.  Python's [**] raises
    [OverflowError] when the square of a built-in float leaves the float
    range (from about 1.34e154); the model's square is total, and the
    statements about which exceptions the pricer raises are made for
    volatilities of magnitude at most 1e154.  [round(x, 2)] on a NumPy
    number rounds the float product [x * 100], so that the rounding of the
    product decides the cent; there the rounding to the nearest float is a
    parameter [fl] of the model.

    Library functions.  [np.log], [np.sqrt], [np.exp] follow NumPy on the
    extended reals; [scipy.stats.norm.cdf] is the extension of a real
    function [Phi] that is a parameter of the development.

    Frames.  A data frame is a list of named, typed columns.  Python
    variables that hold a frame are locations of a store, so that
    [df.copy()], column assignment and [drop(inplace=True)] keep their
    aliasing; [pd.Timestamp.today()] reads a clock that is part of the state.

    The file has three parts: the model, the vocabulary of the statements,
    and the properties. *)

From Stdlib Require Import Reals Lra Lia ZArith List String Ascii Bool.
Import ListNotations.

Open Scope R_scope.

(** * The model *)

(** ** Extended reals standing for float64 values *)

Module PyFloat.

Inductive pyfloat : Type :=
| Fin (x : R)
| PInf
| NInf
| NaN.

Definition Rleb (x y : R) : bool := if Rle_dec x y then true else false.
Definition Rltb (x y : R) : bool := if Rlt_dec x y then true else false.
Definition Reqb (x y : R) : bool := if Req_dec_T x y then true else false.

(** [a <= b] *)
Definition fle (a b : pyfloat) : bool :=
  match a, b with
  | NaN, _ | _, NaN => false
  | Fin x, Fin y => Rleb x y
  | NInf, _ => true
  | _, PInf => true
  | _, _ => false
  end.

(** [a > b] *)
Definition fgt (a b : pyfloat) : bool :=
  match a, b with
  | NaN, _ | _, NaN => false
  | Fin x, Fin y => Rltb y x
  | PInf, PInf => false
  | PInf, _ => true
  | NInf, _ => false
  | Fin _, NInf => true
  | Fin _, PInf => false
  end.

(** unary minus *)
Definition fneg (a : pyfloat) : pyfloat :=
  match a with
  | Fin x => Fin (- x)
  | PInf => NInf
  | NInf => PInf
  | NaN => NaN
  end.

Definition fadd (a b : pyfloat) : pyfloat :=
  match a, b with
  | NaN, _ | _, NaN => NaN
  | Fin x, Fin y => Fin (x + y)
  | PInf, NInf | NInf, PInf => NaN
  | PInf, _ | _, PInf => PInf
  | NInf, _ | _, NInf => NInf
  end.

Definition fsub (a b : pyfloat) : pyfloat := fadd a (fneg b).

(** [x * i] for a finite [x] and an infinity [i]: the sign of [x] decides,
    and [0 * inf] is NaN. *)
Definition scale_inf (x : R) (i : pyfloat) : pyfloat :=
  if Rltb 0 x then i else if Rltb x 0 then fneg i else NaN.

Definition fmul (a b : pyfloat) : pyfloat :=
  match a, b with
  | NaN, _ | _, NaN => NaN
  | Fin x, Fin y => Fin (x * y)
  | Fin x, i => scale_inf x i
  | i, Fin y => scale_inf y i
  | PInf, PInf | NInf, NInf => PInf
  | PInf, NInf | NInf, PInf => NInf
  end.

(** true division, NumPy style: [x / 0] is an infinity (or NaN for [0 / 0]),
    [x / inf] is zero, [inf / inf] is NaN. *)
Definition fdiv (a b : pyfloat) : pyfloat :=
  match a, b with
  | NaN, _ | _, NaN => NaN
  | Fin x, Fin y => if Reqb y 0 then scale_inf x PInf else Fin (x / y)
  | Fin _, _ => Fin 0
  | i, Fin y => if Rltb y 0 then fneg i else i
  | _, _ => NaN
  end.

(** [a ** 2], as long as the square is in the float range; beyond it
    Python raises [OverflowError] on a built-in float, which is left out *)
Definition fpow2 (a : pyfloat) : pyfloat := fmul a a.

(** Python's [max(0, a)]: the first argument is kept unless the second one
    is strictly greater. *)
Definition py_max0 (a : pyfloat) : pyfloat :=
  if fgt a (Fin 0) then a else Fin 0.

(** [np.log] *)
Definition np_log (a : pyfloat) : pyfloat :=
  match a with
  | Fin x => if Rltb 0 x then Fin (ln x) else if Reqb x 0 then NInf else NaN
  | PInf => PInf
  | NInf | NaN => NaN
  end.

(** [np.sqrt] *)
Definition np_sqrt (a : pyfloat) : pyfloat :=
  match a with
  | Fin x => if Rleb 0 x then Fin (sqrt x) else NaN
  | PInf => PInf
  | NInf | NaN => NaN
  end.

(** [np.exp] *)
Definition np_exp (a : pyfloat) : pyfloat :=
  match a with
  | Fin x => Fin (exp x)
  | PInf => PInf
  | NInf => Fin 0
  | NaN => NaN
  end.

(** [scipy.stats.norm.cdf], for the real distribution function [Phi] *)
Definition norm_cdf (Phi : R -> R) (a : pyfloat) : pyfloat :=
  match a with
  | Fin x => Fin (Phi x)
  | PInf => Fin 1
  | NInf => Fin 0
  | NaN => NaN
  end.

End PyFloat.
Export PyFloat.

(** ** Exceptions and results *)

Module Outcome.

Inductive exn : Type :=
| KeyError (k : string)
| TypeError
| ValueError
| ZeroDivisionError
| AttributeError.

Inductive result (A : Type) : Type :=
| Ok (a : A)
| Raise (e : exn).
Arguments Ok {A} a.
Arguments Raise {A} e.

Definition rbind {A B} (m : result A) (f : A -> result B) : result B :=
  match m with
  | Ok a => f a
  | Raise e => Raise e
  end.

Fixpoint mapM {A B} (f : A -> result B) (l : list A) : result (list B) :=
  match l with
  | [] => Ok []
  | a :: l' =>
      rbind (f a) (fun b => rbind (mapM f l') (fun bs => Ok (b :: bs)))
  end.

End Outcome.
Export Outcome.

(** ** Dynamically typed cell values *)

Inductive value : Type :=
| VFloat (x : pyfloat)
| VInt (z : Z)
| VStr (s : string)
| VTime (t : Z)       (* pandas Timestamp, nanoseconds since the epoch *)
| VDelta (d : Z).     (* pandas Timedelta, nanoseconds *)

(** [v == 'call'] *)
Definition is_call (v : value) : bool :=
  match v with
  | VStr s => String.eqb s "call"
  | _ => false
  end.

(** ** Python-level numbers

    [PyNum] is a built-in [float] (or [int]), [NpNum] a [numpy.float64]. *)

Inductive scalar : Type :=
| PyNum (x : pyfloat)
| NpNum (x : pyfloat).

Definition val (a : scalar) : pyfloat :=
  match a with
  | PyNum x | NpNum x => x
  end.

Definition is_zero (a : pyfloat) : bool :=
  match a with
  | Fin x => Reqb x 0
  | _ => false
  end.

(** [a / b] *)
Definition py_truediv (a b : scalar) : result pyfloat :=
  match a, b with
  | PyNum x, PyNum y =>
      if is_zero y then Raise ZeroDivisionError else Ok (fdiv x y)
  | _, _ => Ok (fdiv (val a) (val b))
  end.

(** ** The pricer, instrumented with the library calls it makes *)

Module Pricer.

Inductive libcall : Type := NpLog | NpSqrt | NpExp | NormCdf.

(** The outcome of a computation together with the transcendental library
    calls made on the way, in evaluation order. *)
Definition Traced (A : Type) : Type := (result A * list libcall)%type.

Definition tret {A} (a : A) : Traced A := (Ok a, []).

Definition tlift {A} (r : result A) : Traced A := (r, []).

Definition tbind {A B} (m : Traced A) (f : A -> Traced B) : Traced B :=
  match m with
  | (Ok a, l1) => let (b, l2) := f a in (b, l1 ++ l2)
  | (Raise e, l1) => (Raise e, l1)
  end.

Definition call (c : libcall) (f : pyfloat -> pyfloat) (x : pyfloat)
  : Traced pyfloat := (Ok (f x), [c]).

Notation "x <~ m ;; k" := (tbind m (fun x => k))
  (at level 61, m at next level, right associativity).

Section WithPhi.

Variable Phi : R -> R.

(** [black_scholes_price(S, K, T, r, sigma, option_type='call')].  Only [S]
    and [K] meet in a Python-level division, so only they carry their kind. *)
Definition black_scholes_price (S K : scalar) (T r sigma : pyfloat)
  (option_type : value) : Traced pyfloat :=
  if fle T (Fin 0) || fle sigma (Fin 0) then
    tret (if is_call option_type
          then py_max0 (fsub (val S) (val K))
          else py_max0 (fsub (val K) (val S)))
  else
    q <~ tlift (py_truediv S K) ;;
    lg <~ call NpLog np_log q ;;
    sq <~ call NpSqrt np_sqrt T ;;
    let d1 := fdiv (fadd lg (fmul (fadd r (fmul (Fin 0.5) (fpow2 sigma))) T))
                   (fmul sigma sq) in
    sq' <~ call NpSqrt np_sqrt T ;;
    let d2 := fsub d1 (fmul sigma sq') in
    if is_call option_type then
      c1 <~ call NormCdf (norm_cdf Phi) d1 ;;
      e <~ call NpExp np_exp (fmul (fneg r) T) ;;
      c2 <~ call NormCdf (norm_cdf Phi) d2 ;;
      tret (fsub (fmul (val S) c1) (fmul (fmul (val K) e) c2))
    else
      e <~ call NpExp np_exp (fmul (fneg r) T) ;;
      c2 <~ call NormCdf (norm_cdf Phi) (fneg d2) ;;
      c1 <~ call NormCdf (norm_cdf Phi) (fneg d1) ;;
      tret (fsub (fmul (fmul (val K) e) c2) (fmul (val S) c1)).

(** what the call returns or raises *)
Definition price (S K : scalar) (T r sigma : pyfloat) (option_type : value)
  : result pyfloat :=
  fst (black_scholes_price S K T r sigma option_type).

(** the library calls it makes *)
Definition calls (S K : scalar) (T r sigma : pyfloat) (option_type : value)
  : list libcall :=
  snd (black_scholes_price S K T r sigma option_type).

End WithPhi.

End Pricer.
Export Pricer.

(** ** Calendar dates and timestamps

    Timestamps are integers, nanoseconds since 1970-01-01T00:00.  Day
    numbers follow the proleptic Gregorian ordinals of Python's [datetime]. *)

Module Calendar.

Local Open Scope Z_scope.

Definition ns_per_day : Z := 86400 * 1000000000.

Definition is_leap (y : Z) : bool :=
  (y mod 4 =? 0) && (negb (y mod 100 =? 0) || (y mod 400 =? 0)).

Definition days_in_month (y m : Z) : Z :=
  if m =? 2 then (if is_leap y then 29 else 28)
  else if (m =? 4) || (m =? 6) || (m =? 9) || (m =? 11) then 30
  else 31.

Definition days_before_year (y : Z) : Z :=
  let p := y - 1 in p * 365 + p / 4 - p / 100 + p / 400.

(** days of the year [y] before the first of month [m] *)
Definition days_before_month (y m : Z) : Z :=
  fold_left (fun acc k => acc + days_in_month y (Z.of_nat k))
            (seq 1 (Z.to_nat (m - 1))) 0.

Definition ymd2ord (y m d : Z) : Z :=
  days_before_year y + days_before_month y m + d.

(** days since the epoch of the civil date [y]-[m]-[d] *)
Definition epoch_day (y m d : Z) : Z := ymd2ord y m d - ymd2ord 1970 1 1.

Definition valid_date (y m d : Z) : bool :=
  (1 <=? y) && (1 <=? m) && (m <=? 12) && (1 <=? d) && (d <=? days_in_month y m).

Definition digit (c : ascii) : option Z :=
  let n := nat_of_ascii c in
  if ((48 <=? n) && (n <=? 57))%nat then Some (Z.of_nat n - 48) else None.

Fixpoint digits (acc : Z) (cs : list ascii) : option Z :=
  match cs with
  | [] => Some acc
  | c :: cs' =>
      match digit c with
      | Some d => digits (10 * acc + d) cs'
      | None => None
      end
  end.

(** An ISO calendar date [YYYY-MM-DD], the format of the option chain's
    expiration strings. *)
Definition parse_iso_date (s : string) : option (Z * Z * Z) :=
  match list_ascii_of_string s with
  | [y1; y2; y3; y4; s1; m1; m2; s2; d1; d2] =>
      if (Ascii.eqb s1 "-" && Ascii.eqb s2 "-")%bool then
        match digits 0 [y1; y2; y3; y4], digits 0 [m1; m2], digits 0 [d1; d2] with
        | Some y, Some m, Some d =>
            if valid_date y m d then Some (y, m, d) else None
        | _, _, _ => None
        end
      else None
  | _ => None
  end.

(** midnight of a civil date *)
Definition timestamp_of_date (ymd : Z * Z * Z) : Z :=
  let '(y, m, d) := ymd in epoch_day y m d * ns_per_day.

(** [Timestamp.normalize()]: truncate to midnight *)
Definition normalize (t : Z) : Z := t - t mod ns_per_day.

(** [Timedelta.days]: whole days, rounded toward minus infinity *)
Definition delta_days (d : Z) : Z := d / ns_per_day.

End Calendar.
Export Calendar.

(** ** Data frames *)

Module Frame.

(** A column with its dtype: float64, int64, object (strings),
    datetime64[ns], timedelta64[ns]. *)
Inductive Series : Type :=
| FloatCol (l : list pyfloat)
| IntCol (l : list Z)
| StrCol (l : list string)
| TimeCol (l : list Z)
| DeltaCol (l : list Z).

(** Columns are kept in insertion order, as pandas does; their labels are
    taken to be distinct. *)
Record DataFrame : Type := mkDF {
  nrows : nat;
  columns : list (string * Series)
}.

(** *** Columns *)

Fixpoint get_col (cols : list (string * Series)) (k : string) : option Series :=
  match cols with
  | [] => None
  | (k', s) :: cols' => if String.eqb k' k then Some s else get_col cols' k
  end.

(** assignment replaces an existing column in place and appends a new one *)
Fixpoint set_col (cols : list (string * Series)) (k : string) (s : Series)
  : list (string * Series) :=
  match cols with
  | [] => [(k, s)]
  | (k', s') :: cols' =>
      if String.eqb k' k then (k, s) :: cols' else (k', s') :: set_col cols' k s
  end.

Fixpoint del_col (cols : list (string * Series)) (k : string)
  : list (string * Series) :=
  match cols with
  | [] => []
  | (k', s') :: cols' =>
      if String.eqb k' k then del_col cols' k else (k', s') :: del_col cols' k
  end.

Definition df_get (df : DataFrame) (k : string) : option Series :=
  get_col (columns df) k.

Definition df_set (df : DataFrame) (k : string) (s : Series) : DataFrame :=
  mkDF (nrows df) (set_col (columns df) k s).

Definition df_del (df : DataFrame) (k : string) : DataFrame :=
  mkDF (nrows df) (del_col (columns df) k).

(** the cell of a column at a row position *)
Definition cell (s : Series) (i : nat) : option value :=
  match s with
  | FloatCol l => option_map VFloat (nth_error l i)
  | IntCol l => option_map VInt (nth_error l i)
  | StrCol l => option_map VStr (nth_error l i)
  | TimeCol l => option_map VTime (nth_error l i)
  | DeltaCol l => option_map VDelta (nth_error l i)
  end.

(** a scalar broadcast to a whole column *)
Definition broadcast (v : value) (n : nat) : Series :=
  match v with
  | VFloat x => FloatCol (repeat x n)
  | VInt z => IntCol (repeat z n)
  | VStr s => StrCol (repeat s n)
  | VTime t => TimeCol (repeat t n)
  | VDelta d => DeltaCol (repeat d n)
  end.

(** *** Rows, as [DataFrame.apply(..., axis=1)] hands them to its function:
    the cells of a row are built-in Python objects. *)

Definition Row : Type := list (string * value).

Fixpoint row_of (cols : list (string * Series)) (i : nat) : Row :=
  match cols with
  | [] => []
  | (k, s) :: cols' =>
      match cell s i with
      | Some v => (k, v) :: row_of cols' i
      | None => row_of cols' i
      end
  end.

Fixpoint row_get (row : Row) (k : string) : result value :=
  match row with
  | [] => Raise (KeyError k)
  | (k', v) :: row' => if String.eqb k' k then Ok v else row_get row' k
  end.

(** a cell used as a number *)
Definition to_float (v : value) : result pyfloat :=
  match v with
  | VFloat x => Ok x
  | VInt z => Ok (Fin (IZR z))
  | _ => Raise TypeError
  end.

Definition row_float (row : Row) (k : string) : result pyfloat :=
  rbind (row_get row k) to_float.

(** *** Vectorised operations on columns *)

Definition as_floats (s : Series) : option (list pyfloat) :=
  match s with
  | FloatCol l => Some l
  | IntCol l => Some (map (fun z => Fin (IZR z)) l)
  | _ => None
  end.

(** [series / x] for a scalar [x] *)
Definition series_truediv (s : Series) (x : pyfloat) : result Series :=
  match as_floats s with
  | Some l => Ok (FloatCol (map (fun a => fdiv a x) l))
  | None => Raise TypeError
  end.

Definition zip_with {A B C} (f : A -> B -> C) (l1 : list A) (l2 : list B)
  : list C :=
  map (fun p => f (fst p) (snd p)) (combine l1 l2).

(** [a - b], element by element *)
Definition series_sub (a b : Series) : result Series :=
  match a, b with
  | TimeCol x, TimeCol y => Ok (DeltaCol (zip_with Z.sub x y))
  | IntCol x, IntCol y => Ok (IntCol (zip_with Z.sub x y))
  | _, _ =>
      match as_floats a, as_floats b with
      | Some x, Some y => Ok (FloatCol (zip_with fsub x y))
      | _, _ => Raise TypeError
      end
  end.

(** [series.dt.days] *)
Definition dt_days (s : Series) : result Series :=
  match s with
  | DeltaCol l => Ok (IntCol (map delta_days l))
  | _ => Raise AttributeError
  end.

(** one cell of [pd.to_datetime] on ISO date strings *)
Definition parse_timestamp (d : string) : result Z :=
  match parse_iso_date d with
  | Some ymd => Ok (timestamp_of_date ymd)
  | None => Raise ValueError
  end.

(** [pd.to_datetime(series)] on a column of ISO date strings, or on a
    column that already holds timestamps.  Other inputs are outside the
    model and reported as errors. *)
Definition to_datetime (s : Series) : result Series :=
  match s with
  | StrCol l => rbind (mapM parse_timestamp l) (fun ts => Ok (TimeCol ts))
  | TimeCol l => Ok (TimeCol l)
  | _ => Raise TypeError
  end.

End Frame.
Export Frame.

(** ** Interpreter state: a store of data frames and the system clock

    A Python variable holding a data frame is a location in the store;
    [df.copy()] allocates, column assignment and [drop(inplace=True)] update
    the frame at a location.  An exception leaves the store as it was when
    it was raised. *)

Module Interp.

Definition loc : Type := nat.

Record World : Type := mkWorld {
  clock : Z;                 (* local time now, nanoseconds since the epoch *)
  heap : list DataFrame
}.

Definition Py (A : Type) : Type := World -> result A * World.

Definition ret {A} (a : A) : Py A := fun w => (Ok a, w).

Definition raise {A} (e : exn) : Py A := fun w => (Raise e, w).

Definition bind {A B} (m : Py A) (f : A -> Py B) : Py B :=
  fun w =>
    match m w with
    | (Ok a, w') => f a w'
    | (Raise e, w') => (Raise e, w')
    end.

Definition lift {A} (r : result A) : Py A := fun w => (r, w).

Notation "x <- m ;; k" := (bind m (fun x => k))
  (at level 61, m at next level, right associativity).
Notation "m ;;; k" := (bind m (fun _ => k))
  (at level 61, right associativity).

Fixpoint heap_update (h : list DataFrame) (l : loc) (df : DataFrame)
  : list DataFrame :=
  match h, l with
  | [], _ => []
  | _ :: h', O => df :: h'
  | d :: h', S l' => d :: heap_update h' l' df
  end.

Definition deref (l : loc) : Py DataFrame :=
  fun w =>
    match nth_error (heap w) l with
    | Some df => (Ok df, w)
    | None => (Raise AttributeError, w)
    end.

Definition store (l : loc) (df : DataFrame) : Py unit :=
  fun w => (Ok tt, mkWorld (clock w) (heap_update (heap w) l df)).

Definition alloc (df : DataFrame) : Py loc :=
  fun w => (Ok (List.length (heap w)), mkWorld (clock w) (heap w ++ [df])).

(** [df.copy()] *)
Definition df_copy (l : loc) : Py loc :=
  df <- deref l ;; alloc df.

(** [df[k]] *)
Definition getitem (l : loc) (k : string) : Py Series :=
  df <- deref l ;;
  match df_get df k with
  | Some s => ret s
  | None => raise (KeyError k)
  end.

(** [df[k] = s] for a column [s] *)
Definition setitem (l : loc) (k : string) (s : Series) : Py unit :=
  df <- deref l ;; store l (df_set df k s).

(** [df[k] = v] for a scalar [v] *)
Definition setitem_scalar (l : loc) (k : string) (v : value) : Py unit :=
  df <- deref l ;; store l (df_set df k (broadcast v (nrows df))).

(** [df.drop(columns=[k], inplace=True)] *)
Definition drop_inplace (l : loc) (k : string) : Py unit :=
  df <- deref l ;;
  match df_get df k with
  | Some _ => store l (df_del df k)
  | None => raise (KeyError k)
  end.

(** [pd.Timestamp.today()] *)
Definition timestamp_today : Py Z := fun w => (Ok (clock w), w).

(** [df.apply(f, axis=1)] for a function returning a float *)
Definition df_apply (l : loc) (f : Row -> result pyfloat) : Py Series :=
  df <- deref l ;;
  lift (rbind (mapM (fun i => f (row_of (columns df) i)) (seq 0 (nrows df)))
              (fun xs => Ok (FloatCol xs))).

End Interp.
Export Interp.

(** ** The notebook's functions *)

Module Notebook.

Section WithPhi.

Variable Phi : R -> R.

(** the function handed to [df.apply] by [calculate_bs_prices] *)
Definition price_row (S : scalar) (r : pyfloat) (row : Row) : result pyfloat :=
  rbind (row_float row "strike") (fun K =>
  rbind (row_float row "T") (fun T =>
  rbind (row_float row "impliedVolatility") (fun sigma =>
  rbind (row_get row "type") (fun option_type =>
  price Phi S (PyNum K) T r sigma option_type)))).

(** [calculate_bs_prices(df, S, r=0.045)]; [r = None] stands for a call
    that leaves the rate out. *)
Definition calculate_bs_prices (df : loc) (S : scalar) (r : option pyfloat)
  : Py loc :=
  let r := match r with Some x => x | None => Fin 0.045 end in
  df <- df_copy df ;;
  days <- getitem df "days_to_expiration" ;;
  t <- lift (series_truediv days (Fin 365)) ;;
  setitem df "T" t ;;;
  bs <- df_apply df (price_row S r) ;;
  setitem df "bs_price" bs ;;;
  last <- getitem df "lastPrice" ;;
  bs' <- getitem df "bs_price" ;;
  err <- lift (series_sub last bs') ;;
  setitem df "pricing_error" err ;;;
  ret df.

(** [enrich_option_data(df, underlying_price)] *)
Definition enrich_option_data (df : loc) (underlying_price : pyfloat)
  : Py loc :=
  df <- df_copy df ;;
  strike <- getitem df "strike" ;;
  m <- lift (series_truediv strike underlying_price) ;;
  setitem df "moneyness" m ;;;
  today <- timestamp_today ;;
  setitem_scalar df "current_date" (VTime (normalize today)) ;;;
  e <- getitem df "expiration" ;;
  e' <- lift (to_datetime e) ;;
  setitem df "expiration" e' ;;;
  e'' <- getitem df "expiration" ;;
  c <- getitem df "current_date" ;;
  d <- lift (series_sub e'' c) ;;
  days <- lift (dt_days d) ;;
  setitem df "days_to_expiration" days ;;;
  drop_inplace df "current_date" ;;;
  ret df.

(** Steps 3 and 4 of the pipeline cell:
    [enriched_df = enrich_option_data(df, underlying_price=S)] then
    [bs_df = calculate_bs_prices(enriched_df, S)]. *)
Definition pipeline (df : loc) (S : scalar) : Py loc :=
  enriched_df <- enrich_option_data df (val S) ;;
  calculate_bs_prices enriched_df S None.

End WithPhi.

End Notebook.
Export Notebook.

(** ** The market-data provider, the console and the functions that use them

    [get_todays_price] and [fetch_full_option_chain] talk to the provider
    ([yfinance]) and to the console.  The provider's answers are parameters:
    each request returns a value or raises.  What [print] writes is kept as
    a list of messages.  [pd.concat] is modelled for frames with the same
    column labels, in the same order and with the same dtypes; on other
    frames pandas fills in missing cells and widens dtypes in ways the typed
    columns cannot hold, and the run then leaves the model. *)

Module Fetching.

Inductive message : Type :=
| ErrorFetchingPrice (ticker_symbol : string) (e : exn)
    (* "Error fetching price for {ticker_symbol}: {e}" *)
| FetchedContracts (n : nat) (expiry : string)
    (* "Fetched {n} contracts for expiry {expiry}" *)
| FailedOn (expiry : string) (e : exn).
    (* "Failed on {expiry}: {e}" *)

Record Session : Type := mkSession {
  world : World;
  stdout : list message;
  all_options : list loc      (* the Python list [all_options] *)
}.

(** A computation on a session; [None] when the run leaves the model. *)
Definition Fetch (A : Type) : Type := Session -> option (result A * Session).

Definition fret {A} (a : A) : Fetch A := fun s => Some (Ok a, s).

Definition fraise {A} (e : exn) : Fetch A := fun s => Some (Raise e, s).

Definition unmodelled {A} : Fetch A := fun _ => None.

Definition fbind {A B} (m : Fetch A) (f : A -> Fetch B) : Fetch B :=
  fun s =>
    match m s with
    | Some (Ok a, s') => f a s'
    | Some (Raise e, s') => Some (Raise e, s')
    | None => None
    end.

Notation "x <<- m ;; k" := (fbind m (fun x => k))
  (at level 61, m at next level, right associativity).
Notation "m ;;> k" := (fbind m (fun _ => k))
  (at level 61, right associativity).

(** [try: m except Exception as e: handler e] *)
Definition try_except {A} (m : Fetch A) (handler : exn -> Fetch A) : Fetch A :=
  fun s =>
    match m s with
    | Some (Ok a, s') => Some (Ok a, s')
    | Some (Raise e, s') => handler e s'
    | None => None
    end.

(** a computation of the interpreter, run on the session's world *)
Definition in_world {A} (m : Py A) : Fetch A :=
  fun s =>
    let (r, w') := m (world s) in
    Some (r, mkSession w' (stdout s) (all_options s)).

(** the answer to a request made outside the program; the time it takes is
    not modelled *)
Definition external {A} (answer : result A) : Fetch A :=
  fun s => Some (answer, s).

(** a step that returns or raises and leaves the session alone *)
Definition fresult {A} (r : result A) : Fetch A :=
  fun s => Some (r, s).

(** [print(m)] *)
Definition print (m : message) : Fetch unit :=
  fun s => Some (Ok tt, mkSession (world s) (stdout s ++ [m]) (all_options s)).

(** [all_options = []] *)
Definition reset_all_options : Fetch unit :=
  fun s => Some (Ok tt, mkSession (world s) (stdout s) []).

(** [all_options.append(l)] *)
Definition append_option (l : loc) : Fetch unit :=
  fun s => Some (Ok tt, mkSession (world s) (stdout s) (all_options s ++ [l])).

Definition read_all_options : Fetch (list loc) :=
  fun s => Some (Ok (all_options s), s).

(** [for x in xs: body x] *)
Fixpoint for_each {A} (xs : list A) (body : A -> Fetch unit) : Fetch unit :=
  match xs with
  | [] => fret tt
  | x :: xs' => body x ;;> for_each xs' body
  end.

(** [xs[:n]] *)
Definition slice_to {A} (n : Z) (xs : list A) : list A :=
  if (0 <=? n)%Z then firstn (Z.to_nat n) xs
  else firstn (List.length xs - Z.to_nat (- n)) xs.

(** *** [pd.concat] on frames with the same columns *)

Definition append_series (a b : Series) : option Series :=
  match a, b with
  | FloatCol x, FloatCol y => Some (FloatCol (x ++ y))
  | IntCol x, IntCol y => Some (IntCol (x ++ y))
  | StrCol x, StrCol y => Some (StrCol (x ++ y))
  | TimeCol x, TimeCol y => Some (TimeCol (x ++ y))
  | DeltaCol x, DeltaCol y => Some (DeltaCol (x ++ y))
  | _, _ => None
  end.

Fixpoint concat_cols (ca cb : list (string * Series))
  : option (list (string * Series)) :=
  match ca, cb with
  | [], [] => Some []
  | (k, a) :: ca', (k', b) :: cb' =>
      if String.eqb k k' then
        match append_series a b, concat_cols ca' cb' with
        | Some ab, Some rest => Some ((k, ab) :: rest)
        | _, _ => None
        end
      else None
  | _, _ => None
  end.

Definition concat2 (a b : DataFrame) : option DataFrame :=
  match concat_cols (columns a) (columns b) with
  | Some cols => Some (mkDF (nrows a + nrows b) cols)
  | None => None
  end.

(** the concatenation of a non-empty list of frames *)
Fixpoint concat_all (first : DataFrame) (others : list DataFrame)
  : option DataFrame :=
  match others with
  | [] => Some first
  | next :: others' =>
      match concat2 first next with
      | Some both => concat_all both others'
      | None => None
      end
  end.

Definition deref_all (ls : list loc) : Py (list DataFrame) :=
  fun w =>
    (mapM (fun l => match nth_error (heap w) l with
                    | Some df => Ok df
                    | None => Raise AttributeError
                    end) ls, w).

(** [pd.concat(frames, ignore_index=True)] *)
Definition pd_concat (ls : list loc) : Fetch loc :=
  dfs <<- in_world (deref_all ls) ;;
  match dfs with
  | [] => fraise ValueError
  | first :: others =>
      match concat_all first others with
      | Some df => in_world (alloc df)
      | None => unmodelled
      end
  end.

(** [len(df)] *)
Definition len_frame (l : loc) : Fetch nat :=
  df <<- in_world (deref l) ;; fret (nrows df).

(** *** Rounding to two decimals *)

(** [np.rint]: the nearest integer, ties to the even one *)
Definition rint (y : R) : Z :=
  let f := Int_part y in
  let d := frac_part y in
  if Rltb d (1 / 2) then f
  else if Rltb (1 / 2) d then (f + 1)%Z
  else if Z.even f then f else (f + 1)%Z.

Section WithRounding.

(** the float nearest to a real: the rounding of one float operation *)
Variable fl : R -> R.

(** [round(a, 2)] on a [numpy.float64]: NumPy multiplies by 100, takes
    [np.rint] and divides by 100, each product and quotient being rounded
    to a float *)
Definition round2 (a : pyfloat) : pyfloat :=
  match a with
  | Fin x => Fin (fl (IZR (rint (fl (x * 100))) / 100))
  | other => other
  end.

(** [round(v, 2)] for a cell [v] of a column: NumPy numbers round to NumPy
    numbers, anything else has no [__round__]. *)
Definition py_round2 (v : value) : result scalar :=
  match v with
  | VFloat x => Ok (NpNum (round2 x))
  | VInt z => Ok (NpNum (Fin (IZR z)))
  | _ => Raise TypeError
  end.

End WithRounding.

(** [df.empty] *)
Definition df_empty (df : DataFrame) : bool :=
  (nrows df =? 0)%nat
  || match columns df with [] => true | _ => false end.

(** [series.iloc[-1]] *)
Definition iloc_last (s : Series) : option value :=
  match s with
  | FloatCol l => option_map VFloat (last (map Some l) None)
  | IntCol l => option_map VInt (last (map Some l) None)
  | StrCol l => option_map VStr (last (map Some l) None)
  | TimeCol l => option_map VTime (last (map Some l) None)
  | DeltaCol l => option_map VDelta (last (map Some l) None)
  end.

Section WithProvider.

Variable fl : R -> R.

(** [yf.Ticker(sym)], the construction of the ticker object, which
    [get_todays_price] does before its [try] *)
Variable ticker : string -> result unit.
(** [ticker.history(period="1d", interval="1m")] on the object built for
    [sym] *)
Variable history : string -> result DataFrame.
(** [yf.Ticker(sym)] followed by [ticker.options]; in
    [fetch_full_option_chain] both come before the loop, outside any [try] *)
Variable options : string -> result (list string).
(** [ticker.option_chain(expiry)] on the object built for [sym]: its [calls]
    and [puts] *)
Variable option_chain : string -> string -> result (DataFrame * DataFrame).
(** [time.sleep(t)] *)
Variable sleep : pyfloat -> result unit.

(** [get_todays_price(ticker_symbol)]; [None] is Python's [None] *)
Definition get_todays_price (ticker_symbol : string) : Fetch (option scalar) :=
  external (ticker ticker_symbol) ;;>
  try_except
    (data <<- external (history ticker_symbol) ;;
     if df_empty data then fraise ValueError
     else
       match df_get data "Close" with
       | None => fraise (KeyError "Close")
       | Some close =>
           match iloc_last close with
           | None => unmodelled
           | Some price =>
               rounded <<- fresult (py_round2 fl price) ;;
               fret (Some rounded)
           end
       end)
    (fun e =>
       print (ErrorFetchingPrice ticker_symbol e) ;;>
       fret None).

(** the body of the loop of [fetch_full_option_chain] *)
Definition fetch_expiry (ticker_symbol : string) (sleep_time : pyfloat)
  (expiry : string) : Fetch unit :=
  try_except
    (chain <<- external (option_chain ticker_symbol expiry) ;;
     calls <<- in_world (alloc (fst chain)) ;;
     puts <<- in_world (alloc (snd chain)) ;;
     in_world (setitem_scalar calls "type" (VStr "call")) ;;>
     in_world (setitem_scalar puts "type" (VStr "put")) ;;>
     in_world (setitem_scalar calls "expiration" (VStr expiry)) ;;>
     in_world (setitem_scalar puts "expiration" (VStr expiry)) ;;>
     combined <<- pd_concat [calls; puts] ;;
     append_option combined ;;>
     n <<- len_frame combined ;;
     print (FetchedContracts n expiry) ;;>
     external (sleep sleep_time))
    (fun e => print (FailedOn expiry e)).

(** [fetch_full_option_chain(ticker_symbol, max_expirations=5, sleep_time=1)];
    [None] stands for an argument left out. *)
Definition fetch_full_option_chain (ticker_symbol : string)
  (max_expirations : option Z) (sleep_time : option pyfloat) : Fetch loc :=
  let max_expirations := match max_expirations with Some n => n | None => 5%Z end in
  let sleep_time := match sleep_time with Some t => t | None => Fin 1 end in
  available <<- external (options ticker_symbol) ;;
  let expirations := slice_to max_expirations available in
  reset_all_options ;;>
  for_each expirations (fetch_expiry ticker_symbol sleep_time) ;;>
  all <<- read_all_options ;;
  match all with
  | [] => in_world (alloc (mkDF 0 []))
  | _ => pd_concat all
  end.

End WithProvider.

End Fetching.
Export Fetching.

(** * Vocabulary of the statements *)

Module Vocabulary.

(** ** The pricer's closed form on the positive domain *)

Definition d1_of (s k T r sigma : R) : R :=
  (ln (s / k) + (r + 0.5 * (sigma * sigma)) * T) / (sigma * sqrt T).

Definition d2_of (s k T r sigma : R) : R :=
  d1_of s k T r sigma - sigma * sqrt T.

Definition call_of (Phi : R -> R) (s k T r sigma : R) : R :=
  s * Phi (d1_of s k T r sigma) - k * exp (- r * T) * Phi (d2_of s k T r sigma).

Definition put_of (Phi : R -> R) (s k T r sigma : R) : R :=
  k * exp (- r * T) * Phi (- d2_of s k T r sigma) - s * Phi (- d1_of s k T r sigma).

(** the volatilities whose square is in the float range for sure: there
    [sigma ** 2] cannot raise [OverflowError] *)
Definition square_in_range (sigma : pyfloat) : Prop :=
  match sigma with
  | Fin x => Rabs x <= 10 ^ 154
  | _ => True
  end.

(** ** What a caller observes *)

(** the frame a finished call hands back, or the exception it raised *)
Definition observe (o : result loc * World) : result DataFrame :=
  match o with
  | (Ok l, w') =>
      match nth_error (heap w') l with
      | Some df => Ok df
      | None => Raise AttributeError
      end
  | (Raise e, _) => Raise e
  end.

Definition outcome (m : Py loc) (w : World) : result DataFrame :=
  observe (m w).

(** a numeric cell of a column of floats *)
Definition float_at (df : DataFrame) (k : string) (i : nat) : option pyfloat :=
  match df_get df k with
  | Some (FloatCol l) => nth_error l i
  | _ => None
  end.

(** a cell of a column of integers *)
Definition int_at (df : DataFrame) (k : string) (i : nat) : option Z :=
  match df_get df k with
  | Some (IntCol l) => nth_error l i
  | _ => None
  end.

(** column [k] holds the numbers [xs], one for each row *)
Definition has_numbers (df : DataFrame) (k : string) (xs : list pyfloat) : Prop :=
  exists s, df_get df k = Some s /\ as_floats s = Some xs
            /\ List.length xs = nrows df.

(** column [k] holds the ISO date strings [es], which denote the dates [ds] *)
Definition has_dates (df : DataFrame) (k : string) (es : list string)
  (ds : list (Z * Z * Z)) : Prop :=
  df_get df k = Some (StrCol es)
  /\ Forall2 (fun e d => parse_iso_date e = Some d) es ds
  /\ List.length es = nrows df.

(** column [k] holds the cells [vs], one for each row *)
Definition has_cells (df : DataFrame) (k : string) (vs : list value) : Prop :=
  exists s, df_get df k = Some s
            /\ (forall i, i < nrows df -> cell s i = nth_error vs i)%nat
            /\ List.length vs = nrows df.

(** ** Batches that can be priced *)

(** the rate a call uses *)
Definition rate (r : option pyfloat) : pyfloat :=
  match r with Some x => x | None => Fin 0.045 end.

(** rows are safe from [ZeroDivisionError] when the spot price is a NumPy
    scalar or no strike is zero *)
Definition no_zero_division (S : scalar) (ks : list pyfloat) : Prop :=
  (exists x, S = NpNum x) \/ Forall (fun k => k <> Fin 0) ks.

(** ** The frames the functions build *)

(** the frame [enrich_option_data] builds from [df], for the strikes [ks]
    and the expiration timestamps [ts] *)
Definition enriched (c : Z) (up : pyfloat) (df : DataFrame)
  (ks : list pyfloat) (ts : list Z) : DataFrame :=
  df_del
    (df_set
       (df_set
          (df_set
             (df_set df "moneyness" (FloatCol (map (fun a => fdiv a up) ks)))
             "current_date" (TimeCol (repeat (normalize c) (nrows df))))
          "expiration" (TimeCol ts))
       "days_to_expiration"
       (IntCol (map delta_days (zip_with Z.sub ts (repeat (normalize c) (nrows df))))))
    "current_date".

(** the frame after [df["T"] = df["days_to_expiration"] / 365] *)
Definition with_T (df : DataFrame) (ds : list pyfloat) : DataFrame :=
  df_set df "T" (FloatCol (map (fun a => fdiv a (Fin 365)) ds)).

(** the frame [calculate_bs_prices] builds from [df], for the days [ds], the
    prices [ps] and the market prices [lps] *)
Definition priced (df : DataFrame) (ds ps lps : list pyfloat) : DataFrame :=
  df_set
    (df_set (with_T df ds) "bs_price" (FloatCol ps))
    "pricing_error" (FloatCol (zip_with fsub lps ps)).

(** days since the epoch of a civil date *)
Definition day_of (ymd : Z * Z * Z) : Z :=
  let '(y, m, d) := ymd in epoch_day y m d.

(** the [days_to_expiration] the enricher computes at clock [c] *)
Definition days_left (c : Z) (ds : list (Z * Z * Z)) : list Z :=
  map (fun ymd => (day_of ymd - c / ns_per_day)%Z) ds.

(** ** Two runs side by side

    [same_run] relates the results of one call made in two stores: both
    calls end alike, with the same exception or with a frame allocated past
    everything that was in the store, and both leave the frames they found
    in place, adding the same new ones. *)

Inductive same_run (h1 h2 : list DataFrame) (c1 c2 : Z)
  : result loc * World -> result loc * World -> Prop :=
| same_ok (news : list DataFrame) (df' : DataFrame) :
    same_run h1 h2 c1 c2
      (Ok (List.length (h1 ++ news)), mkWorld c1 (h1 ++ news ++ [df']))
      (Ok (List.length (h2 ++ news)), mkWorld c2 (h2 ++ news ++ [df']))
| same_raise (e : exn) (news : list DataFrame) :
    same_run h1 h2 c1 c2
      (Raise e, mkWorld c1 (h1 ++ news))
      (Raise e, mkWorld c2 (h2 ++ news)).

(** A call leaves the clock and every frame of the store as they were, and
    the frame it hands back sits at a location that was not in use. *)
Definition leaves_store_intact (w : World) (o : result loc * World) : Prop :=
  clock (snd o) = clock w
  /\ (forall l0 df0, nth_error (heap w) l0 = Some df0 ->
                     nth_error (heap (snd o)) l0 = Some df0)
  /\ (forall l', fst o = Ok l' ->
        nth_error (heap w) l' = None
        /\ exists df', nth_error (heap (snd o)) l' = Some df').

(** ** Example data *)

(** a stand-in for the normal distribution function in closed examples: it
    is increasing, takes its values in (0, 1), and is symmetric *)
Definition Phi_test (x : R) : R := (1 + x / (1 + Rabs x)) / 2.

(** 2025-03-01 at 10:30, at 22:00, and 2025-03-02 at 10:30 *)
Definition clock_mar1 : Z :=
  (epoch_day 2025 3 1 * ns_per_day + 37800 * 1000000000)%Z.
Definition clock_mar1_late : Z :=
  (epoch_day 2025 3 1 * ns_per_day + 79200 * 1000000000)%Z.
Definition clock_mar2 : Z :=
  (epoch_day 2025 3 2 * ns_per_day + 37800 * 1000000000)%Z.

Definition strikes : list R := [100; 140; 150].
Definition vols : list pyfloat := [Fin 0.25; NaN; Fin 0.3].
Definition lasts : list pyfloat := [Fin 133.96; Fin 12.5; Fin 4.1].
Definition kinds : list string := ["call"; "call"; "put"]%string.
Definition expiries : list string :=
  ["2025-03-31"; "2025-02-28"; "2025-03-31"]%string.
Definition expiry_dates : list (Z * Z * Z) :=
  [(2025, 3, 31); (2025, 2, 28); (2025, 3, 31)]%Z.

(** A raw option chain of three contracts; the second one has no implied
    volatility and expired the day before 2025-03-01. *)
Definition chain : DataFrame :=
  mkDF 3
    [ ("contractSymbol",
       StrCol ["AAPL250331C00100000"; "AAPL250228C00140000";
               "AAPL250331P00150000"]%string);
      ("strike", FloatCol (map Fin strikes));
      ("lastPrice", FloatCol lasts);
      ("impliedVolatility", FloatCol vols);
      ("type", StrCol kinds);
      ("expiration", StrCol expiries) ]%string.

(** The same chain as enriched on 2025-03-01 for an underlying at 150. *)
Definition enriched_chain : DataFrame :=
  mkDF 3
    [ ("contractSymbol",
       StrCol ["AAPL250331C00100000"; "AAPL250228C00140000";
               "AAPL250331P00150000"]%string);
      ("strike", FloatCol (map Fin strikes));
      ("lastPrice", FloatCol lasts);
      ("impliedVolatility", FloatCol vols);
      ("type", StrCol kinds);
      ("expiration", TimeCol (map timestamp_of_date expiry_dates));
      ("moneyness", FloatCol [Fin (100 / 150); Fin (140 / 150); Fin (150 / 150)]);
      ("days_to_expiration", IntCol [30; -1; 30]%Z) ]%string.

Definition day_counts : list pyfloat := [Fin 30; Fin (-1); Fin 30].

End Vocabulary.
Export Vocabulary.

(** ** Vocabulary for fetched chains *)

Module FetchVocabulary.

Inductive dtype : Type := Float64 | Int64 | Object | Datetime64 | Timedelta64.

Definition dtype_of (s : Series) : dtype :=
  match s with
  | FloatCol _ => Float64
  | IntCol _ => Int64
  | StrCol _ => Object
  | TimeCol _ => Datetime64
  | DeltaCol _ => Timedelta64
  end.

(** the labels of a frame with their dtypes, in order *)
Definition schema (df : DataFrame) : list (string * dtype) :=
  map (fun ks => (fst ks, dtype_of (snd ks))) (columns df).

Definition cells (s : Series) : list value :=
  match s with
  | FloatCol l => map VFloat l
  | IntCol l => map VInt l
  | StrCol l => map VStr l
  | TimeCol l => map VTime l
  | DeltaCol l => map VDelta l
  end.

(** the cells of column [k], none when there is no such column *)
Definition col_cells (df : DataFrame) (k : string) : list value :=
  match df_get df k with
  | Some s => cells s
  | None => []
  end.

(** a provider frame after [df["type"] = kind] and [df["expiration"] = expiry] *)
Definition labelled (kind expiry : string) (df : DataFrame) : DataFrame :=
  df_set (df_set df "type" (broadcast (VStr kind) (nrows df)))
         "expiration" (broadcast (VStr expiry) (nrows df)).

(** the expirations the provider answered, with its calls and puts *)
Fixpoint answered (chain : string -> result (DataFrame * DataFrame))
  (expirations : list string) : list (string * DataFrame * DataFrame) :=
  match expirations with
  | [] => []
  | e :: rest =>
      match chain e with
      | Ok (calls, puts) => (e, calls, puts) :: answered chain rest
      | Raise _ => answered chain rest
      end
  end.

(** every answer has calls and puts of the schema [sch] *)
Definition uniform (sch : list (string * dtype))
  (answers : list (string * DataFrame * DataFrame)) : Prop :=
  Forall (fun a => schema (snd (fst a)) = sch /\ schema (snd a) = sch) answers.

(** the contracts of the answers *)
Definition contracts (answers : list (string * DataFrame * DataFrame)) : nat :=
  fold_right (fun a n => (nrows (snd (fst a)) + nrows (snd a) + n)%nat) 0%nat answers.

(** what the loop prints for the expirations, given what [time.sleep] does *)
Fixpoint reports (chain : string -> result (DataFrame * DataFrame))
  (slept : result unit) (expirations : list string) : list message :=
  match expirations with
  | [] => []
  | e :: rest =>
      match chain e with
      | Ok (calls, puts) =>
          FetchedContracts (nrows calls + nrows puts) e
          :: match slept with
             | Ok _ => reports chain slept rest
             | Raise ex => FailedOn e ex :: reports chain slept rest
             end
      | Raise ex => FailedOn e ex :: reports chain slept rest
      end
  end.

(** the labels and dtypes of a list of columns *)
Definition cols_schema (cols : list (string * Series)) : list (string * dtype) :=
  map (fun ks => (fst ks, dtype_of (snd ks))) cols.

(** the cells of a column that may be missing *)
Definition cells_of (o : option Series) : list value :=
  match o with
  | Some s => cells s
  | None => []
  end.

(** the kinds of the rows of the answers: calls before puts *)
Definition kind_rows (answers : list (string * DataFrame * DataFrame)) : list string :=
  flat_map (fun a => repeat "call"%string (nrows (snd (fst a)))
                     ++ repeat "put"%string (nrows (snd a))) answers.

Definition kind_cells (answers : list (string * DataFrame * DataFrame)) : list value :=
  map VStr (kind_rows answers).

(** the expiration strings of the rows of the answers *)
Definition expiry_rows (answers : list (string * DataFrame * DataFrame)) : list string :=
  flat_map (fun a => repeat (fst (fst a))
                            (nrows (snd (fst a)) + nrows (snd a))) answers.

Definition expiry_cells (answers : list (string * DataFrame * DataFrame)) : list value :=
  map VStr (expiry_rows answers).

(** the cells of column [k] of the answers *)
Definition data_cells (k : string) (answers : list (string * DataFrame * DataFrame))
  : list value :=
  flat_map (fun a => col_cells (snd (fst a)) k ++ col_cells (snd a) k) answers.

(** the floats of column [k]; none when it is missing or of another dtype *)
Definition floats_of (df : DataFrame) (k : string) : list pyfloat :=
  match df_get df k with
  | Some (FloatCol l) => l
  | _ => []
  end.

(** the numbers of column [k] of the answers, row by row *)
Definition numbers_of (k : string) (answers : list (string * DataFrame * DataFrame))
  : list pyfloat :=
  flat_map (fun a => floats_of (snd (fst a)) k ++ floats_of (snd a) k) answers.

(** every column has one cell for each row *)
Definition well_formed (df : DataFrame) : Prop :=
  forall k s, df_get df k = Some s -> List.length (cells s) = nrows df.

(** a provider frame with a strike, an implied volatility and a last price,
    all floats, for each row *)
Definition quoted (df : DataFrame) : Prop :=
  forall k, In k ["strike"; "impliedVolatility"; "lastPrice"]%string ->
    exists xs, df_get df k = Some (FloatCol xs) /\ List.length xs = nrows df.

(** the expirations [fetch_full_option_chain] asks for *)
Definition requested (max_expirations : option Z) (available : list string)
  : list string :=
  slice_to (match max_expirations with Some m => m | None => 5%Z end) available.

(** the pause after each expiration *)
Definition pause (sleep_time : option pyfloat) : pyfloat :=
  match sleep_time with Some x => x | None => Fin 1 end.

(** the frame the loop builds for one answer *)
Definition combined_of (a : string * DataFrame * DataFrame) (f : DataFrame) : Prop :=
  concat2 (labelled "call" (fst (fst a)) (snd (fst a)))
          (labelled "put" (fst (fst a)) (snd a)) = Some f.

(** the frame returned for the frames of the loop *)
Definition merged (fs : list DataFrame) (final : DataFrame) : Prop :=
  match fs with
  | [] => final = mkDF 0 []
  | first :: others => concat_all first others = Some final
  end.

(** ** An example provider *)

Definition march_calls : DataFrame :=
  mkDF 2
    [ ("contractSymbol", StrCol ["AAPL250331C00100000"; "AAPL250331C00150000"]%string);
      ("strike", FloatCol [Fin 100; Fin 150]);
      ("lastPrice", FloatCol [Fin 51.2; Fin 4.3]);
      ("impliedVolatility", FloatCol [Fin 0.25; Fin 0.3]) ]%string.

Definition march_puts : DataFrame :=
  mkDF 1
    [ ("contractSymbol", StrCol ["AAPL250331P00150000"]%string);
      ("strike", FloatCol [Fin 150]);
      ("lastPrice", FloatCol [Fin 4.1]);
      ("impliedVolatility", FloatCol [Fin 0.3]) ]%string.

Definition april_calls : DataFrame :=
  mkDF 1
    [ ("contractSymbol", StrCol ["AAPL250411C00150000"]%string);
      ("strike", FloatCol [Fin 150]);
      ("lastPrice", FloatCol [Fin 5.5]);
      ("impliedVolatility", FloatCol [Fin 0.28]) ]%string.

(** no puts are listed for the April expiration *)
Definition april_puts : DataFrame :=
  mkDF 0
    [ ("contractSymbol", StrCol []);
      ("strike", FloatCol []);
      ("lastPrice", FloatCol []);
      ("impliedVolatility", FloatCol []) ]%string.

(** the minute bars of the day *)
Definition quotes : DataFrame :=
  mkDF 2
    [ ("Open", FloatCol [Fin 149.2; Fin 149.6]);
      ("Close", FloatCol [Fin 149.5; Fin 150.004]) ]%string.

(** a provider that knows one symbol and returns no bars for the others *)
Definition provider_history (sym : string) : result DataFrame :=
  if String.eqb sym "AAPL" then Ok quotes else Ok (mkDF 0 []).

(** the expirations the provider lists *)
Definition listed : list string :=
  ["2025-03-31"; "2025-04-04"; "2025-04-11"]%string.

Definition provider_options (sym : string) : result (list string) :=
  if String.eqb sym "AAPL" then Ok listed else Raise ValueError.

(** the expiration dates of the four contracts the provider returns *)
Definition listed_dates : list (Z * Z * Z) :=
  [(2025, 3, 31); (2025, 3, 31); (2025, 3, 31); (2025, 4, 11)]%Z.

(** the request for 2025-04-04 fails *)
Definition provider_chain (sym expiry : string) : result (DataFrame * DataFrame) :=
  if String.eqb expiry "2025-03-31" then Ok (march_calls, march_puts)
  else if String.eqb expiry "2025-04-11" then Ok (april_calls, april_puts)
  else Raise ValueError.

(** [time.sleep] refuses a negative length *)
Definition provider_sleep (t : pyfloat) : result unit :=
  match t with
  | Fin x => if Rltb x 0 then Raise ValueError else Ok tt
  | _ => Raise ValueError
  end.

(** the ticker object is built for every symbol *)
Definition provider_ticker (sym : string) : result unit := Ok tt.

(** a rounding without error, for closed examples *)
Definition exact (y : R) : R := y.

Definition session0 : Session := mkSession (mkWorld clock_mar1 [chain]) [] [].

End FetchVocabulary.
Export FetchVocabulary.

(** * Properties *)

(** ** Comparisons on the reals, as booleans *)

Lemma Rleb_true (x y : R) : x <= y -> Rleb x y = true.
Proof. intros H. unfold Rleb. destruct (Rle_dec x y); [reflexivity | contradiction]. Qed.

Lemma Rleb_false (x y : R) : y < x -> Rleb x y = false.
Proof. intros H. unfold Rleb. destruct (Rle_dec x y); [lra | reflexivity]. Qed.

Lemma Rltb_true (x y : R) : x < y -> Rltb x y = true.
Proof. intros H. unfold Rltb. destruct (Rlt_dec x y); [reflexivity | contradiction]. Qed.

Lemma Rltb_false (x y : R) : y <= x -> Rltb x y = false.
Proof. intros H. unfold Rltb. destruct (Rlt_dec x y); [lra | reflexivity]. Qed.

Lemma Reqb_true (x y : R) : x = y -> Reqb x y = true.
Proof. intros H. unfold Reqb. destruct (Req_dec_T x y); [reflexivity | contradiction]. Qed.

Lemma Reqb_false (x y : R) : x <> y -> Reqb x y = false.
Proof. intros H. unfold Reqb. destruct (Req_dec_T x y); [contradiction | reflexivity]. Qed.

Lemma Reqb_eq (x y : R) : Reqb x y = true <-> x = y.
Proof.
  unfold Reqb. destruct (Req_dec_T x y); split; intros; try reflexivity;
    try assumption; try discriminate; contradiction.
Qed.

Lemma py_max0_Fin (x : R) : py_max0 (Fin x) = Fin (Rmax 0 x).
Proof.
  unfold py_max0, fgt, Rltb.
  destruct (Rlt_dec 0 x) as [H | H].
  - rewrite Rmax_right by lra. reflexivity.
  - rewrite Rmax_left by lra. reflexivity.
Qed.

Lemma fle_Fin_true (x y : R) : x <= y -> fle (Fin x) (Fin y) = true.
Proof. intros H. simpl. apply Rleb_true; exact H. Qed.

Lemma fle_Fin_false (x y : R) : y < x -> fle (Fin x) (Fin y) = false.
Proof. intros H. simpl. apply Rleb_false; exact H. Qed.

Lemma is_zero_true (a : pyfloat) : is_zero a = true <-> a = Fin 0.
Proof.
  destruct a; simpl; try (split; discriminate).
  rewrite Reqb_eq. split; intros H; [subst; reflexivity | inversion H; reflexivity].
Qed.

Lemma Phi_test_symmetric (x : R) : Phi_test x + Phi_test (- x) = 1.
Proof.
  unfold Phi_test. rewrite Rabs_Ropp.
  assert (H : 0 <= Rabs x) by apply Rabs_pos.
  field. lra.
Qed.

Lemma small_in_range (x : R) : Rabs x <= 1 -> square_in_range (Fin x).
Proof.
  intros H. unfold square_in_range.
  apply Rle_trans with (1 := H). apply pow_R1_Rle. lra.
Qed.

(** ** The pricer *)

Module PricerProps.

Section WithPhi.

Variable Phi : R -> R.

(** The edge branch, for arbitrary arguments. *)
Lemma edge_branch (S K : scalar) (T r sigma : pyfloat) (option_type : value) :
  fle T (Fin 0) || fle sigma (Fin 0) = true ->
  black_scholes_price Phi S K T r sigma option_type =
    (Ok (if is_call option_type
         then py_max0 (fsub (val S) (val K))
         else py_max0 (fsub (val K) (val S))), []).
Proof. intros H. unfold black_scholes_price. rewrite H. reflexivity. Qed.

Lemma edge_test (T sigma : R) :
  T <= 0 \/ sigma <= 0 -> fle (Fin T) (Fin 0) || fle (Fin sigma) (Fin 0) = true.
Proof.
  intros [H | H]; apply orb_true_iff; [left | right]; apply fle_Fin_true; exact H.
Qed.

Lemma no_edge_test (T sigma : R) :
  0 < T -> 0 < sigma -> fle (Fin T) (Fin 0) || fle (Fin sigma) (Fin 0) = false.
Proof.
  intros HT Hs. rewrite !fle_Fin_false by assumption. reflexivity.
Qed.

(** C1: when [T <= 0] or [sigma <= 0] the pricer returns the intrinsic
    value, [max(0, S-K)] for a call and [max(0, K-S)] for a put, and makes no
    call to [np.log], [np.sqrt], [np.exp] or [norm.cdf]. *)
Theorem edge_case_returns_intrinsic_value
  (S K : scalar) (s k T r sigma : R) :
  val S = Fin s -> val K = Fin k ->
  T <= 0 \/ sigma <= 0 ->
  black_scholes_price Phi S K (Fin T) (Fin r) (Fin sigma) (VStr "call")
    = (Ok (Fin (Rmax 0 (s - k))), [])
  /\ black_scholes_price Phi S K (Fin T) (Fin r) (Fin sigma) (VStr "put")
    = (Ok (Fin (Rmax 0 (k - s))), []).
Proof.
  intros HS HK Hedge. apply edge_test in Hedge.
  rewrite !edge_branch by exact Hedge. rewrite HS, HK. simpl is_call. cbv iota.
  unfold fsub. simpl fneg. simpl fadd. rewrite !py_max0_Fin.
  split; reflexivity.
Qed.

Lemma py_truediv_nonzero (S K : scalar) (s k : R) :
  val S = Fin s -> val K = Fin k -> k <> 0 ->
  py_truediv S K = Ok (Fin (s / k)).
Proof.
  intros HS HK Hk.
  destruct S as [x | x], K as [y | y]; simpl in HS, HK; subst; simpl;
    rewrite Reqb_false by exact Hk; reflexivity.
Qed.

Lemma fdiv_Fin (x y : R) : y <> 0 -> fdiv (Fin x) (Fin y) = Fin (x / y).
Proof. intros H. simpl. rewrite Reqb_false by exact H. reflexivity. Qed.

Lemma np_log_pos (x : R) : 0 < x -> np_log (Fin x) = Fin (ln x).
Proof. intros H. simpl. rewrite Rltb_true by exact H. reflexivity. Qed.

Lemma np_sqrt_nonneg (x : R) : 0 <= x -> np_sqrt (Fin x) = Fin (sqrt x).
Proof. intros H. simpl. rewrite Rleb_true by exact H. reflexivity. Qed.

Lemma formula_branch (S K : scalar) (s k T r sigma : R) (option_type : value) :
  val S = Fin s -> val K = Fin k ->
  0 < s -> 0 < k -> 0 < T -> 0 < sigma ->
  black_scholes_price Phi S K (Fin T) (Fin r) (Fin sigma) option_type =
    if is_call option_type
    then (Ok (Fin (call_of Phi s k T r sigma)), [NpLog; NpSqrt; NpSqrt; NormCdf; NpExp; NormCdf])
    else (Ok (Fin (put_of Phi s k T r sigma)), [NpLog; NpSqrt; NpSqrt; NpExp; NormCdf; NormCdf]).
Proof.
  intros HS HK Hs Hk HT Hsig.
  assert (Hq : 0 < s / k) by (apply Rdiv_lt_0_compat; assumption).
  assert (Hsq : 0 < sqrt T) by (apply sqrt_lt_R0; exact HT).
  assert (Hden : sigma * sqrt T <> 0) by nra.
  unfold black_scholes_price.
  rewrite no_edge_test by assumption.
  rewrite (py_truediv_nonzero S K s k HS HK) by lra.
  unfold tlift, call, tbind, tret.
  rewrite np_log_pos by exact Hq.
  rewrite np_sqrt_nonneg by lra.
  unfold fpow2, fsub. simpl fmul. simpl fadd. simpl fmul.
  rewrite !(Reqb_false (sigma * sqrt T) 0) by exact Hden.
  rewrite HS, HK.
  destruct (is_call option_type); simpl;
    unfold call_of, put_of, d2_of, d1_of; repeat f_equal; lra.
Qed.

(** C6: put-call parity over the reals.  For positive [S], [K], [T],
    [sigma] and any [r], the call price minus the put price is
    [S - K * exp(-r*T)], given [Phi x + Phi (-x) = 1]. *)
Theorem put_call_parity (S K : scalar) (s k T r sigma : R) :
  (forall x, Phi x + Phi (- x) = 1) ->
  val S = Fin s -> val K = Fin k ->
  0 < s -> 0 < k -> 0 < T -> 0 < sigma ->
  exists c p : R,
    price Phi S K (Fin T) (Fin r) (Fin sigma) (VStr "call") = Ok (Fin c)
    /\ price Phi S K (Fin T) (Fin r) (Fin sigma) (VStr "put") = Ok (Fin p)
    /\ c - p = s - k * exp (- r * T).
Proof.
  intros Hsym HS HK Hs Hk HT Hsig.
  exists (call_of Phi s k T r sigma), (put_of Phi s k T r sigma).
  unfold price.
  rewrite !(formula_branch S K s k T r sigma) by assumption.
  simpl. repeat split.
  unfold call_of, put_of.
  pose proof (Hsym (d1_of s k T r sigma)) as H1.
  pose proof (Hsym (d2_of s k T r sigma)) as H2.
  set (a := Phi (d1_of s k T r sigma)) in *.
  set (b := Phi (d2_of s k T r sigma)) in *.
  set (a' := Phi (- d1_of s k T r sigma)) in *.
  set (b' := Phi (- d2_of s k T r sigma)) in *.
  set (e := exp (- r * T)).
  replace a' with (1 - a) by lra. replace b' with (1 - b) by lra. ring.
Qed.

(** *** Failures *)

(** Once the division [S / K] went through, nothing raises. *)
Lemma after_division_ok (S K : scalar) (T r sigma q : pyfloat) (option_type : value) :
  fle T (Fin 0) || fle sigma (Fin 0) = false ->
  py_truediv S K = Ok q ->
  exists v, price Phi S K T r sigma option_type = Ok v.
Proof.
  intros Hedge Hq. unfold price, black_scholes_price. rewrite Hedge, Hq.
  unfold tlift, call, tbind, tret.
  destruct (is_call option_type); simpl; eexists; reflexivity.
Qed.

Lemma py_truediv_raises (S K : scalar) :
  (exists e, py_truediv S K = Raise e) <->
  (exists x, S = PyNum x) /\ K = PyNum (Fin 0).
Proof.
  split.
  - intros [e He]. destruct S as [x | x], K as [y | y]; simpl in He; try discriminate.
    destruct (is_zero y) eqn:Ez; [| discriminate].
    apply is_zero_true in Ez. subst. split; [exists x |]; reflexivity.
  - intros [[x ->] ->]. exists ZeroDivisionError. simpl.
    rewrite Reqb_true by reflexivity. reflexivity.
Qed.

Lemma price_raises_iff
  (S K : scalar) (T r sigma : pyfloat) (option_type : value) :
  (exists e, price Phi S K T r sigma option_type = Raise e) <->
  fle T (Fin 0) || fle sigma (Fin 0) = false
  /\ (exists x, S = PyNum x) /\ K = PyNum (Fin 0).
Proof.
  split.
  - intros [e He].
    destruct (fle T (Fin 0) || fle sigma (Fin 0)) eqn:Hedge.
    + unfold price in He. rewrite edge_branch in He by exact Hedge. discriminate.
    + split; [reflexivity |]. apply py_truediv_raises.
      destruct (py_truediv S K) as [q | e'] eqn:Hq; [| exists e'; reflexivity].
      destruct (after_division_ok S K T r sigma q option_type Hedge Hq) as [v Hv].
      congruence.
  - intros [Hedge Hdiv]. apply py_truediv_raises in Hdiv. destruct Hdiv as [e He].
    exists e. unfold price, black_scholes_price. rewrite Hedge, He. reflexivity.
Qed.

(** No exception when [S] is a NumPy scalar or [K] is not zero. *)
Lemma price_ok (S K : scalar) (T r sigma : pyfloat) (option_type : value) :
  (exists x, S = NpNum x) \/ val K <> Fin 0 ->
  exists v, price Phi S K T r sigma option_type = Ok v.
Proof.
  intros Hsafe.
  destruct (price Phi S K T r sigma option_type) as [v | e] eqn:Hp;
    [exists v; reflexivity |].
  assert (Hex : exists e, price Phi S K T r sigma option_type = Raise e)
    by (exists e; exact Hp).
  apply price_raises_iff in Hex. destruct Hex as [_ [[x HS] HK]].
  subst. destruct Hsafe as [[y Hy] | Hk]; [discriminate | contradiction Hk; reflexivity].
Qed.

Lemma fadd_NaN_r (a : pyfloat) : fadd a NaN = NaN.
Proof. destruct a; reflexivity. Qed.

Lemma fmul_NaN_r (a : pyfloat) : fmul a NaN = NaN.
Proof. destruct a; reflexivity. Qed.

Lemma fsub_NaN_r (a : pyfloat) : fsub a NaN = NaN.
Proof. destruct a; reflexivity. Qed.

(** A NaN volatility outside the edge branch makes the price NaN. *)
Lemma price_nan_sigma (S K : scalar) (T r q : pyfloat) (option_type : value) :
  fle T (Fin 0) = false -> py_truediv S K = Ok q ->
  price Phi S K T r NaN option_type = Ok NaN.
Proof.
  intros HT Hq. unfold price, black_scholes_price. rewrite HT, Hq.
  cbn [fle orb]. unfold tlift, call, tbind, tret, fpow2.
  cbn [fmul]. rewrite fadd_NaN_r. cbn [fmul]. rewrite fadd_NaN_r.
  cbn [fdiv fsub fadd fneg norm_cdf]. rewrite !fmul_NaN_r.
  destruct (is_call option_type); cbn [fst fsub fadd fneg]; reflexivity.
Qed.

(** C10: every [option_type] other than the string ['call'] is priced as a
    put and none is rejected.  The call does what it does for ['put'],
    library calls included; in the edge branch it returns the put's
    intrinsic value [max(0, K-S)], on the positive domain the put formula
    [K exp(-rT) Phi(-d2) - S Phi(-d1)]; and, for a volatility whose square
    is in the float range, it raises nothing as long as [S / K] can be
    computed. *)
Theorem kind_dispatch_defaults_to_put
  (S K : scalar) (T r sigma : pyfloat) (option_type : value) :
  option_type <> VStr "call" ->
  black_scholes_price Phi S K T r sigma option_type
    = black_scholes_price Phi S K T r sigma (VStr "put")
  /\ (forall s k, val S = Fin s -> val K = Fin k ->
        fle T (Fin 0) || fle sigma (Fin 0) = true ->
        black_scholes_price Phi S K T r sigma option_type
          = (Ok (Fin (Rmax 0 (k - s))), []))
  /\ (forall s k t r0 v, val S = Fin s -> val K = Fin k ->
        T = Fin t -> r = Fin r0 -> sigma = Fin v ->
        0 < s -> 0 < k -> 0 < t -> 0 < v -> square_in_range sigma ->
        black_scholes_price Phi S K T r sigma option_type
          = (Ok (Fin (k * exp (- r0 * t) * Phi (- d2_of s k t r0 v)
                      - s * Phi (- d1_of s k t r0 v))),
             [NpLog; NpSqrt; NpSqrt; NpExp; NormCdf; NormCdf]))
  /\ (square_in_range sigma ->
      (exists x, S = NpNum x) \/ val K <> Fin 0 ->
      exists p, price Phi S K T r sigma option_type = Ok p).
Proof.
  intros Hne.
  assert (Hc : is_call option_type = false).
  { destruct option_type as [x | z | s | t | d]; try reflexivity.
    simpl. destruct (String.eqb s "call") eqn:E; [| reflexivity].
    apply String.eqb_eq in E. subst. contradiction. }
  split; [| split; [| split]].
  - unfold black_scholes_price. rewrite Hc.
    change (is_call (VStr "put")) with false. reflexivity.
  - intros s k HS HK Hedge. rewrite edge_branch by exact Hedge.
    rewrite Hc, HS, HK. unfold fsub. simpl fneg. simpl fadd.
    rewrite py_max0_Fin. reflexivity.
  - intros s k t r0 v HS HK -> -> -> Hs Hk Ht Hv _.
    rewrite (formula_branch S K s k t r0 v) by assumption.
    rewrite Hc. reflexivity.
  - intros _ Hsafe. apply price_ok. exact Hsafe.
Qed.

(** C4, as the code has it: the pricer validates nothing.  With [T <= 0]
    or [sigma <= 0] it returns the intrinsic value for every [S] and [K],
    whatever their sign.  Otherwise, for a volatility whose square is in the
    float range, its only failure is the [ZeroDivisionError] of [S / K],
    raised exactly when both are built-in numbers and [K] is zero; on
    [S > 0] and [K > 0] it never fails. *)
Theorem pricer_fails_only_on_zero_division
  (S K : scalar) (T r sigma : pyfloat) (option_type : value) :
  (fle T (Fin 0) || fle sigma (Fin 0) = true ->
   forall s k, val S = Fin s -> val K = Fin k ->
     black_scholes_price Phi S K T r sigma option_type
     = (Ok (Fin (if is_call option_type
                 then Rmax 0 (s - k) else Rmax 0 (k - s))), []))
  /\ (square_in_range sigma ->
      (forall e, price Phi S K T r sigma option_type = Raise e ->
                 e = ZeroDivisionError)
      /\ ((exists e, price Phi S K T r sigma option_type = Raise e) <->
          fle T (Fin 0) || fle sigma (Fin 0) = false
          /\ (exists x, S = PyNum x) /\ K = PyNum (Fin 0))
      /\ (forall s k, val S = Fin s -> val K = Fin k -> 0 < s -> 0 < k ->
            exists v, price Phi S K T r sigma option_type = Ok v)).
Proof.
  split.
  - intros Hedge s k HS HK. rewrite edge_branch by exact Hedge.
    rewrite HS, HK. unfold fsub. simpl fneg. simpl fadd.
    destruct (is_call option_type); rewrite py_max0_Fin; reflexivity.
  - intros _. split; [| split].
    + intros e He.
      assert (Hex : exists e, price Phi S K T r sigma option_type = Raise e)
        by (exists e; exact He).
      apply price_raises_iff in Hex. destruct Hex as [Hedge [[x ->] ->]].
      unfold price, black_scholes_price in He. rewrite Hedge in He.
      simpl in He. rewrite Reqb_true in He by reflexivity. simpl in He. congruence.
    + apply price_raises_iff.
    + intros s k HS HK Hs Hk. apply price_ok. right.
      rewrite HK. intros H. inversion H. lra.
Qed.

End WithPhi.

(** C1 at an expired call: [S = 150], [K = 140], [T = 0]. *)
Lemma edge_case_returns_intrinsic_value_witness :
  black_scholes_price Phi_test (NpNum (Fin 150)) (PyNum (Fin 140))
      (Fin 0) (Fin 0.045) (Fin 0.25) (VStr "call")
    = (Ok (Fin (Rmax 0 (150 - 140))), [])
  /\ black_scholes_price Phi_test (NpNum (Fin 150)) (PyNum (Fin 140))
      (Fin 0) (Fin 0.045) (Fin 0.25) (VStr "put")
    = (Ok (Fin (Rmax 0 (140 - 150))), []).
Proof.
  apply (edge_case_returns_intrinsic_value Phi_test
           (NpNum (Fin 150)) (PyNum (Fin 140)) 150 140 0 0.045 0.25).
  - reflexivity.
  - reflexivity.
  - left. lra.
Defined.

(** C10 at the upper-case spelling ['CALL']. *)
Lemma kind_dispatch_defaults_to_put_witness :
  let S := NpNum (Fin 150) in
  let K := PyNum (Fin 140) in
  black_scholes_price Phi_test S K (Fin 1) (Fin 0.045) (Fin 0.25) (VStr "CALL")
    = black_scholes_price Phi_test S K (Fin 1) (Fin 0.045) (Fin 0.25) (VStr "put")
  /\ black_scholes_price Phi_test S K (Fin 1) (Fin 0.045) (Fin 0.25) (VStr "CALL")
     = (Ok (Fin (140 * exp (- (0.045) * 1)
                     * Phi_test (- d2_of 150 140 1 0.045 0.25)
                 - 150 * Phi_test (- d1_of 150 140 1 0.045 0.25))),
        [NpLog; NpSqrt; NpSqrt; NpExp; NormCdf; NormCdf]).
Proof.
  intros S K.
  destruct (kind_dispatch_defaults_to_put Phi_test S K (Fin 1) (Fin 0.045)
              (Fin 0.25) (VStr "CALL")) as [Hsame [_ [Hput _]]].
  - discriminate.
  - split; [exact Hsame |].
    apply (Hput 150 140 1 0.045 0.25); try reflexivity; try lra.
    apply small_in_range. rewrite Rabs_right; lra.
Defined.

(** C4 outside the edge branch, at a built-in strike of zero: the call
    raises, and what it raises is [ZeroDivisionError]. *)
Lemma pricer_fails_only_on_zero_division_witness :
  (exists e, price Phi_test (PyNum (Fin 150)) (PyNum (Fin 0))
                   (Fin 1) (Fin 0.045) (Fin 0.25) (VStr "call") = Raise e)
  /\ forall e, price Phi_test (PyNum (Fin 150)) (PyNum (Fin 0))
                     (Fin 1) (Fin 0.045) (Fin 0.25) (VStr "call") = Raise e ->
               e = ZeroDivisionError.
Proof.
  destruct (pricer_fails_only_on_zero_division Phi_test (PyNum (Fin 150))
              (PyNum (Fin 0)) (Fin 1) (Fin 0.045) (Fin 0.25) (VStr "call"))
    as [_ Hrest].
  destruct Hrest as [Honly [Hiff _]].
  - apply small_in_range. rewrite Rabs_right; lra.
  - split; [| exact Honly].
    apply Hiff. split; [| split; [exists (Fin 150) |]; reflexivity].
    rewrite !fle_Fin_false by lra. reflexivity.
Defined.

(** C6 at [S = 150], [K = 150], [T = 30/365], [r = 0.045], [sigma = 0.25]. *)
Lemma put_call_parity_witness :
  exists c p : R,
    price Phi_test (NpNum (Fin 150)) (PyNum (Fin 150))
          (Fin (30 / 365)) (Fin 0.045) (Fin 0.25) (VStr "call") = Ok (Fin c)
    /\ price Phi_test (NpNum (Fin 150)) (PyNum (Fin 150))
          (Fin (30 / 365)) (Fin 0.045) (Fin 0.25) (VStr "put") = Ok (Fin p)
    /\ c - p = 150 - 150 * exp (- (0.045) * (30 / 365)).
Proof.
  apply (put_call_parity Phi_test (NpNum (Fin 150)) (PyNum (Fin 150))
           150 150 (30 / 365) 0.045 0.25).
  - exact Phi_test_symmetric.
  - reflexivity.
  - reflexivity.
  - lra.
  - lra.
  - lra.
  - lra.
Defined.

(** C4 refuted: with [S = -5 <= 0] the call returns the number 0; it does
    not fail. *)
Lemma nonpositive_spot_is_priced :
  black_scholes_price Phi_test (PyNum (Fin (-5))) (PyNum (Fin 10))
      (Fin 0) (Fin 0.045) (Fin 0.2) (VStr "call")
  = (Ok (Fin 0), []).
Proof.
  rewrite edge_branch by (apply edge_test; left; lra).
  simpl is_call. cbv iota. unfold fsub. simpl fneg. simpl fadd.
  rewrite py_max0_Fin. rewrite Rmax_left by lra. reflexivity.
Qed.

End PricerProps.

(** ** Columns, stores and single steps of the interpreter *)

Module StepLemmas.

Lemma get_set_same (cols : list (string * Series)) (k : string) (s : Series) :
  get_col (set_col cols k s) k = Some s.
Proof.
  induction cols as [| [k' s'] cols IH]; simpl.
  - rewrite String.eqb_refl. reflexivity.
  - destruct (String.eqb k' k) eqn:E; simpl.
    + rewrite String.eqb_refl. reflexivity.
    + rewrite E. exact IH.
Qed.

Lemma get_set_other (cols : list (string * Series)) (k k' : string) (s : Series) :
  String.eqb k k' = false ->
  get_col (set_col cols k s) k' = get_col cols k'.
Proof.
  intros Hne.
  induction cols as [| [k0 s0] cols IH]; simpl.
  - rewrite Hne. reflexivity.
  - destruct (String.eqb k0 k) eqn:E; simpl.
    + apply String.eqb_eq in E. subst k0. rewrite Hne. reflexivity.
    + rewrite IH. reflexivity.
Qed.

Lemma get_del_other (cols : list (string * Series)) (k k' : string) :
  String.eqb k k' = false ->
  get_col (del_col cols k) k' = get_col cols k'.
Proof.
  intros Hne.
  induction cols as [| [k0 s0] cols IH]; simpl.
  - reflexivity.
  - destruct (String.eqb k0 k) eqn:E; simpl.
    + apply String.eqb_eq in E. subst k0. rewrite Hne. exact IH.
    + rewrite IH. reflexivity.
Qed.

Lemma df_get_set_same (df : DataFrame) (k : string) (s : Series) :
  df_get (df_set df k s) k = Some s.
Proof. apply get_set_same. Qed.

Lemma df_get_set_other (df : DataFrame) (k k' : string) (s : Series) :
  String.eqb k k' = false ->
  df_get (df_set df k s) k' = df_get df k'.
Proof. apply get_set_other. Qed.

Lemma df_get_del_other (df : DataFrame) (k k' : string) :
  String.eqb k k' = false ->
  df_get (df_del df k) k' = df_get df k'.
Proof. apply get_del_other. Qed.

(** *** The store *)

Lemma lookup_fresh (h : list DataFrame) (df : DataFrame) :
  nth_error (h ++ [df]) (List.length h) = Some df.
Proof.
  rewrite nth_error_app2 by lia. rewrite Nat.sub_diag. reflexivity.
Qed.

Lemma update_fresh (h : list DataFrame) (df df' : DataFrame) :
  heap_update (h ++ [df]) (List.length h) df' = h ++ [df'].
Proof.
  induction h as [| d h IH]; simpl; [reflexivity |]. rewrite IH. reflexivity.
Qed.

(** *** One step at the freshly allocated frame

    After [df.copy()] every statement of the notebook's functions acts on
    the copy, which sits at the end of the store. *)

Section Steps.

Context {B : Type}.
Variables (c : Z) (h : list DataFrame) (df : DataFrame).

Let here : World := mkWorld c (h ++ [df]).

Lemma step_copy (l : loc) (df0 : DataFrame) (f : loc -> Py B) :
  nth_error h l = Some df0 ->
  bind (df_copy l) f (mkWorld c h)
    = f (List.length h) (mkWorld c (h ++ [df0])).
Proof.
  intros H. unfold bind, df_copy, bind, deref, alloc. simpl. rewrite H. reflexivity.
Qed.

Lemma step_copy_dangling (l : loc) (f : loc -> Py B) :
  nth_error h l = None ->
  bind (df_copy l) f (mkWorld c h) = (Raise AttributeError, mkWorld c h).
Proof.
  intros H. unfold bind, df_copy, bind, deref. simpl. rewrite H. reflexivity.
Qed.

Lemma step_getitem (k : string) (f : Series -> Py B) :
  bind (getitem (List.length h) k) f here
    = match df_get df k with
      | Some s => f s here
      | None => (Raise (KeyError k), here)
      end.
Proof.
  unfold bind, getitem, bind, deref, here. cbn [heap clock]. rewrite lookup_fresh.
  destruct (df_get df k); reflexivity.
Qed.

Lemma step_setitem (k : string) (s : Series) (f : unit -> Py B) :
  bind (setitem (List.length h) k s) f here
    = f tt (mkWorld c (h ++ [df_set df k s])).
Proof.
  unfold bind, setitem, bind, deref, store, here. cbn [heap clock].
  rewrite lookup_fresh. cbn [heap clock]. rewrite update_fresh. reflexivity.
Qed.

Lemma step_setitem_scalar (k : string) (v : value) (f : unit -> Py B) :
  bind (setitem_scalar (List.length h) k v) f here
    = f tt (mkWorld c (h ++ [df_set df k (broadcast v (nrows df))])).
Proof.
  unfold bind, setitem_scalar, bind, deref, store, here. cbn [heap clock].
  rewrite lookup_fresh. cbn [heap clock]. rewrite update_fresh. reflexivity.
Qed.

Lemma step_drop (k : string) (f : unit -> Py B) :
  bind (drop_inplace (List.length h) k) f here
    = match df_get df k with
      | Some _ => f tt (mkWorld c (h ++ [df_del df k]))
      | None => (Raise (KeyError k), here)
      end.
Proof.
  unfold bind, drop_inplace, bind, deref, store, raise, here. cbn [heap clock].
  rewrite lookup_fresh.
  destruct (df_get df k); cbn [heap clock]; [rewrite update_fresh |]; reflexivity.
Qed.

Lemma step_apply (g : Row -> result pyfloat) (f : Series -> Py B) :
  bind (df_apply (List.length h) g) f here
    = match mapM (fun i => g (row_of (columns df) i)) (seq 0 (nrows df)) with
      | Ok xs => f (FloatCol xs) here
      | Raise e => (Raise e, here)
      end.
Proof.
  unfold bind, df_apply, bind, deref, lift, here. cbn [heap clock].
  rewrite lookup_fresh.
  destruct (mapM _ _); reflexivity.
Qed.

Lemma step_today (f : Z -> Py B) :
  bind timestamp_today f here = f c here.
Proof. reflexivity. Qed.

End Steps.

Lemma step_lift {A B} (r : result A) (f : A -> Py B) (w : World) :
  bind (lift r) f w
    = match r with
      | Ok a => f a w
      | Raise e => (Raise e, w)
      end.
Proof. unfold bind, lift. destruct r; reflexivity. Qed.

End StepLemmas.
Import StepLemmas.

(** ** The enricher *)

Module EnricherProps.

Local Open Scope Z_scope.

Lemma parse_all (es : list string) (ds : list (Z * Z * Z)) :
  Forall2 (fun e d => parse_iso_date e = Some d) es ds ->
  mapM parse_timestamp es = Ok (map timestamp_of_date ds).
Proof.
  induction 1 as [| e d es ds He _ IH]; simpl; [reflexivity |].
  unfold parse_timestamp at 1. rewrite He. simpl. rewrite IH. reflexivity.
Qed.

Lemma zip_sub_repeat (ts : list Z) (t : Z) (n : nat) :
  List.length ts = n ->
  zip_with Z.sub ts (repeat t n) = map (fun x => x - t) ts.
Proof.
  revert n. induction ts as [| x ts IH]; intros n Hn; subst n; simpl.
  - reflexivity.
  - unfold zip_with in *. simpl. f_equal. apply IH. reflexivity.
Qed.

(** days between midnight of a date and the normalised current time *)
Lemma days_between (ymd : Z * Z * Z) (c : Z) :
  delta_days (timestamp_of_date ymd - normalize c)
    = (let '(y, m, d) := ymd in epoch_day y m d) - c / ns_per_day.
Proof.
  destruct ymd as [[y m] d]. unfold delta_days, timestamp_of_date, normalize.
  assert (HN : ns_per_day <> 0) by (unfold ns_per_day; lia).
  rewrite Z.mod_eq by exact HN.
  replace (epoch_day y m d * ns_per_day - (c - (c - ns_per_day * (c / ns_per_day))))
    with ((epoch_day y m d - c / ns_per_day) * ns_per_day) by ring.
  apply Z.div_mul. exact HN.
Qed.

Lemma enrich_run (c : Z) (h : list DataFrame) (l : loc) (df : DataFrame)
  (up : pyfloat) (sk : Series) (ks : list pyfloat) (es : list string)
  (ts : list Z) :
  nth_error h l = Some df ->
  df_get df "strike" = Some sk -> as_floats sk = Some ks ->
  df_get df "expiration" = Some (StrCol es) ->
  mapM parse_timestamp es = Ok ts ->
  enrich_option_data l up (mkWorld c h)
    = (Ok (List.length h), mkWorld c (h ++ [enriched c up df ks ts])).
Proof.
  intros Hl Hsk Hks Hex Hts.
  unfold enrich_option_data.
  rewrite (step_copy c h l df) by exact Hl.
  rewrite step_getitem, Hsk.
  rewrite step_lift. unfold series_truediv. rewrite Hks.
  rewrite step_setitem, step_today, step_setitem_scalar.
  rewrite step_getitem.
  rewrite !df_get_set_other by reflexivity. rewrite Hex.
  rewrite step_lift. cbn [to_datetime]. rewrite Hts. cbn [rbind].
  rewrite step_setitem, step_getitem, df_get_set_same.
  rewrite step_getitem.
  rewrite df_get_set_other by reflexivity. rewrite df_get_set_same.
  cbn [broadcast].
  rewrite step_lift. cbn [series_sub].
  rewrite step_lift. cbn [dt_days].
  rewrite step_setitem, step_drop.
  rewrite !df_get_set_other by reflexivity. rewrite df_get_set_same.
  reflexivity.
Qed.

End EnricherProps.

(** ** Rows and element-wise maps *)

Module RowLemmas.

Lemma mapM_nth {A B} (f : A -> result B) (l : list A) (bs : list B) :
  mapM f l = Ok bs ->
  forall i a, nth_error l i = Some a ->
  exists b, nth_error bs i = Some b /\ f a = Ok b.
Proof.
  revert bs. induction l as [| a0 l IH]; intros bs H i a Hi.
  - destruct i; discriminate.
  - simpl in H.
    destruct (f a0) as [b0 | e] eqn:E0; simpl in H; [| discriminate].
    destruct (mapM f l) as [bs' | e]; simpl in H; [| discriminate].
    inversion H; subst bs. destruct i as [| i]; simpl in Hi.
    + inversion Hi; subst a0. exists b0. split; [reflexivity | exact E0].
    + simpl. apply (IH bs' eq_refl i a Hi).
Qed.

Lemma mapM_total {A B} (f : A -> result B) (l : list A) :
  (forall i a, nth_error l i = Some a -> exists b, f a = Ok b) ->
  exists bs, mapM f l = Ok bs.
Proof.
  induction l as [| a l IH]; intros H; simpl.
  - exists []. reflexivity.
  - destruct (H 0%nat a eq_refl) as [b Hb]. rewrite Hb. simpl.
    destruct IH as [bs Hbs].
    { intros i a' Hi. apply (H (S i) a' Hi). }
    rewrite Hbs. simpl. exists (b :: bs). reflexivity.
Qed.

Lemma row_get_of (cols : list (string * Series)) (k : string) (s : Series)
  (i : nat) (v : value) :
  get_col cols k = Some s -> cell s i = Some v ->
  row_get (row_of cols i) k = Ok v.
Proof.
  induction cols as [| [k0 s0] cols IH]; simpl; [discriminate |].
  intros Hget Hcell.
  destruct (String.eqb k0 k) eqn:E.
  - inversion Hget; subst s0. rewrite Hcell. simpl. rewrite E. reflexivity.
  - destruct (cell s0 i); simpl; [rewrite E |]; apply IH; assumption.
Qed.

Lemma cell_of_floats (s : Series) (xs : list pyfloat) (i : nat) (x : pyfloat) :
  as_floats s = Some xs -> nth_error xs i = Some x ->
  exists v, cell s i = Some v /\ to_float v = Ok x.
Proof.
  intros Hs Hx. destruct s as [l | l | l | l | l]; simpl in Hs; try discriminate.
  - inversion Hs; subst l. exists (VFloat x). simpl. rewrite Hx. split; reflexivity.
  - inversion Hs; subst xs. rewrite nth_error_map in Hx.
    destruct (nth_error l i) as [z |] eqn:Hz; simpl in Hx; [| discriminate].
    inversion Hx; subst x. exists (VInt z). simpl. rewrite Hz. split; reflexivity.
Qed.

Lemma row_float_of (cols : list (string * Series)) (k : string) (s : Series)
  (xs : list pyfloat) (i : nat) (x : pyfloat) :
  get_col cols k = Some s -> as_floats s = Some xs -> nth_error xs i = Some x ->
  row_float (row_of cols i) k = Ok x.
Proof.
  intros Hget Hs Hx.
  destruct (cell_of_floats s xs i x Hs Hx) as [v [Hc Hv]].
  unfold row_float. rewrite (row_get_of cols k s i v Hget Hc). exact Hv.
Qed.

Lemma zip_with_nth {A B C} (f : A -> B -> C) (l1 : list A) (l2 : list B)
  (i : nat) (a : A) (b : B) :
  nth_error l1 i = Some a -> nth_error l2 i = Some b ->
  nth_error (zip_with f l1 l2) i = Some (f a b).
Proof.
  revert l2 i. induction l1 as [| a1 l1 IH]; intros l2 i H1 H2.
  - destruct i; discriminate.
  - destruct l2 as [| b2 l2]; [destruct i; discriminate |].
    destruct i as [| i]; simpl in *.
    + inversion H1; inversion H2; subst. reflexivity.
    + apply IH; assumption.
Qed.

Lemma series_sub_floats (a : Series) (xs ys : list pyfloat) :
  as_floats a = Some xs ->
  series_sub a (FloatCol ys) = Ok (FloatCol (zip_with fsub xs ys)).
Proof.
  intros Ha. destruct a; simpl in Ha; try discriminate;
    inversion Ha; subst; reflexivity.
Qed.

End RowLemmas.
Import RowLemmas.

(** ** The batch driver *)

Module DriverProps.

Section WithPhi.

Variable Phi : R -> R.

Lemma calc_run (c : Z) (h : list DataFrame) (l : loc) (df : DataFrame)
  (S : scalar) (r : option pyfloat) (dcol lcol : Series)
  (ds ps lps : list pyfloat) :
  nth_error h l = Some df ->
  df_get df "days_to_expiration" = Some dcol -> as_floats dcol = Some ds ->
  mapM (fun i => price_row Phi S (rate r) (row_of (columns (with_T df ds)) i))
       (seq 0 (nrows df)) = Ok ps ->
  df_get df "lastPrice" = Some lcol -> as_floats lcol = Some lps ->
  calculate_bs_prices Phi l S r (mkWorld c h)
    = (Ok (List.length h), mkWorld c (h ++ [priced df ds ps lps])).
Proof.
  intros Hl Hd Hds Hps Hlast Hlps.
  unfold calculate_bs_prices. fold (rate r).
  rewrite (step_copy c h l df) by exact Hl.
  rewrite step_getitem, Hd.
  rewrite step_lift. unfold series_truediv. rewrite Hds.
  rewrite step_setitem. fold (with_T df ds).
  rewrite step_apply. cbn [nrows with_T df_set]. fold (with_T df ds).
  rewrite Hps.
  rewrite step_setitem, step_getitem.
  rewrite df_get_set_other by reflexivity.
  unfold with_T at 1. rewrite df_get_set_other by reflexivity. rewrite Hlast.
  rewrite step_getitem, df_get_set_same.
  rewrite step_lift, (series_sub_floats lcol lps ps Hlps).
  rewrite step_setitem. reflexivity.
Qed.

(** what the function handed to [df.apply] computes on row [i] *)
Lemma price_row_at (df : DataFrame) (S : scalar) (r : pyfloat)
  (ks ds sgs : list pyfloat) (tys : list value)
  (i : nat) (k d sg : pyfloat) (ty : value) :
  has_numbers df "strike" ks ->
  has_numbers df "impliedVolatility" sgs ->
  has_cells df "type" tys ->
  nth_error ks i = Some k -> nth_error ds i = Some d ->
  nth_error sgs i = Some sg -> nth_error tys i = Some ty ->
  price_row Phi S r (row_of (columns (with_T df ds)) i)
    = price Phi S (PyNum k) (fdiv d (Fin 365)) r sg ty.
Proof.
  intros [sk [Hsk [Hks Hlk]]] [ss [Hss [Hsgs _]]] [st [Hst [Hcells _]]] Hk Hd Hsg Hty.
  assert (Hi : (i < nrows df)%nat).
  { rewrite <- Hlk. apply nth_error_Some. congruence. }
  unfold price_row, with_T, df_set. cbn [columns].
  rewrite (row_float_of _ "strike" sk ks i k); try assumption;
    [| rewrite get_set_other by reflexivity; exact Hsk].
  cbn [rbind].
  rewrite (row_float_of _ "T" (FloatCol (map (fun a => fdiv a (Fin 365)) ds))
             (map (fun a => fdiv a (Fin 365)) ds) i (fdiv d (Fin 365)));
    [| apply get_set_same | reflexivity | rewrite nth_error_map, Hd; reflexivity].
  cbn [rbind].
  rewrite (row_float_of _ "impliedVolatility" ss sgs i sg); try assumption;
    [| rewrite get_set_other by reflexivity; exact Hss].
  cbn [rbind].
  rewrite (row_get_of _ "type" st i ty);
    [| rewrite get_set_other by reflexivity; exact Hst
     | rewrite (Hcells i Hi); exact Hty].
  reflexivity.
Qed.

(** The driver on a well-formed batch in which every row can be priced
    hands back [priced df ds ps lps], where [ps] lists the rows' prices. *)
Lemma driver_rows (c : Z) (h : list DataFrame) (l : loc) (df : DataFrame)
  (S : scalar) (r : option pyfloat)
  (ks ds sgs lps : list pyfloat) (tys : list value) :
  nth_error h l = Some df ->
  has_numbers df "strike" ks ->
  has_numbers df "days_to_expiration" ds ->
  has_numbers df "impliedVolatility" sgs ->
  has_numbers df "lastPrice" lps ->
  has_cells df "type" tys ->
  (forall i k d sg ty,
      nth_error ks i = Some k -> nth_error ds i = Some d ->
      nth_error sgs i = Some sg -> nth_error tys i = Some ty ->
      exists p, price Phi S (PyNum k) (fdiv d (Fin 365)) (rate r) sg ty = Ok p) ->
  exists ps,
    calculate_bs_prices Phi l S r (mkWorld c h)
      = (Ok (List.length h), mkWorld c (h ++ [priced df ds ps lps]))
    /\ forall i k d sg ty,
        nth_error ks i = Some k -> nth_error ds i = Some d ->
        nth_error sgs i = Some sg -> nth_error tys i = Some ty ->
        exists p,
          nth_error ps i = Some p
          /\ price Phi S (PyNum k) (fdiv d (Fin 365)) (rate r) sg ty = Ok p.
Proof.
  intros Hl Hks Hds Hsgs Hlps Htys Hsafe.
  pose proof Hks as [sk [Hsk [Hks' Hlk]]].
  pose proof Hds as [sd [Hsd [Hds' Hld]]].
  pose proof Hsgs as [ss [Hss [Hsgs' Hls]]].
  pose proof Hlps as [sl [Hsl [Hlps' Hll]]].
  pose proof Htys as [st [Hst [Hcells Hlt]]].
  (* every index below [nrows df] has its fields *)
  assert (Hfields : forall i, (i < nrows df)%nat ->
            exists k d sg ty, nth_error ks i = Some k /\ nth_error ds i = Some d
              /\ nth_error sgs i = Some sg /\ nth_error tys i = Some ty).
  { intros i Hi.
    destruct (nth_error ks i) as [k |] eqn:Ek;
      [| apply nth_error_None in Ek; lia].
    destruct (nth_error ds i) as [d |] eqn:Ed;
      [| apply nth_error_None in Ed; lia].
    destruct (nth_error sgs i) as [sg |] eqn:Es;
      [| apply nth_error_None in Es; lia].
    destruct (nth_error tys i) as [ty |] eqn:Et;
      [| apply nth_error_None in Et; lia].
    exists k, d, sg, ty. repeat split. }
  destruct (mapM_total
              (fun i => price_row Phi S (rate r) (row_of (columns (with_T df ds)) i))
              (seq 0 (nrows df))) as [ps Hps].
  { intros j i Hj.
    assert (Hi : (i < nrows df)%nat).
    { apply nth_error_In in Hj. apply in_seq in Hj. lia. }
    destruct (Hfields i Hi) as [k [d [sg [ty [Ek [Ed [Es Et]]]]]]].
    rewrite (price_row_at df S (rate r) ks ds sgs tys i k d sg ty) by assumption.
    apply (Hsafe i k d sg ty); assumption. }
  exists ps. split.
  - apply (calc_run c h l df S r sd sl ds ps lps); assumption.
  - intros i k d sg ty Ek Ed Es Et.
    assert (Hi : (i < nrows df)%nat).
    { rewrite <- Hlk. apply nth_error_Some. congruence. }
    assert (Hseq : nth_error (seq 0 (nrows df)) i = Some i).
    { rewrite nth_error_seq.
      destruct (Nat.ltb_spec i (nrows df)); [reflexivity | lia]. }
    destruct (mapM_nth _ _ _ Hps i i Hseq) as [p [Hp Hrow]].
    rewrite (price_row_at df S (rate r) ks ds sgs tys i k d sg ty) in Hrow
      by assumption.
    exists p. split; assumption.
Qed.

(** the columns of [priced] *)
Lemma priced_T (df : DataFrame) (ds ps lps : list pyfloat) (i : nat) (d : pyfloat) :
  nth_error ds i = Some d ->
  float_at (priced df ds ps lps) "T" i = Some (fdiv d (Fin 365)).
Proof.
  intros Hd. unfold float_at, priced, with_T.
  rewrite !df_get_set_other by reflexivity. rewrite df_get_set_same.
  rewrite nth_error_map, Hd. reflexivity.
Qed.

Lemma priced_bs_price (df : DataFrame) (ds ps lps : list pyfloat) (i : nat) :
  float_at (priced df ds ps lps) "bs_price" i = nth_error ps i.
Proof.
  unfold float_at, priced.
  rewrite df_get_set_other by reflexivity. rewrite df_get_set_same. reflexivity.
Qed.

Lemma priced_error (df : DataFrame) (ds ps lps : list pyfloat) (i : nat)
  (lp p : pyfloat) :
  nth_error lps i = Some lp -> nth_error ps i = Some p ->
  float_at (priced df ds ps lps) "pricing_error" i = Some (fsub lp p).
Proof.
  intros Hl Hp. unfold float_at, priced. rewrite df_get_set_same.
  apply zip_with_nth; assumption.
Qed.

Lemma priced_other (df : DataFrame) (ds ps lps : list pyfloat) (k : string) :
  String.eqb "T" k = false -> String.eqb "bs_price" k = false ->
  String.eqb "pricing_error" k = false ->
  df_get (priced df ds ps lps) k = df_get df k.
Proof.
  intros H1 H2 H3. unfold priced, with_T.
  rewrite !df_get_set_other by assumption. reflexivity.
Qed.

Lemma observe_fresh (c : Z) (h : list DataFrame) (df : DataFrame) :
  observe (Ok (List.length h), mkWorld c (h ++ [df])) = Ok df.
Proof. unfold observe. cbn [heap]. rewrite lookup_fresh. reflexivity. Qed.

Lemma rows_safe (S : scalar) (ks : list pyfloat) (i : nat) (k T r sg : pyfloat)
  (ty : value) :
  no_zero_division S ks -> nth_error ks i = Some k ->
  exists p, price Phi S (PyNum k) T r sg ty = Ok p.
Proof.
  intros Hsafe Hk. apply PricerProps.price_ok.
  destruct Hsafe as [Hnp | Hall]; [left; exact Hnp | right].
  rewrite Forall_forall in Hall. apply Hall.
  apply nth_error_In with (n := i). exact Hk.
Qed.

(** C2: for each record of the batch the driver's [bs_price] is
    [black_scholes_price(S, strike, days/365, r, impliedVolatility, type)]
    for the one batch-wide [S], its [pricing_error] is [lastPrice] minus
    that price, and the rate of a call that leaves it out is 0.045. *)
Theorem driver_prices_each_record
  (c : Z) (h : list DataFrame) (l : loc) (df : DataFrame)
  (S : scalar) (r : option pyfloat)
  (ks ds sgs lps : list pyfloat) (tys : list value) :
  nth_error h l = Some df ->
  has_numbers df "strike" ks ->
  has_numbers df "days_to_expiration" ds ->
  has_numbers df "impliedVolatility" sgs ->
  has_numbers df "lastPrice" lps ->
  has_cells df "type" tys ->
  no_zero_division S ks ->
  let r0 := match r with Some x => x | None => Fin 0.045 end in
  exists df',
    outcome (calculate_bs_prices Phi l S r) (mkWorld c h) = Ok df'
    /\ nrows df' = nrows df
    /\ forall i k d sg ty lp,
        nth_error ks i = Some k -> nth_error ds i = Some d ->
        nth_error sgs i = Some sg -> nth_error tys i = Some ty ->
        nth_error lps i = Some lp ->
        exists p,
          price Phi S (PyNum k) (fdiv d (Fin 365)) r0 sg ty = Ok p
          /\ float_at df' "T" i = Some (fdiv d (Fin 365))
          /\ float_at df' "bs_price" i = Some p
          /\ float_at df' "pricing_error" i = Some (fsub lp p).
Proof.
  intros Hl Hks Hds Hsgs Hlps Htys Hsafe r0.
  destruct (driver_rows c h l df S r ks ds sgs lps tys) as [ps [Hrun Hrows]];
    try assumption.
  { intros i k d sg ty Ek _ _ _. apply (rows_safe S ks i); assumption. }
  exists (priced df ds ps lps). split; [| split].
  - unfold outcome. rewrite Hrun. apply observe_fresh.
  - reflexivity.
  - intros i k d sg ty lp Ek Ed Es Et El.
    destruct (Hrows i k d sg ty Ek Ed Es Et) as [p [Hp Hprice]].
    exists p. split; [exact Hprice |]. split; [| split].
    + apply priced_T; exact Ed.
    + rewrite priced_bs_price. exact Hp.
    + apply priced_error; assumption.
Qed.

Lemma truediv_safe (S : scalar) (ks : list pyfloat) (i : nat) (k : pyfloat) :
  no_zero_division S ks -> nth_error ks i = Some k ->
  exists q, py_truediv S (PyNum k) = Ok q.
Proof.
  intros Hsafe Hk.
  destruct S as [x | x]; [| eexists; reflexivity].
  destruct Hsafe as [[y Hy] | Hall]; [discriminate |].
  rewrite Forall_forall in Hall.
  assert (Hne : k <> Fin 0) by (apply Hall; apply nth_error_In with (n := i); exact Hk).
  simpl. destruct (is_zero k) eqn:Ez; [| eexists; reflexivity].
  apply is_zero_true in Ez. contradiction.
Qed.

(** C3, as the code has it: a missing (NaN) implied volatility never aborts
    the batch and is never reported.  Every record is kept and priced on its
    own fields; with [T > 0] a NaN volatility makes the record's price and
    pricing error NaN, and with [T <= 0] the record is priced at its
    intrinsic value like any other. *)
Theorem missing_volatility_does_not_abort
  (c : Z) (h : list DataFrame) (l : loc) (df : DataFrame)
  (S : scalar) (r : option pyfloat)
  (ks ds sgs lps : list pyfloat) (tys : list value) :
  nth_error h l = Some df ->
  has_numbers df "strike" ks ->
  has_numbers df "days_to_expiration" ds ->
  has_numbers df "impliedVolatility" sgs ->
  has_numbers df "lastPrice" lps ->
  has_cells df "type" tys ->
  no_zero_division S ks ->
  exists df',
    outcome (calculate_bs_prices Phi l S r) (mkWorld c h) = Ok df'
    /\ nrows df' = nrows df
    /\ forall i k d sg ty lp,
        nth_error ks i = Some k -> nth_error ds i = Some d ->
        nth_error sgs i = Some sg -> nth_error tys i = Some ty ->
        nth_error lps i = Some lp ->
        exists p,
          price Phi S (PyNum k) (fdiv d (Fin 365)) (rate r) sg ty = Ok p
          /\ float_at df' "bs_price" i = Some p
          /\ float_at df' "pricing_error" i = Some (fsub lp p)
          /\ (sg = NaN -> fle (fdiv d (Fin 365)) (Fin 0) = false ->
              p = NaN /\ fsub lp p = NaN)
          /\ (sg = NaN -> fle (fdiv d (Fin 365)) (Fin 0) = true ->
              p = if is_call ty then py_max0 (fsub (val S) k)
                  else py_max0 (fsub k (val S))).
Proof.
  intros Hl Hks Hds Hsgs Hlps Htys Hsafe.
  destruct (driver_rows c h l df S r ks ds sgs lps tys) as [ps [Hrun Hrows]];
    try assumption.
  { intros i k d sg ty Ek _ _ _. apply (rows_safe S ks i); assumption. }
  exists (priced df ds ps lps). split; [| split].
  - unfold outcome. rewrite Hrun. apply observe_fresh.
  - reflexivity.
  - intros i k d sg ty lp Ek Ed Es Et El.
    destruct (Hrows i k d sg ty Ek Ed Es Et) as [p [Hp Hprice]].
    exists p. split; [exact Hprice |]. split; [| split; [| split]].
    + rewrite priced_bs_price. exact Hp.
    + apply priced_error; assumption.
    + intros Hnan HT. subst sg.
      destruct (truediv_safe S ks i k Hsafe Ek) as [q Hq].
      rewrite (PricerProps.price_nan_sigma Phi S (PyNum k) _ (rate r) q ty HT Hq)
        in Hprice.
      inversion Hprice; subst p. split; [reflexivity | apply PricerProps.fsub_NaN_r].
    + intros Hnan HT. subst sg.
      unfold price in Hprice.
      rewrite PricerProps.edge_branch in Hprice by (rewrite HT; reflexivity).
      simpl in Hprice. inversion Hprice. reflexivity.
Qed.

End WithPhi.

End DriverProps.

(** ** Two runs side by side *)

Module TwoRuns.

Lemma same_ok_here (h1 h2 : list DataFrame) (c1 c2 : Z) (df' : DataFrame) :
  same_run h1 h2 c1 c2
    (Ok (List.length h1), mkWorld c1 (h1 ++ [df']))
    (Ok (List.length h2), mkWorld c2 (h2 ++ [df'])).
Proof.
  pose proof (same_ok h1 h2 c1 c2 [] df') as H.
  rewrite !app_nil_r in H. exact H.
Qed.

Lemma same_raise_here (h1 h2 : list DataFrame) (c1 c2 : Z) (e : exn)
  (df' : DataFrame) :
  same_run h1 h2 c1 c2
    (Raise e, mkWorld c1 (h1 ++ [df']))
    (Raise e, mkWorld c2 (h2 ++ [df'])).
Proof. apply (same_raise h1 h2 c1 c2 e [df']). Qed.

Lemma same_raise_dangling (h1 h2 : list DataFrame) (c1 c2 : Z) (e : exn) :
  same_run h1 h2 c1 c2 (Raise e, mkWorld c1 h1) (Raise e, mkWorld c2 h2).
Proof.
  pose proof (same_raise h1 h2 c1 c2 e []) as H.
  rewrite !app_nil_r in H. exact H.
Qed.

(** one statement of the function body, on both sides *)
Ltac steps :=
  repeat first
    [ rewrite step_getitem | rewrite step_setitem | rewrite step_setitem_scalar
    | rewrite step_today | rewrite step_lift | rewrite step_drop
    | rewrite step_apply
    | rewrite df_get_set_same | rewrite df_get_set_other by reflexivity ];
  cbv beta.

(** the next test of the function body, on both sides *)
Ltac fork :=
  match goal with
  | |- same_run _ _ _ _ (match ?x with _ => _ end) _ => destruct x
  end.

Ltac finish :=
  first [ apply same_raise_here | apply same_ok_here | apply same_raise_dangling ].

Section WithPhi.

Variable Phi : R -> R.

Lemma enrich_same_run (c1 c2 : Z) (h1 h2 : list DataFrame) (l1 l2 : loc)
  (up : pyfloat) :
  nth_error h1 l1 = nth_error h2 l2 ->
  normalize c1 = normalize c2 ->
  same_run h1 h2 c1 c2
    (enrich_option_data l1 up (mkWorld c1 h1))
    (enrich_option_data l2 up (mkWorld c2 h2)).
Proof.
  intros Hl Hc. unfold enrich_option_data.
  destruct (nth_error h2 l2) as [df |] eqn:H2.
  - rewrite (step_copy c1 h1 l1 df) by exact Hl.
    rewrite (step_copy c2 h2 l2 df) by exact H2.
    steps. fork; [| finish].
    steps. fork; [| finish].
    steps. rewrite Hc. fork; [| finish].
    steps. fork; [| finish].
    steps. fork; [| finish].
    steps. fork; [| finish].
    steps. unfold ret. finish.
  - rewrite (step_copy_dangling c1 h1 l1) by exact Hl.
    rewrite (step_copy_dangling c2 h2 l2) by exact H2.
    finish.
Qed.

Lemma calc_same_run (c1 c2 : Z) (h1 h2 : list DataFrame) (l1 l2 : loc)
  (S : scalar) (r : option pyfloat) :
  nth_error h1 l1 = nth_error h2 l2 ->
  same_run h1 h2 c1 c2
    (calculate_bs_prices Phi l1 S r (mkWorld c1 h1))
    (calculate_bs_prices Phi l2 S r (mkWorld c2 h2)).
Proof.
  intros Hl. unfold calculate_bs_prices.
  destruct (nth_error h2 l2) as [df |] eqn:H2.
  - rewrite (step_copy c1 h1 l1 df) by exact Hl.
    rewrite (step_copy c2 h2 l2 df) by exact H2.
    steps. fork; [| finish].
    steps. fork; [| finish].
    steps. cbn [nrows columns df_set]. fork; [| finish].
    steps. fork; [| finish].
    steps. fork; [| finish].
    steps. unfold ret. finish.
  - rewrite (step_copy_dangling c1 h1 l1) by exact Hl.
    rewrite (step_copy_dangling c2 h2 l2) by exact H2.
    finish.
Qed.

Lemma same_run_weaken (h1 h2 pre : list DataFrame) (c1 c2 : Z)
  (o1 o2 : result loc * World) :
  same_run (h1 ++ pre) (h2 ++ pre) c1 c2 o1 o2 -> same_run h1 h2 c1 c2 o1 o2.
Proof.
  intros H. destruct H as [news df' | e news].
  - rewrite <- !(app_assoc _ pre news), <- !(app_assoc _ pre (news ++ [df'])).
    rewrite (app_assoc pre news [df']).
    apply (same_ok h1 h2 c1 c2 (pre ++ news) df').
  - rewrite <- !(app_assoc _ pre news).
    apply (same_raise h1 h2 c1 c2 e (pre ++ news)).
Qed.

Lemma pipeline_same_run (c1 c2 : Z) (h1 h2 : list DataFrame) (l1 l2 : loc)
  (S : scalar) :
  nth_error h1 l1 = nth_error h2 l2 ->
  normalize c1 = normalize c2 ->
  same_run h1 h2 c1 c2
    (pipeline Phi l1 S (mkWorld c1 h1))
    (pipeline Phi l2 S (mkWorld c2 h2)).
Proof.
  intros Hl Hc. unfold pipeline, bind.
  pose proof (enrich_same_run c1 c2 h1 h2 l1 l2 (val S) Hl Hc) as H.
  destruct H as [news df' | e news].
  - apply (same_run_weaken h1 h2 (news ++ [df'])).
    rewrite !app_assoc.
    apply calc_same_run.
    rewrite <- !app_assoc.
    rewrite !(app_assoc _ news [df']), !lookup_fresh. reflexivity.
  - apply same_raise.
Qed.

End WithPhi.

(** Both calls hand back the same frame or raise the same exception. *)
Lemma same_run_observe (h1 h2 : list DataFrame) (c1 c2 : Z)
  (o1 o2 : result loc * World) :
  same_run h1 h2 c1 c2 o1 o2 -> observe o1 = observe o2.
Proof.
  intros H. destruct H as [news df' | e news]; unfold observe; cbn [heap].
  - rewrite !(app_assoc _ news [df']), !lookup_fresh. reflexivity.
  - reflexivity.
Qed.

Lemma same_run_intact (h : list DataFrame) (c : Z) (o o' : result loc * World) :
  same_run h h c c o o' -> leaves_store_intact (mkWorld c h) o.
Proof.
  intros H. destruct H as [news df' | e news]; unfold leaves_store_intact;
    cbn [fst snd heap clock]; (split; [reflexivity | split]).
  - intros l0 df0 H0. rewrite nth_error_app1; [exact H0 |].
    apply nth_error_Some. congruence.
  - intros l' Hl'. inversion Hl'; subst l'. split.
    + apply nth_error_None. rewrite length_app. lia.
    + exists df'. rewrite (app_assoc _ news [df']). apply lookup_fresh.
  - intros l0 df0 H0. rewrite nth_error_app1; [exact H0 |].
    apply nth_error_Some. congruence.
  - intros l' Hl'. discriminate.
Qed.

End TwoRuns.

(** ** The enricher and the pipeline on well-formed option chains *)

Module PipelineProps.

Import EnricherProps DriverProps.

Lemma days_column (c : Z) (ds : list (Z * Z * Z)) (n : nat) :
  List.length ds = n ->
  map delta_days (zip_with Z.sub (map timestamp_of_date ds) (repeat (normalize c) n))
    = days_left c ds.
Proof.
  intros Hn. rewrite zip_sub_repeat by (rewrite length_map; exact Hn).
  unfold days_left. rewrite !map_map. apply map_ext.
  intros ymd. rewrite days_between. destruct ymd as [[y m] d]. reflexivity.
Qed.

Lemma dates_length (df : DataFrame) (k : string) (es : list string)
  (ds : list (Z * Z * Z)) :
  has_dates df k es ds -> List.length ds = nrows df.
Proof.
  intros [_ [Hall Hlen]]. rewrite <- Hlen. symmetry.
  apply (Forall2_length Hall).
Qed.

Section Enriched.

Variables (c : Z) (up : pyfloat) (df : DataFrame) (ks : list pyfloat)
  (ds : list (Z * Z * Z)).

Let E : DataFrame := enriched c up df ks (map timestamp_of_date ds).

Lemma enriched_moneyness (i : nat) (k : pyfloat) :
  nth_error ks i = Some k ->
  float_at E "moneyness" i = Some (fdiv k up).
Proof.
  intros Hk. unfold float_at, E, enriched.
  rewrite df_get_del_other by reflexivity.
  rewrite !df_get_set_other by reflexivity. rewrite df_get_set_same.
  rewrite nth_error_map, Hk. reflexivity.
Qed.

Lemma enriched_days_column :
  List.length ds = nrows df ->
  df_get E "days_to_expiration" = Some (IntCol (days_left c ds)).
Proof.
  intros Hlen. unfold E, enriched.
  rewrite df_get_del_other by reflexivity. rewrite df_get_set_same.
  rewrite days_column by exact Hlen. reflexivity.
Qed.

Lemma enriched_days (i : nat) (ymd : Z * Z * Z) :
  List.length ds = nrows df ->
  nth_error ds i = Some ymd ->
  int_at E "days_to_expiration" i = Some (day_of ymd - c / ns_per_day)%Z.
Proof.
  intros Hlen Hd. unfold int_at. rewrite enriched_days_column by exact Hlen.
  unfold days_left. rewrite nth_error_map, Hd. reflexivity.
Qed.

Lemma enriched_other (k : string) :
  String.eqb "moneyness" k = false -> String.eqb "current_date" k = false ->
  String.eqb "expiration" k = false ->
  String.eqb "days_to_expiration" k = false ->
  df_get E k = df_get df k.
Proof.
  intros H1 H2 H3 H4. unfold E, enriched.
  rewrite df_get_del_other by assumption.
  rewrite !df_get_set_other by assumption. reflexivity.
Qed.

Lemma enriched_numbers (k : string) (xs : list pyfloat) :
  String.eqb "moneyness" k = false -> String.eqb "current_date" k = false ->
  String.eqb "expiration" k = false ->
  String.eqb "days_to_expiration" k = false ->
  has_numbers df k xs -> has_numbers E k xs.
Proof.
  intros H1 H2 H3 H4 [s [Hs [Hxs Hlen]]]. exists s.
  rewrite enriched_other by assumption. repeat split; assumption.
Qed.

Lemma enriched_cells (k : string) (vs : list value) :
  String.eqb "moneyness" k = false -> String.eqb "current_date" k = false ->
  String.eqb "expiration" k = false ->
  String.eqb "days_to_expiration" k = false ->
  has_cells df k vs -> has_cells E k vs.
Proof.
  intros H1 H2 H3 H4 [s [Hs [Hc Hlen]]]. exists s.
  rewrite enriched_other by assumption. repeat split; assumption.
Qed.

Lemma enriched_days_numbers :
  List.length ds = nrows df ->
  has_numbers E "days_to_expiration"
    (map (fun z => Fin (IZR z)) (days_left c ds)).
Proof.
  intros Hlen. exists (IntCol (days_left c ds)).
  rewrite enriched_days_column by exact Hlen.
  repeat split. unfold days_left. rewrite !length_map. exact Hlen.
Qed.

End Enriched.

(** The enricher on a chain with numeric strikes and ISO expiration dates. *)
Lemma enrich_rows (c : Z) (h : list DataFrame) (l : loc) (df : DataFrame)
  (up : pyfloat) (ks : list pyfloat) (es : list string)
  (ds : list (Z * Z * Z)) :
  nth_error h l = Some df ->
  has_numbers df "strike" ks ->
  has_dates df "expiration" es ds ->
  enrich_option_data l up (mkWorld c h)
    = (Ok (List.length h),
       mkWorld c (h ++ [enriched c up df ks (map timestamp_of_date ds)])).
Proof.
  intros Hl [sk [Hsk [Hks _]]] [Hes [Hparse _]].
  apply (enrich_run c h l df up sk ks es); try assumption.
  apply parse_all. exact Hparse.
Qed.

Section WithPhi.

Variable Phi : R -> R.

(** The pipeline on a well-formed chain: the enriched frame is priced. *)
Lemma pipeline_rows (c : Z) (h : list DataFrame) (l : loc) (df : DataFrame)
  (S : scalar) (ks sgs lps : list pyfloat) (es : list string)
  (ds : list (Z * Z * Z)) (tys : list value) :
  nth_error h l = Some df ->
  has_numbers df "strike" ks ->
  has_dates df "expiration" es ds ->
  has_numbers df "impliedVolatility" sgs ->
  has_numbers df "lastPrice" lps ->
  has_cells df "type" tys ->
  no_zero_division S ks ->
  exists ps,
    outcome (pipeline Phi l S) (mkWorld c h)
      = Ok (priced (enriched c (val S) df ks (map timestamp_of_date ds))
                   (map (fun z => Fin (IZR z)) (days_left c ds)) ps lps).
Proof.
  intros Hl Hks Hds Hsgs Hlps Htys Hsafe.
  pose proof (dates_length df "expiration" es ds Hds) as Hlen.
  set (E := enriched c (val S) df ks (map timestamp_of_date ds)).
  destruct (driver_rows Phi c (h ++ [E]) (List.length h) E S None ks
              (map (fun z => Fin (IZR z)) (days_left c ds)) sgs lps tys)
    as [ps [Hrun _]].
  - apply lookup_fresh.
  - apply enriched_numbers; try reflexivity. exact Hks.
  - apply enriched_days_numbers. exact Hlen.
  - apply enriched_numbers; try reflexivity. exact Hsgs.
  - apply enriched_numbers; try reflexivity. exact Hlps.
  - apply enriched_cells; try reflexivity. exact Htys.
  - intros i k d sg ty Ek _ _ _. apply (rows_safe Phi S ks i); assumption.
  - exists ps. unfold outcome, pipeline, bind.
    rewrite (enrich_rows c h l df (val S) ks es ds) by assumption.
    fold E. rewrite Hrun. apply observe_fresh.
Qed.

Lemma normalize_same_day (c1 c2 : Z) :
  (c1 / ns_per_day = c2 / ns_per_day)%Z -> normalize c1 = normalize c2.
Proof.
  intros H. unfold normalize.
  assert (HN : ns_per_day <> 0%Z) by (unfold ns_per_day; lia).
  rewrite !Z.mod_eq by exact HN. rewrite H. ring.
Qed.

(** C5, as the code has it: the enricher checks nothing about the
    underlying price.  On a chain with numeric strikes and ISO expiration
    dates it succeeds for every underlying price, positive or not, and
    [moneyness] is the float quotient [strike / underlying_price]. *)
Theorem enricher_accepts_any_underlying_price
  (c : Z) (h : list DataFrame) (l : loc) (df : DataFrame) (up : pyfloat)
  (ks : list pyfloat) (es : list string) (ds : list (Z * Z * Z)) :
  nth_error h l = Some df ->
  has_numbers df "strike" ks ->
  has_dates df "expiration" es ds ->
  exists df',
    outcome (enrich_option_data l up) (mkWorld c h) = Ok df'
    /\ nrows df' = nrows df
    /\ (forall i k, nth_error ks i = Some k ->
          float_at df' "moneyness" i = Some (fdiv k up))
    /\ (forall i x u, nth_error ks i = Some (Fin x) -> up = Fin u -> u <> 0 ->
          float_at df' "moneyness" i = Some (Fin (x / u))).
Proof.
  intros Hl Hks Hds.
  exists (enriched c up df ks (map timestamp_of_date ds)).
  split; [| split; [| split]].
  - unfold outcome. rewrite (enrich_rows c h l df up ks es ds) by assumption.
    apply observe_fresh.
  - reflexivity.
  - intros i k Hk. apply enriched_moneyness. exact Hk.
  - intros i x u Hk Hup Hu. subst up.
    rewrite (enriched_moneyness c (Fin u) df ks ds i (Fin x) Hk).
    rewrite PricerProps.fdiv_Fin by exact Hu. reflexivity.
Qed.

(** C7: on a chain enriched with a positive underlying price, [moneyness]
    is [strike / underlying_price], [days_to_expiration] is the number of
    calendar days from the current date to the expiration date, of either
    sign, and the driver's [T] is that number over 365.  From 2025-03-01 to
    2025-03-31 there are 30 days. *)
Theorem enrichment_values
  (c : Z) (h : list DataFrame) (l : loc) (df : DataFrame)
  (S : scalar) (up : R) (ks : list R) (sgs lps : list pyfloat)
  (es : list string) (ds : list (Z * Z * Z)) (tys : list value)
  (today : Z * Z * Z) :
  nth_error h l = Some df ->
  has_numbers df "strike" (map Fin ks) ->
  has_dates df "expiration" es ds ->
  has_numbers df "impliedVolatility" sgs ->
  has_numbers df "lastPrice" lps ->
  has_cells df "type" tys ->
  no_zero_division S (map Fin ks) ->
  val S = Fin up -> 0 < up ->
  (c / ns_per_day)%Z = day_of today ->
  (exists df',
      outcome (enrich_option_data l (val S)) (mkWorld c h) = Ok df'
      /\ forall i k e, nth_error ks i = Some k -> nth_error ds i = Some e ->
           float_at df' "moneyness" i = Some (Fin (k / up))
           /\ int_at df' "days_to_expiration" i
              = Some (day_of e - day_of today)%Z)
  /\ (exists df'',
      outcome (pipeline Phi l S) (mkWorld c h) = Ok df''
      /\ forall i k e, nth_error ks i = Some k -> nth_error ds i = Some e ->
           float_at df'' "moneyness" i = Some (Fin (k / up))
           /\ int_at df'' "days_to_expiration" i
              = Some (day_of e - day_of today)%Z
           /\ float_at df'' "T" i
              = Some (Fin (IZR (day_of e - day_of today) / 365)))
  /\ (day_of (2025, 3, 31) - day_of (2025, 3, 1) = 30)%Z.
Proof.
  intros Hl Hks Hds Hsgs Hlps Htys Hsafe HS Hup Hday.
  pose proof (dates_length df "expiration" es ds Hds) as Hlen.
  set (E := enriched c (val S) df (map Fin ks) (map timestamp_of_date ds)).
  assert (Hmon : forall i k, nth_error ks i = Some k ->
            float_at E "moneyness" i = Some (Fin (k / up))).
  { intros i k Hk. unfold E.
    rewrite (enriched_moneyness c (val S) df (map Fin ks) ds i (Fin k))
      by (rewrite nth_error_map, Hk; reflexivity).
    rewrite HS, PricerProps.fdiv_Fin by lra. reflexivity. }
  assert (Hdays : forall i e, nth_error ds i = Some e ->
            int_at E "days_to_expiration" i = Some (day_of e - day_of today)%Z).
  { intros i e He. unfold E. rewrite <- Hday.
    apply enriched_days; assumption. }
  split; [| split].
  - exists E. split.
    + unfold outcome.
      rewrite (enrich_rows c h l df (val S) (map Fin ks) es ds) by assumption.
      apply observe_fresh.
    + intros i k e Hk He. split; [apply Hmon | apply Hdays]; assumption.
  - destruct (pipeline_rows c h l df S (map Fin ks) sgs lps es ds tys)
      as [ps Hrun]; try assumption.
    fold E in Hrun.
    exists (priced E (map (fun z => Fin (IZR z)) (days_left c ds)) ps lps).
    split; [exact Hrun |].
    intros i k e Hk He. split; [| split].
    + unfold float_at. rewrite priced_other by reflexivity.
      apply (Hmon i k Hk).
    + unfold int_at. rewrite priced_other by reflexivity.
      apply (Hdays i e He).
    + rewrite (priced_T E _ ps lps i (Fin (IZR (day_of e - day_of today)))).
      * rewrite PricerProps.fdiv_Fin by lra. reflexivity.
      * unfold days_left. rewrite !nth_error_map, He. cbn [option_map].
        rewrite Hday. reflexivity.
  - reflexivity.
Qed.

(** C8, as the code has it: the run is a function of the raw chain, the
    underlying price and the calendar day the system clock shows when the
    enricher is called.  Two runs on the same chain and price whose clocks
    show the same day hand back the same frame, or raise the same
    exception, whatever else the two stores hold. *)
Theorem pipeline_deterministic_within_a_day
  (w1 w2 : World) (l1 l2 : loc) (S : scalar) :
  nth_error (heap w1) l1 = nth_error (heap w2) l2 ->
  (clock w1 / ns_per_day = clock w2 / ns_per_day)%Z ->
  outcome (pipeline Phi l1 S) w1 = outcome (pipeline Phi l2 S) w2.
Proof.
  intros Hl Hday. destruct w1 as [c1 h1], w2 as [c2 h2]. cbn [heap clock] in *.
  unfold outcome.
  apply (TwoRuns.same_run_observe h1 h2 c1 c2).
  apply TwoRuns.pipeline_same_run; [exact Hl |].
  apply normalize_same_day. exact Hday.
Qed.

(** C9: neither the enricher nor the driver changes a frame that was in
    the store when it was called; each works on a copy allocated at a
    location that was not in use, and hands that copy back. *)
Theorem stages_do_not_mutate_their_input
  (w : World) (l : loc) (up : pyfloat) (S : scalar) (r : option pyfloat) :
  leaves_store_intact w (enrich_option_data l up w)
  /\ leaves_store_intact w (calculate_bs_prices Phi l S r w).
Proof.
  destruct w as [c h]. split.
  - apply (TwoRuns.same_run_intact h c _ (enrich_option_data l up (mkWorld c h))).
    apply TwoRuns.enrich_same_run; reflexivity.
  - apply (TwoRuns.same_run_intact h c _
             (calculate_bs_prices Phi l S r (mkWorld c h))).
    apply TwoRuns.calc_same_run; reflexivity.
Qed.

End WithPhi.

End PipelineProps.

(** ** Worked examples *)

Module Examples.

Import EnricherProps DriverProps PipelineProps.

Lemma numbers_here (df : DataFrame) (k : string) (xs : list pyfloat) :
  df_get df k = Some (FloatCol xs) -> List.length xs = nrows df ->
  has_numbers df k xs.
Proof. intros H Hlen. exists (FloatCol xs). repeat split; assumption. Qed.

Lemma kinds_here (df : DataFrame) :
  df_get df "type" = Some (StrCol kinds) -> nrows df = 3%nat ->
  has_cells df "type" (map VStr kinds).
Proof.
  intros H Hn. exists (StrCol kinds). split; [exact H |]. split.
  - intros i Hi. rewrite Hn in Hi.
    destruct i as [| [| [| i]]]; [reflexivity | reflexivity | reflexivity | lia].
  - rewrite Hn. reflexivity.
Qed.

Lemma chain_dates : has_dates chain "expiration" expiries expiry_dates.
Proof.
  split; [reflexivity | split; [| reflexivity]].
  repeat constructor.
Qed.

Lemma enriched_chain_days :
  has_numbers enriched_chain "days_to_expiration" day_counts.
Proof. exists (IntCol [30; -1; 30]%Z). repeat split. Qed.

Lemma strikes_nonzero (S : scalar) : no_zero_division S (map Fin strikes).
Proof.
  right. repeat constructor; intros H; inversion H; lra.
Qed.

(** C2 on the enriched chain, with the default rate. *)
Lemma driver_prices_each_record_witness :
  let r0 := Fin 0.045 in
  exists df',
    outcome (calculate_bs_prices Phi_test 0%nat (NpNum (Fin 150)) None)
            (mkWorld clock_mar1 [enriched_chain]) = Ok df'
    /\ nrows df' = nrows enriched_chain
    /\ forall i k d sg ty lp,
        nth_error (map Fin strikes) i = Some k ->
        nth_error day_counts i = Some d ->
        nth_error vols i = Some sg ->
        nth_error (map VStr kinds) i = Some ty ->
        nth_error lasts i = Some lp ->
        exists p,
          price Phi_test (NpNum (Fin 150)) (PyNum k) (fdiv d (Fin 365)) r0 sg ty
            = Ok p
          /\ float_at df' "T" i = Some (fdiv d (Fin 365))
          /\ float_at df' "bs_price" i = Some p
          /\ float_at df' "pricing_error" i = Some (fsub lp p).
Proof.
  apply (driver_prices_each_record Phi_test clock_mar1 [enriched_chain] 0%nat
           enriched_chain (NpNum (Fin 150)) None
           (map Fin strikes) day_counts vols lasts (map VStr kinds)).
  - reflexivity.
  - apply numbers_here; reflexivity.
  - exact enriched_chain_days.
  - apply numbers_here; reflexivity.
  - apply numbers_here; reflexivity.
  - apply kinds_here; reflexivity.
  - apply strikes_nonzero.
Defined.

(** C3, as the code has it, on the enriched chain. *)
Lemma missing_volatility_does_not_abort_witness :
  exists df',
    outcome (calculate_bs_prices Phi_test 0%nat (NpNum (Fin 150)) None)
            (mkWorld clock_mar1 [enriched_chain]) = Ok df'
    /\ nrows df' = nrows enriched_chain
    /\ forall i k d sg ty lp,
        nth_error (map Fin strikes) i = Some k ->
        nth_error day_counts i = Some d ->
        nth_error vols i = Some sg ->
        nth_error (map VStr kinds) i = Some ty ->
        nth_error lasts i = Some lp ->
        exists p,
          price Phi_test (NpNum (Fin 150)) (PyNum k) (fdiv d (Fin 365))
                (rate None) sg ty = Ok p
          /\ float_at df' "bs_price" i = Some p
          /\ float_at df' "pricing_error" i = Some (fsub lp p)
          /\ (sg = NaN -> fle (fdiv d (Fin 365)) (Fin 0) = false ->
              p = NaN /\ fsub lp p = NaN)
          /\ (sg = NaN -> fle (fdiv d (Fin 365)) (Fin 0) = true ->
              p = if is_call ty then py_max0 (fsub (val (NpNum (Fin 150))) k)
                  else py_max0 (fsub k (val (NpNum (Fin 150))))).
Proof.
  apply (missing_volatility_does_not_abort Phi_test clock_mar1 [enriched_chain]
           0%nat enriched_chain (NpNum (Fin 150)) None
           (map Fin strikes) day_counts vols lasts (map VStr kinds)).
  - reflexivity.
  - apply numbers_here; reflexivity.
  - exact enriched_chain_days.
  - apply numbers_here; reflexivity.
  - apply numbers_here; reflexivity.
  - apply kinds_here; reflexivity.
  - apply strikes_nonzero.
Defined.

(** C3 refuted: the second record of the batch has no implied volatility,
    yet the call returns all three rows and gives that record the price 10
    and the pricing error 2.5, with nothing to tell it from a priced one. *)
Lemma missing_volatility_priced_silently :
  float_at enriched_chain "impliedVolatility" 1%nat = Some NaN
  /\ exists df',
      outcome (calculate_bs_prices Phi_test 0%nat (NpNum (Fin 150)) None)
              (mkWorld clock_mar1 [enriched_chain]) = Ok df'
      /\ nrows df' = 3%nat
      /\ float_at df' "bs_price" 1%nat = Some (Fin 10)
      /\ float_at df' "pricing_error" 1%nat = Some (Fin 2.5).
Proof.
  split; [reflexivity |].
  destruct (driver_rows Phi_test clock_mar1 [enriched_chain] 0%nat
              enriched_chain (NpNum (Fin 150)) None
              (map Fin strikes) day_counts vols lasts (map VStr kinds))
    as [ps [Hrun Hrows]].
  - reflexivity.
  - apply numbers_here; reflexivity.
  - exact enriched_chain_days.
  - apply numbers_here; reflexivity.
  - apply numbers_here; reflexivity.
  - apply kinds_here; reflexivity.
  - intros i k d sg ty Ek _ _ _.
    apply (rows_safe Phi_test (NpNum (Fin 150)) (map Fin strikes) i);
      [apply strikes_nonzero | exact Ek].
  - destruct (Hrows 1%nat (Fin 140) (Fin (-1)) NaN (VStr "call")
                eq_refl eq_refl eq_refl eq_refl) as [p [Hp Hprice]].
    assert (Hten : p = Fin 10).
    { unfold price in Hprice.
      rewrite PricerProps.edge_branch in Hprice.
      - simpl in Hprice. rewrite py_max0_Fin in Hprice.
        inversion Hprice. f_equal. rewrite Rmax_right by lra. lra.
      - rewrite PricerProps.fdiv_Fin by lra.
        rewrite fle_Fin_true by lra. reflexivity. }
    subst p.
    exists (priced enriched_chain day_counts ps lasts).
    split; [| split; [| split]].
    + unfold outcome. rewrite Hrun. apply (observe_fresh clock_mar1 []).
    + reflexivity.
    + rewrite priced_bs_price. exact Hp.
    + rewrite (priced_error enriched_chain day_counts ps lasts 1%nat (Fin 12.5) (Fin 10))
        by (reflexivity || exact Hp).
      unfold fsub. simpl. do 2 f_equal. lra.
Qed.

(** C5, as the code has it, on the chain with the underlying at 150. *)
Lemma enricher_accepts_any_underlying_price_witness :
  exists df',
    outcome (enrich_option_data 0%nat (Fin 150)) (mkWorld clock_mar1 [chain]) = Ok df'
    /\ nrows df' = nrows chain
    /\ (forall i k, nth_error (map Fin strikes) i = Some k ->
          float_at df' "moneyness" i = Some (fdiv k (Fin 150)))
    /\ (forall i x u, nth_error (map Fin strikes) i = Some (Fin x) ->
          Fin 150 = Fin u -> u <> 0 ->
          float_at df' "moneyness" i = Some (Fin (x / u))).
Proof.
  apply (enricher_accepts_any_underlying_price clock_mar1 [chain] 0%nat chain
           (Fin 150) (map Fin strikes) expiries expiry_dates).
  - reflexivity.
  - apply numbers_here; reflexivity.
  - exact chain_dates.
Defined.

(** C5 refuted: with the underlying price at -100 the enricher returns,
    and the first contract's moneyness is 100 / -100. *)
Lemma enricher_accepts_negative_price :
  exists df',
    outcome (enrich_option_data 0%nat (Fin (-100))) (mkWorld clock_mar1 [chain])
      = Ok df'
    /\ nrows df' = 3%nat
    /\ float_at df' "moneyness" 0%nat = Some (Fin (100 / (-100))).
Proof.
  exists (enriched clock_mar1 (Fin (-100)) chain (map Fin strikes)
            (map timestamp_of_date expiry_dates)).
  split; [| split].
  - unfold outcome.
    rewrite (enrich_rows clock_mar1 [chain] 0%nat chain (Fin (-100))
               (map Fin strikes) expiries expiry_dates);
      [apply (observe_fresh clock_mar1 []) | reflexivity
       | apply numbers_here; reflexivity | exact chain_dates].
  - reflexivity.
  - rewrite (enriched_moneyness clock_mar1 (Fin (-100)) chain (map Fin strikes)
               expiry_dates 0%nat (Fin 100)) by reflexivity.
    rewrite PricerProps.fdiv_Fin by lra. reflexivity.
Qed.

(** C7 on the chain, enriched and priced on 2025-03-01 with the underlying
    at 150: the first contract expires on 2025-03-31. *)
Lemma enrichment_values_witness :
  (exists df',
      outcome (enrich_option_data 0%nat (val (NpNum (Fin 150))))
              (mkWorld clock_mar1 [chain]) = Ok df'
      /\ forall i k e, nth_error strikes i = Some k ->
           nth_error expiry_dates i = Some e ->
           float_at df' "moneyness" i = Some (Fin (k / 150))
           /\ int_at df' "days_to_expiration" i
              = Some (day_of e - day_of (2025, 3, 1)%Z)%Z)
  /\ (exists df'',
      outcome (pipeline Phi_test 0%nat (NpNum (Fin 150))) (mkWorld clock_mar1 [chain])
        = Ok df''
      /\ forall i k e, nth_error strikes i = Some k ->
           nth_error expiry_dates i = Some e ->
           float_at df'' "moneyness" i = Some (Fin (k / 150))
           /\ int_at df'' "days_to_expiration" i
              = Some (day_of e - day_of (2025, 3, 1)%Z)%Z
           /\ float_at df'' "T" i
              = Some (Fin (IZR (day_of e - day_of (2025, 3, 1)%Z) / 365)))
  /\ (day_of (2025, 3, 31) - day_of (2025, 3, 1) = 30)%Z.
Proof.
  apply (enrichment_values Phi_test clock_mar1 [chain] 0%nat chain
           (NpNum (Fin 150)) 150 strikes vols lasts expiries expiry_dates
           (map VStr kinds) (2025, 3, 1)%Z).
  - reflexivity.
  - apply numbers_here; reflexivity.
  - exact chain_dates.
  - apply numbers_here; reflexivity.
  - apply numbers_here; reflexivity.
  - apply kinds_here; reflexivity.
  - apply strikes_nonzero.
  - reflexivity.
  - lra.
  - reflexivity.
Defined.

(** C8, as the code has it: two runs on 2025-03-01, in the morning and in
    the evening, in two different stores. *)
Lemma pipeline_deterministic_within_a_day_witness :
  outcome (pipeline Phi_test 0%nat (NpNum (Fin 150))) (mkWorld clock_mar1 [chain])
  = outcome (pipeline Phi_test 1%nat (NpNum (Fin 150)))
            (mkWorld clock_mar1_late [enriched_chain; chain]).
Proof.
  apply (pipeline_deterministic_within_a_day Phi_test
           (mkWorld clock_mar1 [chain])
           (mkWorld clock_mar1_late [enriched_chain; chain]) 0%nat 1%nat
           (NpNum (Fin 150))).
  - reflexivity.
  - reflexivity.
Defined.

(** C8 refuted: the same chain and the same underlying price, run on
    2025-03-01 and again on 2025-03-02, give different frames; the first
    contract has 30 days left in one and 29 in the other. *)
Lemma pipeline_depends_on_the_clock :
  outcome (pipeline Phi_test 0%nat (NpNum (Fin 150))) (mkWorld clock_mar1 [chain])
  <> outcome (pipeline Phi_test 0%nat (NpNum (Fin 150))) (mkWorld clock_mar2 [chain]).
Proof.
  assert (Hdays : forall c,
            exists df',
              outcome (pipeline Phi_test 0%nat (NpNum (Fin 150))) (mkWorld c [chain])
                = Ok df'
              /\ int_at df' "days_to_expiration" 0%nat
                 = Some (day_of (2025, 3, 31)%Z - c / ns_per_day)%Z).
  { intros c.
    destruct (pipeline_rows Phi_test c [chain] 0%nat chain (NpNum (Fin 150))
                (map Fin strikes) vols lasts expiries expiry_dates (map VStr kinds))
      as [ps Hrun].
    - reflexivity.
    - apply numbers_here; reflexivity.
    - exact chain_dates.
    - apply numbers_here; reflexivity.
    - apply numbers_here; reflexivity.
    - apply kinds_here; reflexivity.
    - apply strikes_nonzero.
    - eexists. split; [exact Hrun |].
      unfold int_at. rewrite priced_other by reflexivity.
      apply (enriched_days c (Fin 150) chain (map Fin strikes) expiry_dates 0%nat
               (2025, 3, 31)%Z); reflexivity. }
  destruct (Hdays clock_mar1) as [df1 [H1 D1]].
  destruct (Hdays clock_mar2) as [df2 [H2 D2]].
  rewrite H1, H2. intros Heq. inversion Heq; subst df2.
  rewrite D1 in D2. vm_compute in D2. discriminate.
Qed.

End Examples.

(** ** More on the pricer *)

Module PricerMore.

Section WithPhi.

Variable Phi : R -> R.

(** X1: on positive [S], [K], [T], [sigma], with [sigma] at most 1e154 so
    that its square is in the float range, the pricer returns a finite
    number, the Black-Scholes closed form with
    [d1 = (ln(S/K) + (r + sigma^2/2) T) / (sigma sqrt T)] and
    [d2 = d1 - sigma sqrt T], after calling [np.log] once, [np.sqrt] twice
    and then [norm.cdf], [np.exp], [norm.cdf] for a call, or [np.exp],
    [norm.cdf], [norm.cdf] for a put. *)
Theorem closed_form_on_positive_domain
  (S K : scalar) (s k T r sigma : R) :
  val S = Fin s -> val K = Fin k ->
  0 < s -> 0 < k -> 0 < T -> 0 < sigma -> square_in_range (Fin sigma) ->
  let d1 := (ln (s / k) + (r + 0.5 * (sigma * sigma)) * T) / (sigma * sqrt T) in
  let d2 := d1 - sigma * sqrt T in
  black_scholes_price Phi S K (Fin T) (Fin r) (Fin sigma) (VStr "call")
    = (Ok (Fin (s * Phi d1 - k * exp (- r * T) * Phi d2)),
       [NpLog; NpSqrt; NpSqrt; NormCdf; NpExp; NormCdf])
  /\ black_scholes_price Phi S K (Fin T) (Fin r) (Fin sigma) (VStr "put")
    = (Ok (Fin (k * exp (- r * T) * Phi (- d2) - s * Phi (- d1))),
       [NpLog; NpSqrt; NpSqrt; NpExp; NormCdf; NormCdf]).
Proof.
  intros HS HK Hs Hk HT Hsig _ d1 d2.
  rewrite !(PricerProps.formula_branch Phi S K s k T r sigma) by assumption.
  split; reflexivity.
Qed.

(** X2: in the edge branch the two prices differ by [S - K], without any
    discounting, whatever the rate. *)
Theorem edge_branch_parity_is_undiscounted
  (S K : scalar) (s k T r sigma : R) :
  val S = Fin s -> val K = Fin k ->
  T <= 0 \/ sigma <= 0 ->
  exists c p : R,
    price Phi S K (Fin T) (Fin r) (Fin sigma) (VStr "call") = Ok (Fin c)
    /\ price Phi S K (Fin T) (Fin r) (Fin sigma) (VStr "put") = Ok (Fin p)
    /\ c - p = s - k.
Proof.
  intros HS HK Hedge. apply PricerProps.edge_test in Hedge.
  exists (Rmax 0 (s - k)), (Rmax 0 (k - s)).
  unfold price. rewrite !PricerProps.edge_branch by exact Hedge.
  rewrite HS, HK. simpl is_call. cbv iota.
  unfold fsub. simpl fneg. simpl fadd. rewrite !py_max0_Fin.
  repeat split.
  unfold Rmax. destruct (Rle_dec 0 (s - k)), (Rle_dec 0 (k - s)); lra.
Qed.

(** X3: in the edge branch a NaN spot price or strike is priced at 0, for
    a call and for anything else: [max(0, nan)] is 0. *)
Theorem edge_branch_prices_nan_at_zero
  (S K : scalar) (T r sigma : pyfloat) (option_type : value) :
  fle T (Fin 0) || fle sigma (Fin 0) = true ->
  val S = NaN \/ val K = NaN ->
  black_scholes_price Phi S K T r sigma option_type = (Ok (Fin 0), []).
Proof.
  intros Hedge Hnan. rewrite PricerProps.edge_branch by exact Hedge.
  assert (H1 : fsub (val S) (val K) = NaN).
  { destruct Hnan as [H | H]; rewrite H;
      [reflexivity | apply PricerProps.fsub_NaN_r]. }
  assert (H2 : fsub (val K) (val S) = NaN).
  { destruct Hnan as [H | H]; rewrite H;
      [apply PricerProps.fsub_NaN_r | reflexivity]. }
  rewrite H1, H2. destruct (is_call option_type); reflexivity.
Qed.

Lemma d1_scale (lam s k T r sigma : R) :
  0 < lam -> 0 < k ->
  d1_of (lam * s) (lam * k) T r sigma = d1_of s k T r sigma.
Proof.
  intros Hlam Hk. unfold d1_of.
  replace (lam * s / (lam * k)) with (s / k) by (field; lra).
  reflexivity.
Qed.

Lemma Rmax0_scale (lam x y : R) :
  0 < lam -> Rmax 0 (lam * x - lam * y) = lam * Rmax 0 (x - y).
Proof.
  intros Hlam. unfold Rmax.
  destruct (Rle_dec 0 (lam * x - lam * y)), (Rle_dec 0 (x - y)); nra.
Qed.

(** X4: prices are homogeneous of degree one in spot and strike.  For
    positive [S] and [K], multiplying both by [lam > 0] multiplies the price
    by [lam], in both branches and for every kind. *)
Theorem price_scales_with_spot_and_strike
  (S K S' K' : scalar) (lam s k T r sigma : R) (option_type : value) :
  0 < lam -> 0 < s -> 0 < k ->
  val S = Fin s -> val K = Fin k ->
  val S' = Fin (lam * s) -> val K' = Fin (lam * k) ->
  exists p : R,
    price Phi S K (Fin T) (Fin r) (Fin sigma) option_type = Ok (Fin p)
    /\ price Phi S' K' (Fin T) (Fin r) (Fin sigma) option_type
       = Ok (Fin (lam * p)).
Proof.
  intros Hlam Hs Hk HS HK HS' HK'.
  assert (Hls : 0 < lam * s) by nra.
  assert (Hlk : 0 < lam * k) by nra.
  unfold price.
  destruct (Rle_dec T 0) as [HT | HT];
    [| destruct (Rle_dec sigma 0) as [Hsig | Hsig]].
  - rewrite !PricerProps.edge_branch by (apply PricerProps.edge_test; left; exact HT).
    rewrite HS, HK, HS', HK'. unfold fsub. simpl fneg. simpl fadd.
    rewrite !py_max0_Fin.
    replace (lam * s + - (lam * k)) with (lam * s - lam * k) by ring.
    replace (lam * k + - (lam * s)) with (lam * k - lam * s) by ring.
    rewrite !Rmax0_scale by exact Hlam.
    destruct (is_call option_type); eexists; split; reflexivity.
  - rewrite !PricerProps.edge_branch by (apply PricerProps.edge_test; right; exact Hsig).
    rewrite HS, HK, HS', HK'. unfold fsub. simpl fneg. simpl fadd.
    rewrite !py_max0_Fin.
    replace (lam * s + - (lam * k)) with (lam * s - lam * k) by ring.
    replace (lam * k + - (lam * s)) with (lam * k - lam * s) by ring.
    rewrite !Rmax0_scale by exact Hlam.
    destruct (is_call option_type); eexists; split; reflexivity.
  - rewrite (PricerProps.formula_branch Phi S K s k T r sigma) by (assumption || lra).
    rewrite (PricerProps.formula_branch Phi S' K' (lam * s) (lam * k) T r sigma)
      by (assumption || lra).
    destruct (is_call option_type); cbn [fst]; eexists; (split; [reflexivity |]);
      do 2 f_equal; unfold call_of, put_of, d2_of;
      rewrite !d1_scale by assumption; ring.
Qed.

(** X5: for a distribution function with values in [0, 1], a call on the
    positive domain is worth at most the spot price and a put at most the
    discounted strike. *)
Theorem prices_bounded_by_spot_and_discounted_strike
  (S K : scalar) (s k T r sigma : R) :
  (forall x, 0 <= Phi x <= 1) ->
  val S = Fin s -> val K = Fin k ->
  0 < s -> 0 < k -> 0 < T -> 0 < sigma ->
  exists c p : R,
    price Phi S K (Fin T) (Fin r) (Fin sigma) (VStr "call") = Ok (Fin c)
    /\ price Phi S K (Fin T) (Fin r) (Fin sigma) (VStr "put") = Ok (Fin p)
    /\ c <= s
    /\ p <= k * exp (- r * T).
Proof.
  intros Hphi HS HK Hs Hk HT Hsig.
  exists (call_of Phi s k T r sigma), (put_of Phi s k T r sigma).
  unfold price.
  rewrite !(PricerProps.formula_branch Phi S K s k T r sigma) by assumption.
  simpl. repeat split.
  - unfold call_of.
    pose proof (Hphi (d1_of s k T r sigma)) as H1.
    pose proof (Hphi (d2_of s k T r sigma)) as H2.
    pose proof (exp_pos (- r * T)) as He.
    assert (0 <= k * exp (- r * T) * Phi (d2_of s k T r sigma)).
    { apply Rmult_le_pos; [nra | lra]. }
    nra.
  - unfold put_of.
    pose proof (Hphi (- d1_of s k T r sigma)) as H1.
    pose proof (Hphi (- d2_of s k T r sigma)) as H2.
    pose proof (exp_pos (- r * T)) as He.
    assert (Hke : 0 < k * exp (- r * T)) by (apply Rmult_lt_0_compat; assumption).
    assert (0 <= s * Phi (- d1_of s k T r sigma)) by (apply Rmult_le_pos; lra).
    nra.
Qed.

End WithPhi.

End PricerMore.

(** ** More on columns *)

Module ColumnAlgebra.

Lemma set_col_same_value (cols : list (string * Series)) (k : string) (s : Series) :
  get_col cols k = Some s -> set_col cols k s = cols.
Proof.
  induction cols as [| [k0 s0] cols IH]; simpl; [discriminate |].
  destruct (String.eqb k0 k) eqn:E.
  - intros H. inversion H; subst s0. apply String.eqb_eq in E. subst k0. reflexivity.
  - intros H. rewrite IH by exact H. reflexivity.
Qed.

Lemma get_del_same (cols : list (string * Series)) (k : string) :
  get_col (del_col cols k) k = None.
Proof.
  induction cols as [| [k0 s0] cols IH]; simpl; [reflexivity |].
  destruct (String.eqb k0 k) eqn:E; simpl; [exact IH |].
  rewrite E. exact IH.
Qed.

Lemma del_absent (cols : list (string * Series)) (k : string) :
  get_col cols k = None -> del_col cols k = cols.
Proof.
  induction cols as [| [k0 s0] cols IH]; simpl; [reflexivity |].
  destruct (String.eqb k0 k) eqn:E; [discriminate |].
  intros H. rewrite IH by exact H. reflexivity.
Qed.

Lemma del_set_same (cols : list (string * Series)) (k : string) (s : Series) :
  del_col (set_col cols k s) k = del_col cols k.
Proof.
  induction cols as [| [k0 s0] cols IH]; simpl.
  - rewrite String.eqb_refl. reflexivity.
  - destruct (String.eqb k0 k) eqn:E; simpl.
    + rewrite String.eqb_refl. reflexivity.
    + rewrite E, IH. reflexivity.
Qed.

Lemma del_set_other (cols : list (string * Series)) (k k' : string) (s : Series) :
  String.eqb k' k = false ->
  del_col (set_col cols k' s) k = set_col (del_col cols k) k' s.
Proof.
  intros Hne.
  induction cols as [| [k0 s0] cols IH]; simpl.
  - rewrite Hne. reflexivity.
  - destruct (String.eqb k0 k') eqn:E'; simpl.
    + apply String.eqb_eq in E'. subst k0. rewrite Hne. simpl.
      rewrite String.eqb_refl. reflexivity.
    + destruct (String.eqb k0 k) eqn:E; simpl; [exact IH |].
      rewrite E', IH. reflexivity.
Qed.

Lemma labels_set_new (cols : list (string * Series)) (k : string) (s : Series) :
  get_col cols k = None ->
  map fst (set_col cols k s) = map fst cols ++ [k].
Proof.
  induction cols as [| [k0 s0] cols IH]; simpl; [reflexivity |].
  destruct (String.eqb k0 k) eqn:E; [discriminate |].
  intros H. simpl. rewrite IH by exact H. reflexivity.
Qed.

Lemma labels_set_old (cols : list (string * Series)) (k : string) (s s0 : Series) :
  get_col cols k = Some s0 ->
  map fst (set_col cols k s) = map fst cols.
Proof.
  induction cols as [| [k1 s1] cols IH]; simpl; [discriminate |].
  destruct (String.eqb k1 k) eqn:E.
  - intros _. apply String.eqb_eq in E. subst k1. reflexivity.
  - intros H. simpl. rewrite IH by exact H. reflexivity.
Qed.

Lemma df_set_same_value (df : DataFrame) (k : string) (s : Series) :
  df_get df k = Some s -> df_set df k s = df.
Proof.
  intros H. destruct df as [n cols]. unfold df_set, df_get in *. simpl in *.
  rewrite set_col_same_value by exact H. reflexivity.
Qed.

Lemma nth_error_ext {A} (l1 l2 : list A) :
  (forall i, nth_error l1 i = nth_error l2 i) -> l1 = l2.
Proof.
  revert l2. induction l1 as [| a l1 IH]; intros [| b l2] H.
  - reflexivity.
  - specialize (H 0%nat). discriminate.
  - specialize (H 0%nat). discriminate.
  - pose proof (H 0%nat) as H0. simpl in H0. inversion H0; subst b.
    f_equal. apply IH. intros i. apply (H (S i)).
Qed.

Lemma mapM_length {A B} (f : A -> result B) (l : list A) (bs : list B) :
  mapM f l = Ok bs -> List.length bs = List.length l.
Proof.
  revert bs. induction l as [| a l IH]; intros bs H; simpl in H.
  - inversion H. reflexivity.
  - destruct (f a) as [b | e]; simpl in H; [| discriminate].
    destruct (mapM f l) as [bs' | e]; simpl in H; [| discriminate].
    inversion H. simpl. f_equal. apply IH. reflexivity.
Qed.

End ColumnAlgebra.
Import ColumnAlgebra.

(** ** More on the batch driver *)

Module DriverMore.

Import DriverProps.

Lemma mapM_ext_seq {B} (f g : nat -> result B) (n : nat) :
  (forall i, (i < n)%nat -> f i = g i) ->
  mapM f (seq 0 n) = mapM g (seq 0 n).
Proof.
  intros H.
  assert (Hgen : forall l, (forall i, In i l -> f i = g i) -> mapM f l = mapM g l).
  { induction l as [| a l IH]; intros Hl; simpl; [reflexivity |].
    rewrite (Hl a) by (left; reflexivity).
    rewrite IH by (intros i Hi; apply Hl; right; exact Hi). reflexivity. }
  apply Hgen. intros i Hi. apply in_seq in Hi. apply H. lia.
Qed.

Lemma fields_at (df : DataFrame) (ks ds sgs : list pyfloat) (tys : list value)
  (i : nat) :
  has_numbers df "strike" ks ->
  has_numbers df "days_to_expiration" ds ->
  has_numbers df "impliedVolatility" sgs ->
  has_cells df "type" tys ->
  (i < nrows df)%nat ->
  exists k d sg ty,
    nth_error ks i = Some k /\ nth_error ds i = Some d
    /\ nth_error sgs i = Some sg /\ nth_error tys i = Some ty.
Proof.
  intros [_ [_ [_ Hk]]] [_ [_ [_ Hd]]] [_ [_ [_ Hs]]] [_ [_ [_ Ht]]] Hi.
  destruct (nth_error ks i) as [k |] eqn:Ek;
    [| apply nth_error_None in Ek; lia].
  destruct (nth_error ds i) as [d |] eqn:Ed;
    [| apply nth_error_None in Ed; lia].
  destruct (nth_error sgs i) as [sg |] eqn:Es;
    [| apply nth_error_None in Es; lia].
  destruct (nth_error tys i) as [ty |] eqn:Et;
    [| apply nth_error_None in Et; lia].
  exists k, d, sg, ty. repeat split.
Qed.

Section WithPhi.

Variable Phi : R -> R.

(** every row of a batch that is safe from a zero division gets a price *)
Lemma rows_priced (df : DataFrame) (S : scalar) (r : pyfloat)
  (ks ds sgs : list pyfloat) (tys : list value) :
  has_numbers df "strike" ks ->
  has_numbers df "days_to_expiration" ds ->
  has_numbers df "impliedVolatility" sgs ->
  has_cells df "type" tys ->
  no_zero_division S ks ->
  exists ps,
    mapM (fun i => price_row Phi S r (row_of (columns (with_T df ds)) i))
         (seq 0 (nrows df)) = Ok ps
    /\ List.length ps = nrows df.
Proof.
  intros Hks Hds Hsgs Htys Hsafe.
  destruct (mapM_total
              (fun i => price_row Phi S r (row_of (columns (with_T df ds)) i))
              (seq 0 (nrows df))) as [ps Hps].
  { intros j i Hj.
    assert (Hi : (i < nrows df)%nat).
    { apply nth_error_In in Hj. apply in_seq in Hj. lia. }
    destruct (fields_at df ks ds sgs tys i Hks Hds Hsgs Htys Hi)
      as [k [d [sg [ty [Ek [Ed [Es Et]]]]]]].
    rewrite (price_row_at Phi df S r ks ds sgs tys i k d sg ty) by assumption.
    apply (rows_safe Phi S ks i); assumption. }
  exists ps. split; [exact Hps |].
  rewrite (mapM_length _ _ _ Hps). apply length_seq.
Qed.

Lemma priced_numbers (df : DataFrame) (ds ps lps : list pyfloat) (k : string)
  (xs : list pyfloat) :
  String.eqb "T" k = false -> String.eqb "bs_price" k = false ->
  String.eqb "pricing_error" k = false ->
  has_numbers df k xs -> has_numbers (priced df ds ps lps) k xs.
Proof.
  intros H1 H2 H3 [s [Hs [Hxs Hlen]]]. exists s.
  rewrite priced_other by assumption. repeat split; assumption.
Qed.

Lemma priced_cells (df : DataFrame) (ds ps lps : list pyfloat) (k : string)
  (vs : list value) :
  String.eqb "T" k = false -> String.eqb "bs_price" k = false ->
  String.eqb "pricing_error" k = false ->
  has_cells df k vs -> has_cells (priced df ds ps lps) k vs.
Proof.
  intros H1 H2 H3 [s [Hs [Hc Hlen]]]. exists s.
  rewrite priced_other by assumption. repeat split; assumption.
Qed.

(** X6: the driver adds [T], [bs_price] and [pricing_error] after the
    input's columns, in this order, and hands every other column back
    unchanged, with as many rows as it was given. *)
Theorem driver_appends_three_columns
  (c : Z) (h : list DataFrame) (l : loc) (df : DataFrame)
  (S : scalar) (r : option pyfloat)
  (ks ds sgs lps : list pyfloat) (tys : list value) :
  nth_error h l = Some df ->
  has_numbers df "strike" ks ->
  has_numbers df "days_to_expiration" ds ->
  has_numbers df "impliedVolatility" sgs ->
  has_numbers df "lastPrice" lps ->
  has_cells df "type" tys ->
  no_zero_division S ks ->
  df_get df "T" = None -> df_get df "bs_price" = None ->
  df_get df "pricing_error" = None ->
  exists df',
    outcome (calculate_bs_prices Phi l S r) (mkWorld c h) = Ok df'
    /\ nrows df' = nrows df
    /\ map fst (columns df')
       = map fst (columns df) ++ ["T"; "bs_price"; "pricing_error"]%string
    /\ forall k, String.eqb "T" k = false -> String.eqb "bs_price" k = false ->
         String.eqb "pricing_error" k = false ->
         df_get df' k = df_get df k.
Proof.
  intros Hl Hks Hds Hsgs Hlps Htys Hsafe HT Hbs Herr.
  destruct (driver_rows Phi c h l df S r ks ds sgs lps tys) as [ps [Hrun _]];
    try assumption.
  { intros i k d sg ty Ek _ _ _. apply (rows_safe Phi S ks i); assumption. }
  exists (priced df ds ps lps). split; [| split; [| split]].
  - unfold outcome. rewrite Hrun. apply observe_fresh.
  - reflexivity.
  - unfold priced, with_T, df_set. cbn [columns].
    rewrite labels_set_new.
    + rewrite labels_set_new.
      * rewrite labels_set_new by exact HT. rewrite <- !app_assoc. reflexivity.
      * rewrite get_set_other by reflexivity. exact Hbs.
    + rewrite !get_set_other by reflexivity. exact Herr.
  - intros k H1 H2 H3. apply priced_other; assumption.
Qed.

(** X7: pricing a priced frame again, with the same spot price and rate,
    hands back the same frame. *)
Theorem driver_is_idempotent
  (c : Z) (h : list DataFrame) (l : loc) (df : DataFrame)
  (S : scalar) (r : option pyfloat)
  (ks ds sgs lps : list pyfloat) (tys : list value) :
  nth_error h l = Some df ->
  has_numbers df "strike" ks ->
  has_numbers df "days_to_expiration" ds ->
  has_numbers df "impliedVolatility" sgs ->
  has_numbers df "lastPrice" lps ->
  has_cells df "type" tys ->
  no_zero_division S ks ->
  exists df',
    outcome (calculate_bs_prices Phi l S r) (mkWorld c h) = Ok df'
    /\ forall c2 h2 l2, nth_error h2 l2 = Some df' ->
         outcome (calculate_bs_prices Phi l2 S r) (mkWorld c2 h2) = Ok df'.
Proof.
  intros Hl Hks Hds Hsgs Hlps Htys Hsafe.
  destruct (rows_priced df S (rate r) ks ds sgs tys) as [ps [Hps Hlen]];
    try assumption.
  pose proof Hds as [sd [Hsd [Hds' _]]].
  pose proof Hlps as [sl [Hsl [Hlps' _]]].
  set (P := priced df ds ps lps).
  assert (HPT : df_get P "T" = Some (FloatCol (map (fun a => fdiv a (Fin 365)) ds))).
  { unfold P, priced, with_T. rewrite !df_get_set_other by reflexivity.
    apply df_get_set_same. }
  assert (HPbs : df_get P "bs_price" = Some (FloatCol ps)).
  { unfold P, priced. rewrite df_get_set_other by reflexivity.
    apply df_get_set_same. }
  assert (HPerr : df_get P "pricing_error" = Some (FloatCol (zip_with fsub lps ps))).
  { unfold P, priced. apply df_get_set_same. }
  assert (HwT : with_T P ds = P).
  { unfold with_T. apply df_set_same_value. exact HPT. }
  exists P. split.
  - unfold outcome.
    rewrite (calc_run Phi c h l df S r sd sl ds ps lps) by assumption.
    apply observe_fresh.
  - intros c2 h2 l2 Hl2. unfold outcome.
    rewrite (calc_run Phi c2 h2 l2 P S r sd sl ds ps lps); try assumption.
    + fold P. replace (priced P ds ps lps) with P; [apply observe_fresh |].
      unfold priced. rewrite HwT.
      rewrite (df_set_same_value P "bs_price") by exact HPbs.
      rewrite (df_set_same_value P "pricing_error") by exact HPerr.
      reflexivity.
    + unfold P. rewrite priced_other by reflexivity. exact Hsd.
    + replace (nrows P) with (nrows df) by reflexivity.
      rewrite <- Hps. apply mapM_ext_seq. intros i Hi.
      destruct (fields_at df ks ds sgs tys i Hks Hds Hsgs Htys Hi)
        as [k [d [sg [ty [Ek [Ed [Es Et]]]]]]].
      rewrite (price_row_at Phi df S (rate r) ks ds sgs tys i k d sg ty)
        by assumption.
      apply (price_row_at Phi P S (rate r) ks ds sgs tys i k d sg ty);
        try assumption.
      * apply priced_numbers; try reflexivity. exact Hks.
      * apply priced_numbers; try reflexivity. exact Hsgs.
      * apply priced_cells; try reflexivity. exact Htys.
    + unfold P. rewrite priced_other by reflexivity. exact Hsl.
Qed.

(** X8: without a [days_to_expiration] column the driver raises
    [KeyError('days_to_expiration')] at once; the store holds the input frame
    as it was and an untouched copy of it. *)
Theorem driver_needs_days_to_expiration
  (c : Z) (h : list DataFrame) (l : loc) (df : DataFrame)
  (S : scalar) (r : option pyfloat) :
  nth_error h l = Some df ->
  df_get df "days_to_expiration" = None ->
  calculate_bs_prices Phi l S r (mkWorld c h)
    = (Raise (KeyError "days_to_expiration"), mkWorld c (h ++ [df])).
Proof.
  intros Hl Hnone. unfold calculate_bs_prices.
  rewrite (step_copy c h l df) by exact Hl.
  rewrite step_getitem, Hnone. reflexivity.
Qed.

(** X9: a missing [lastPrice] column is only noticed after every record
    has been priced: the driver then raises [KeyError('lastPrice')] and
    hands nothing back. *)
Theorem driver_notices_missing_last_price_late
  (c : Z) (h : list DataFrame) (l : loc) (df : DataFrame)
  (S : scalar) (r : option pyfloat)
  (ks ds sgs : list pyfloat) (tys : list value) :
  nth_error h l = Some df ->
  has_numbers df "strike" ks ->
  has_numbers df "days_to_expiration" ds ->
  has_numbers df "impliedVolatility" sgs ->
  has_cells df "type" tys ->
  no_zero_division S ks ->
  df_get df "lastPrice" = None ->
  exists ps,
    List.length ps = nrows df
    /\ calculate_bs_prices Phi l S r (mkWorld c h)
       = (Raise (KeyError "lastPrice"),
          mkWorld c (h ++ [df_set (with_T df ds) "bs_price" (FloatCol ps)])).
Proof.
  intros Hl Hks Hds Hsgs Htys Hsafe Hnone.
  destruct (rows_priced df S (rate r) ks ds sgs tys) as [ps [Hps Hlen]];
    try assumption.
  pose proof Hds as [sd [Hsd [Hds' _]]].
  exists ps. split; [exact Hlen |].
  unfold calculate_bs_prices. fold (rate r).
  rewrite (step_copy c h l df) by exact Hl.
  rewrite step_getitem, Hsd.
  rewrite step_lift. unfold series_truediv. rewrite Hds'.
  rewrite step_setitem. fold (with_T df ds).
  rewrite step_apply. cbn [nrows with_T df_set]. fold (with_T df ds).
  rewrite Hps.
  rewrite step_setitem, step_getitem.
  rewrite df_get_set_other by reflexivity.
  unfold with_T at 1. rewrite df_get_set_other by reflexivity. rewrite Hnone.
  reflexivity.
Qed.

End WithPhi.

End DriverMore.

(** ** More on the enricher *)

Module EnricherMore.

Import EnricherProps DriverProps PipelineProps.

Lemma df_del_absent (df : DataFrame) (k : string) :
  df_get df k = None -> df_del df k = df.
Proof.
  intros H. destruct df as [n cols]. unfold df_del, df_get in *. simpl in *.
  rewrite del_absent by exact H. reflexivity.
Qed.

Lemma df_get_del_same (df : DataFrame) (k : string) :
  df_get (df_del df k) k = None.
Proof. apply get_del_same. Qed.

Lemma df_del_set_same (df : DataFrame) (k : string) (s : Series) :
  df_del (df_set df k s) k = df_del df k.
Proof. unfold df_del, df_set. cbn [columns nrows]. rewrite del_set_same. reflexivity. Qed.

Lemma df_del_set_other (df : DataFrame) (k k' : string) (s : Series) :
  String.eqb k' k = false ->
  df_del (df_set df k' s) k = df_set (df_del df k) k' s.
Proof.
  intros H. unfold df_del, df_set. cbn [columns nrows].
  rewrite del_set_other by exact H. reflexivity.
Qed.

(** The enricher's frame, with the removal of [current_date] done first. *)
Lemma enriched_normal_form (c : Z) (up : pyfloat) (df : DataFrame)
  (ks : list pyfloat) (ts : list Z) :
  enriched c up df ks ts
  = df_set
      (df_set
         (df_set (df_del df "current_date")
                 "moneyness" (FloatCol (map (fun a => fdiv a up) ks)))
         "expiration" (TimeCol ts))
      "days_to_expiration"
      (IntCol (map delta_days (zip_with Z.sub ts (repeat (normalize c) (nrows df))))).
Proof.
  unfold enriched.
  rewrite df_del_set_other by reflexivity.
  rewrite df_del_set_other by reflexivity.
  rewrite df_del_set_same.
  rewrite df_del_set_other by reflexivity.
  reflexivity.
Qed.

(** The run of the enricher on any column that [pd.to_datetime] accepts. *)
Lemma enrich_run_any (c : Z) (h : list DataFrame) (l : loc) (df : DataFrame)
  (up : pyfloat) (sk ecol : Series) (ks : list pyfloat) (ts : list Z) :
  nth_error h l = Some df ->
  df_get df "strike" = Some sk -> as_floats sk = Some ks ->
  df_get df "expiration" = Some ecol ->
  to_datetime ecol = Ok (TimeCol ts) ->
  enrich_option_data l up (mkWorld c h)
    = (Ok (List.length h), mkWorld c (h ++ [enriched c up df ks ts])).
Proof.
  intros Hl Hsk Hks Hex Hts.
  unfold enrich_option_data.
  rewrite (step_copy c h l df) by exact Hl.
  rewrite step_getitem, Hsk.
  rewrite step_lift. unfold series_truediv. rewrite Hks.
  rewrite step_setitem, step_today, step_setitem_scalar.
  rewrite step_getitem.
  rewrite !df_get_set_other by reflexivity. rewrite Hex.
  rewrite step_lift, Hts.
  rewrite step_setitem, step_getitem, df_get_set_same.
  rewrite step_getitem.
  rewrite df_get_set_other by reflexivity. rewrite df_get_set_same.
  cbn [broadcast].
  rewrite step_lift. cbn [series_sub].
  rewrite step_lift. cbn [dt_days].
  rewrite step_setitem, step_drop.
  rewrite !df_get_set_other by reflexivity. rewrite df_get_set_same.
  reflexivity.
Qed.

Lemma enrich_without_strike (c : Z) (h : list DataFrame) (l : loc)
  (df : DataFrame) (up : pyfloat) :
  nth_error h l = Some df ->
  df_get df "strike" = None ->
  enrich_option_data l up (mkWorld c h)
    = (Raise (KeyError "strike"), mkWorld c (h ++ [df])).
Proof.
  intros Hl Hnone. unfold enrich_option_data.
  rewrite (step_copy c h l df) by exact Hl.
  rewrite step_getitem, Hnone. reflexivity.
Qed.

Section WithPhi.

Variable Phi : R -> R.

(** X10: on a frame without a [strike] column, such as the empty frame,
    the enricher raises [KeyError('strike')] after copying it, and so does
    the pipeline. *)
Theorem enricher_needs_strike
  (c : Z) (h : list DataFrame) (l : loc) (df : DataFrame)
  (up : pyfloat) (S : scalar) :
  nth_error h l = Some df ->
  df_get df "strike" = None ->
  enrich_option_data l up (mkWorld c h)
    = (Raise (KeyError "strike"), mkWorld c (h ++ [df]))
  /\ outcome (pipeline Phi l S) (mkWorld c h) = Raise (KeyError "strike").
Proof.
  intros Hl Hnone.
  split; [apply enrich_without_strike; assumption |].
  unfold outcome, pipeline, bind.
  rewrite (enrich_without_strike c h l df (val S) Hl Hnone). reflexivity.
Qed.

(** X11: with strikes but without an [expiration] column the enricher
    raises [KeyError('expiration')]; the input frame stays as it was. *)
Theorem enricher_needs_expiration
  (c : Z) (h : list DataFrame) (l : loc) (df : DataFrame)
  (up : pyfloat) (ks : list pyfloat) :
  nth_error h l = Some df ->
  has_numbers df "strike" ks ->
  df_get df "expiration" = None ->
  outcome (enrich_option_data l up) (mkWorld c h) = Raise (KeyError "expiration")
  /\ nth_error (heap (snd (enrich_option_data l up (mkWorld c h)))) l = Some df.
Proof.
  intros Hl [sk [Hsk [Hks _]]] Hnone.
  unfold outcome, enrich_option_data.
  rewrite (step_copy c h l df) by exact Hl.
  rewrite step_getitem, Hsk.
  rewrite step_lift. unfold series_truediv. rewrite Hks.
  rewrite step_setitem, step_today, step_setitem_scalar.
  rewrite step_getitem.
  rewrite !df_get_set_other by reflexivity. rewrite Hnone.
  split; [reflexivity |].
  cbn [snd heap]. rewrite nth_error_app1; [exact Hl |].
  apply nth_error_Some. congruence.
Qed.

End WithPhi.

(** X12: the enriched frame never has a [current_date] column, even when
    the input had one; its [expiration] column holds the midnights of the
    expiration dates; every column other than [moneyness], [expiration] and
    [days_to_expiration] is the input's.  When the input has none of the
    enricher's columns, [moneyness] and [days_to_expiration] come last, in
    this order. *)
Theorem enricher_output_columns
  (c : Z) (h : list DataFrame) (l : loc) (df : DataFrame) (up : pyfloat)
  (ks : list pyfloat) (es : list string) (ds : list (Z * Z * Z)) :
  nth_error h l = Some df ->
  has_numbers df "strike" ks ->
  has_dates df "expiration" es ds ->
  exists df',
    outcome (enrich_option_data l up) (mkWorld c h) = Ok df'
    /\ nrows df' = nrows df
    /\ df_get df' "current_date" = None
    /\ df_get df' "expiration" = Some (TimeCol (map timestamp_of_date ds))
    /\ (forall k, String.eqb "moneyness" k = false ->
          String.eqb "current_date" k = false ->
          String.eqb "expiration" k = false ->
          String.eqb "days_to_expiration" k = false ->
          df_get df' k = df_get df k)
    /\ (df_get df "moneyness" = None -> df_get df "current_date" = None ->
        df_get df "days_to_expiration" = None ->
        map fst (columns df')
        = map fst (columns df) ++ ["moneyness"; "days_to_expiration"]%string).
Proof.
  intros Hl Hks Hds.
  exists (enriched c up df ks (map timestamp_of_date ds)).
  split; [| split; [| split; [| split; [| split]]]].
  - unfold outcome. rewrite (enrich_rows c h l df up ks es ds) by assumption.
    apply observe_fresh.
  - reflexivity.
  - unfold enriched. apply df_get_del_same.
  - unfold enriched. rewrite df_get_del_other by reflexivity.
    rewrite df_get_set_other by reflexivity. apply df_get_set_same.
  - intros k H1 H2 H3 H4. apply enriched_other; assumption.
  - intros Hm Hcd Hdays. destruct Hds as [Hes _].
    rewrite enriched_normal_form. rewrite df_del_absent by exact Hcd.
    unfold df_set. cbn [columns].
    rewrite labels_set_new.
    + rewrite (labels_set_old _ "expiration" _ (StrCol es)).
      * rewrite labels_set_new by exact Hm. rewrite <- app_assoc. reflexivity.
      * rewrite get_set_other by reflexivity. exact Hes.
    + rewrite !get_set_other by reflexivity. exact Hdays.
Qed.

(** X13: enriching an enriched frame again on the same calendar day, with
    the same underlying price, hands back the same frame. *)
Theorem enricher_is_idempotent_within_a_day
  (c : Z) (h : list DataFrame) (l : loc) (df : DataFrame) (up : pyfloat)
  (ks : list pyfloat) (es : list string) (ds : list (Z * Z * Z)) :
  nth_error h l = Some df ->
  has_numbers df "strike" ks ->
  has_dates df "expiration" es ds ->
  exists df',
    outcome (enrich_option_data l up) (mkWorld c h) = Ok df'
    /\ forall c2 h2 l2,
         nth_error h2 l2 = Some df' ->
         (c2 / ns_per_day = c / ns_per_day)%Z ->
         outcome (enrich_option_data l2 up) (mkWorld c2 h2) = Ok df'.
Proof.
  intros Hl Hks Hds.
  pose proof Hks as [sk [Hsk [Hks' _]]].
  set (ts := map timestamp_of_date ds).
  set (E := enriched c up df ks ts).
  assert (HEm : df_get E "moneyness" = Some (FloatCol (map (fun a => fdiv a up) ks))).
  { unfold E, enriched. rewrite df_get_del_other by reflexivity.
    rewrite !df_get_set_other by reflexivity. apply df_get_set_same. }
  assert (HEx : df_get E "expiration" = Some (TimeCol ts)).
  { unfold E, enriched. rewrite df_get_del_other by reflexivity.
    rewrite df_get_set_other by reflexivity. apply df_get_set_same. }
  assert (HEd : df_get E "days_to_expiration"
                = Some (IntCol (map delta_days
                                  (zip_with Z.sub ts (repeat (normalize c) (nrows df)))))).
  { unfold E, enriched. rewrite df_get_del_other by reflexivity.
    apply df_get_set_same. }
  assert (HEcd : df_get E "current_date" = None).
  { unfold E, enriched. apply df_get_del_same. }
  assert (HEs : df_get E "strike" = Some sk).
  { unfold E, ts. rewrite enriched_other by reflexivity. exact Hsk. }
  exists E. split.
  - unfold outcome. rewrite (enrich_rows c h l df up ks es ds) by assumption.
    apply observe_fresh.
  - intros c2 h2 l2 Hl2 Hday. unfold outcome.
    rewrite (enrich_run_any c2 h2 l2 E up sk (TimeCol ts) ks ts Hl2 HEs Hks' HEx eq_refl).
    replace (enriched c2 up E ks ts) with E; [apply observe_fresh |].
    rewrite enriched_normal_form.
    rewrite (df_del_absent E "current_date") by exact HEcd.
    rewrite (df_set_same_value E "moneyness") by exact HEm.
    rewrite (df_set_same_value E "expiration") by exact HEx.
    rewrite (normalize_same_day c2 c Hday).
    replace (nrows E) with (nrows df) by reflexivity.
    rewrite (df_set_same_value E "days_to_expiration") by exact HEd.
    reflexivity.
Qed.

End EnricherMore.

(** ** More on the pipeline *)

Module PipelineMore.

Import EnricherProps DriverProps PipelineProps.

Section WithPhi.

Variable Phi : R -> R.

(** The pipeline on a well-formed chain, row by row. *)
Lemma pipeline_row_facts (c : Z) (h : list DataFrame) (l : loc) (df : DataFrame)
  (S : scalar) (ks sgs lps : list pyfloat) (es : list string)
  (ds : list (Z * Z * Z)) (tys : list value) :
  nth_error h l = Some df ->
  has_numbers df "strike" ks ->
  has_dates df "expiration" es ds ->
  has_numbers df "impliedVolatility" sgs ->
  has_numbers df "lastPrice" lps ->
  has_cells df "type" tys ->
  no_zero_division S ks ->
  exists df'',
    outcome (pipeline Phi l S) (mkWorld c h) = Ok df''
    /\ nrows df'' = nrows df
    /\ forall i k e sg ty lp,
        nth_error ks i = Some k -> nth_error ds i = Some e ->
        nth_error sgs i = Some sg -> nth_error tys i = Some ty ->
        nth_error lps i = Some lp ->
        exists p,
          price Phi S (PyNum k)
                (Fin (IZR (day_of e - c / ns_per_day) / 365))
                (Fin 0.045) sg ty = Ok p
          /\ float_at df'' "bs_price" i = Some p
          /\ float_at df'' "pricing_error" i = Some (fsub lp p).
Proof.
  intros Hl Hks Hds Hsgs Hlps Htys Hsafe.
  pose proof (dates_length df "expiration" es ds Hds) as Hlen.
  set (E := enriched c (val S) df ks (map timestamp_of_date ds)).
  set (days := map (fun z => Fin (IZR z)) (days_left c ds)).
  destruct (driver_rows Phi c (h ++ [E]) (List.length h) E S None ks days sgs lps tys)
    as [ps [Hrun Hrows]].
  - apply lookup_fresh.
  - apply enriched_numbers; try reflexivity. exact Hks.
  - apply enriched_days_numbers. exact Hlen.
  - apply enriched_numbers; try reflexivity. exact Hsgs.
  - apply enriched_numbers; try reflexivity. exact Hlps.
  - apply enriched_cells; try reflexivity. exact Htys.
  - intros i k d sg ty Ek _ _ _. apply (rows_safe Phi S ks i); assumption.
  - exists (priced E days ps lps). split; [| split].
    + unfold outcome, pipeline, bind.
      rewrite (enrich_rows c h l df (val S) ks es ds) by assumption.
      fold E. rewrite Hrun. apply observe_fresh.
    + reflexivity.
    + intros i k e sg ty lp Ek Ee Es Et El.
      assert (Ed : nth_error days i = Some (Fin (IZR (day_of e - c / ns_per_day)))).
      { unfold days, days_left. rewrite !nth_error_map, Ee. reflexivity. }
      destruct (Hrows i k _ sg ty Ek Ed Es Et) as [p [Hp Hprice]].
      rewrite PricerProps.fdiv_Fin in Hprice by lra.
      exists p. split; [exact Hprice |]. split.
      * rewrite priced_bs_price. exact Hp.
      * apply priced_error; assumption.
Qed.

(** X14: end to end, each contract of a raw chain is priced with
    [T = (expiration date - current date) / 365] and the rate 0.045, and
    its pricing error is its last price minus that price. *)
Theorem pipeline_prices_each_contract
  (c : Z) (h : list DataFrame) (l : loc) (df : DataFrame)
  (S : scalar) (ks sgs lps : list pyfloat) (es : list string)
  (ds : list (Z * Z * Z)) (tys : list value) :
  nth_error h l = Some df ->
  has_numbers df "strike" ks ->
  has_dates df "expiration" es ds ->
  has_numbers df "impliedVolatility" sgs ->
  has_numbers df "lastPrice" lps ->
  has_cells df "type" tys ->
  no_zero_division S ks ->
  exists df'',
    outcome (pipeline Phi l S) (mkWorld c h) = Ok df''
    /\ nrows df'' = nrows df
    /\ forall i k e sg ty lp,
        nth_error ks i = Some k -> nth_error ds i = Some e ->
        nth_error sgs i = Some sg -> nth_error tys i = Some ty ->
        nth_error lps i = Some lp ->
        exists p,
          price Phi S (PyNum k)
                (Fin (IZR (day_of e - c / ns_per_day) / 365))
                (Fin 0.045) sg ty = Ok p
          /\ float_at df'' "bs_price" i = Some p
          /\ float_at df'' "pricing_error" i = Some (fsub lp p).
Proof.
  intros Hl Hks Hds Hsgs Hlps Htys Hsafe.
  destruct (pipeline_row_facts c h l df S ks sgs lps es ds tys)
    as [df'' [Hout [Hn Hrows]]]; try assumption.
  exists df''. split; [exact Hout |]. split; [exact Hn |]. exact Hrows.
Qed.

(** X15: end to end, a contract whose expiration date is not after the
    current date is priced at its intrinsic value, whatever its implied
    volatility (NaN included): [max(0, S-K)] for a call and [max(0, K-S)]
    otherwise. *)
Theorem pipeline_prices_expired_contracts_at_intrinsic_value
  (c : Z) (h : list DataFrame) (l : loc) (df : DataFrame)
  (S : scalar) (s : R) (ks sgs lps : list pyfloat) (es : list string)
  (ds : list (Z * Z * Z)) (tys : list value) :
  nth_error h l = Some df ->
  has_numbers df "strike" ks ->
  has_dates df "expiration" es ds ->
  has_numbers df "impliedVolatility" sgs ->
  has_numbers df "lastPrice" lps ->
  has_cells df "type" tys ->
  no_zero_division S ks ->
  val S = Fin s ->
  exists df'',
    outcome (pipeline Phi l S) (mkWorld c h) = Ok df''
    /\ forall i k e ty,
        nth_error ks i = Some (Fin k) -> nth_error ds i = Some e ->
        nth_error tys i = Some ty ->
        (day_of e <= c / ns_per_day)%Z ->
        float_at df'' "bs_price" i
        = Some (Fin (if is_call ty then Rmax 0 (s - k) else Rmax 0 (k - s))).
Proof.
  intros Hl Hks Hds Hsgs Hlps Htys Hsafe HS.
  destruct (pipeline_row_facts c h l df S ks sgs lps es ds tys)
    as [df'' [Hout [Hn Hrows]]]; try assumption.
  exists df''. split; [exact Hout |].
  intros i k e ty Ek Ee Et Hexp.
  assert (Hi : (i < nrows df)%nat).
  { destruct Hks as [_ [_ [_ Hlk]]]. rewrite <- Hlk.
    apply nth_error_Some. congruence. }
  destruct (nth_error sgs i) as [sg |] eqn:Es.
  2:{ destruct Hsgs as [_ [_ [_ Hls]]]. apply nth_error_None in Es. lia. }
  destruct (nth_error lps i) as [lp |] eqn:El.
  2:{ destruct Hlps as [_ [_ [_ Hll]]]. apply nth_error_None in El. lia. }
  destruct (Hrows i (Fin k) e sg ty lp Ek Ee Es Et El) as [p [Hprice [Hbs _]]].
  rewrite Hbs. f_equal.
  unfold price in Hprice. rewrite PricerProps.edge_branch in Hprice.
  - cbn [fst] in Hprice. inversion Hprice.
    rewrite HS. cbn [val]. unfold fsub. simpl fneg. simpl fadd.
    destruct (is_call ty); rewrite py_max0_Fin; reflexivity.
  - apply orb_true_iff. left. apply fle_Fin_true.
    assert (Hz : IZR (day_of e - c / ns_per_day) <= 0).
    { apply (IZR_le _ 0). lia. }
    lra.
Qed.

End WithPhi.

End PipelineMore.

(** ** The spot price *)

Module PriceProps.

Lemma rint_close (y : R) : - (1 / 2) <= IZR (rint y) - y <= 1 / 2.
Proof.
  unfold rint.
  destruct (base_fp y) as [Hge Hlt].
  assert (Hy : y = IZR (Int_part y) + frac_part y) by (unfold frac_part; ring).
  set (f := Int_part y) in *. set (d := frac_part y) in *.
  unfold Rltb.
  destruct (Rlt_dec d (1 / 2)) as [H1 | H1]; [lra |].
  destruct (Rlt_dec (1 / 2) d) as [H2 | H2].
  - rewrite plus_IZR. lra.
  - destruct (Z.even f); [lra |]. rewrite plus_IZR. lra.
Qed.

Lemma Rabs_bounds (x b : R) : Rabs x <= b -> - b <= x <= b.
Proof. unfold Rabs. destruct (Rcase_abs x); lra. Qed.

(** the error of NumPy's rounding to two decimals, when the product and the
    quotient are rounded with a relative error of at most [eps] *)
Lemma round2_close (fl : R -> R) (x eps : R) :
  0 <= eps <= 1 ->
  Rabs (fl (x * 100) - x * 100) <= eps * Rabs (x * 100) ->
  Rabs (fl (IZR (rint (fl (x * 100))) / 100) - IZR (rint (fl (x * 100))) / 100)
    <= eps * Rabs (IZR (rint (fl (x * 100))) / 100) ->
  Rabs (fl (IZR (rint (fl (x * 100))) / 100) - x)
    <= 0.005 + (3 * Rabs x + 0.005) * eps.
Proof.
  intros Heps H1 H2.
  pose proof (rint_close (fl (x * 100))) as Hn.
  set (y' := fl (x * 100)) in *.
  set (q := IZR (rint y') / 100) in *.
  set (v := fl q) in *.
  assert (Ha : 0 <= Rabs x) by apply Rabs_pos.
  assert (Hx : - Rabs x <= x <= Rabs x) by (apply Rabs_bounds; lra).
  rewrite Rabs_mult, (Rabs_right 100) in H1 by lra.
  apply Rabs_bounds in H1.
  set (a := Rabs x) in *.
  assert (Hq : - (0.005 + eps * a) <= q - x <= 0.005 + eps * a).
  { unfold q. lra. }
  assert (Hb : Rabs q <= a + 0.005 + eps * a).
  { apply Rabs_le. lra. }
  assert (Hea : eps * a <= a).
  { rewrite <- (Rmult_1_l a) at 2. apply Rmult_le_compat_r; lra. }
  assert (Hvb : eps * Rabs q <= eps * (a + 0.005 + eps * a)).
  { apply Rmult_le_compat_l; lra. }
  assert (Hee : eps * (eps * a) <= eps * a).
  { apply Rmult_le_compat_l; lra. }
  apply Rabs_bounds in H2.
  apply Rabs_le. lra.
Qed.

Lemma last_cell (close : Series) :
  iloc_last close = None -> List.length (cells close) = 0%nat.
Proof.
  assert (H : forall (A : Type) (l : list A),
            last (map Some l) None = None -> l = []).
  { intros A l. destruct l as [| x l] using rev_ind; [reflexivity |].
    rewrite map_app. cbn [map]. rewrite last_last. discriminate. }
  destruct close as [l | l | l | l | l]; cbn [iloc_last cells];
    intros Hlast; rewrite length_map;
    destruct (last (map Some l) None) eqn:E; try discriminate;
    rewrite (H _ l E); reflexivity.
Qed.

Section WithProvider.

Variable fl : R -> R.
Variable ticker : string -> result unit.
Variable history : string -> result DataFrame.

(** X16: [get_todays_price] always ends, and the stored frames are as
    before.  An error raised while the ticker object is built, before the
    [try], leaves the function as it is.  Once the object is built nothing
    is raised, whatever the provider answers with well-formed frames: the
    function returns a number and prints nothing, or returns [None] after
    printing one error message. *)
Theorem get_todays_price_swallows_every_error
  (ticker_symbol : string) (s : Session) :
  (forall data, history ticker_symbol = Ok data -> well_formed data) ->
  exists r s',
    get_todays_price fl ticker history ticker_symbol s = Some (r, s')
    /\ heap (world s') = heap (world s)
    /\ match ticker ticker_symbol with
       | Raise e => r = Raise e /\ stdout s' = stdout s
       | Ok _ =>
           (exists S, r = Ok (Some S) /\ stdout s' = stdout s)
           \/ (exists e, r = Ok None
                         /\ stdout s'
                            = stdout s ++ [ErrorFetchingPrice ticker_symbol e])
       end.
Proof.
  intros Hwf.
  unfold get_todays_price, try_except, fbind, external, fresult, fraise, fret,
    print, unmodelled.
  destruct (ticker ticker_symbol) as [[] | e0].
  2:{ eexists _, _. split; [reflexivity |]. repeat split. }
  destruct (history ticker_symbol) as [data | e].
  - specialize (Hwf data eq_refl).
    destruct (df_empty data) eqn:Hempty.
    + eexists _, _. split; [reflexivity |]. split; [reflexivity |].
      right. exists ValueError. split; reflexivity.
    + destruct (df_get data "Close") as [close |] eqn:Hclose.
      * destruct (iloc_last close) as [price |] eqn:Hlast.
        -- destruct (py_round2 fl price) as [S | e].
           ++ eexists _, _. split; [reflexivity |]. split; [reflexivity |].
              left. exists S. split; reflexivity.
           ++ eexists _, _. split; [reflexivity |]. split; [reflexivity |].
              right. exists e. split; reflexivity.
        -- exfalso. apply last_cell in Hlast.
           rewrite (Hwf "Close"%string close Hclose) in Hlast.
           unfold df_empty in Hempty. rewrite Hlast in Hempty.
           discriminate Hempty.
      * eexists _, _. split; [reflexivity |]. split; [reflexivity |].
        right. exists (KeyError "Close"). split; reflexivity.
  - eexists _, _. split; [reflexivity |]. split; [reflexivity |].
    right. exists e. split; reflexivity.
Qed.

(** X17: when the provider returns a frame whose [Close] column of floats
    ends in the finite price [x], [get_todays_price] prints nothing and
    returns the NumPy number NumPy's rounding gives: the float nearest to
    [n/100] for an integer [n].  When the product [x * 100] and the
    quotient [n / 100] are rounded with a relative error of at most [eps],
    it lies within [0.005 + (3|x| + 0.005) eps] of [x]: half a cent, up to
    the two roundings. *)
Theorem get_todays_price_rounds_the_last_close
  (ticker_symbol : string) (s : Session) (data : DataFrame)
  (closes : list pyfloat) (x eps : R) :
  ticker ticker_symbol = Ok tt ->
  history ticker_symbol = Ok data ->
  df_empty data = false ->
  df_get data "Close" = Some (FloatCol (closes ++ [Fin x])) ->
  0 <= eps <= 1 ->
  Rabs (fl (x * 100) - x * 100) <= eps * Rabs (x * 100) ->
  Rabs (fl (IZR (rint (fl (x * 100))) / 100) - IZR (rint (fl (x * 100))) / 100)
    <= eps * Rabs (IZR (rint (fl (x * 100))) / 100) ->
  exists n : Z,
    get_todays_price fl ticker history ticker_symbol s
      = Some (Ok (Some (NpNum (Fin (fl (IZR n / 100))))), s)
    /\ Rabs (fl (IZR n / 100) - x) <= 0.005 + (3 * Rabs x + 0.005) * eps.
Proof.
  intros Ht Hh He Hc Heps H1 H2.
  exists (rint (fl (x * 100))). split; [| apply round2_close; assumption].
  unfold get_todays_price, try_except, fbind, external, fresult, fret.
  rewrite Ht, Hh, He, Hc. cbn [iloc_last].
  rewrite map_app. cbn [map]. rewrite last_last. reflexivity.
Qed.

Lemma fetched_price_is_numpy (ticker_symbol : string) (s s' : Session)
  (S : scalar) :
  get_todays_price fl ticker history ticker_symbol s = Some (Ok (Some S), s') ->
  exists x, S = NpNum x.
Proof.
  unfold get_todays_price, try_except, fbind, external, fresult, fraise, fret,
    print, unmodelled.
  destruct (ticker ticker_symbol) as [[] | e0]; [| discriminate].
  destruct (history ticker_symbol) as [data | e]; [| discriminate].
  destruct (df_empty data); [discriminate |].
  destruct (df_get data "Close") as [close |]; [| discriminate].
  destruct (iloc_last close) as [price |]; [| discriminate].
  destruct price as [x | z | str | t | d]; cbn [py_round2]; try discriminate.
  - intros H. inversion H. eexists. reflexivity.
  - intros H. inversion H. eexists. reflexivity.
Qed.

(** X18: with a spot price that [get_todays_price] returned, the pipeline
    prices every chain with numeric strikes, ISO expiration dates, implied
    volatilities and last prices, zero strikes included: the price is a
    NumPy number, so [S / K] cannot raise. *)
Theorem pipeline_accepts_every_fetched_price
  (Phi : R -> R) (ticker_symbol : string) (s s' : Session) (S : scalar)
  (c : Z) (h : list DataFrame) (l : loc) (df : DataFrame)
  (ks sgs lps : list pyfloat) (es : list string)
  (ds : list (Z * Z * Z)) (tys : list value) :
  get_todays_price fl ticker history ticker_symbol s = Some (Ok (Some S), s') ->
  nth_error h l = Some df ->
  has_numbers df "strike" ks ->
  has_dates df "expiration" es ds ->
  has_numbers df "impliedVolatility" sgs ->
  has_numbers df "lastPrice" lps ->
  has_cells df "type" tys ->
  exists df'',
    outcome (pipeline Phi l S) (mkWorld c h) = Ok df''
    /\ nrows df'' = nrows df.
Proof.
  intros Hprice Hl Hks Hds Hsgs Hlps Htys.
  destruct (fetched_price_is_numpy ticker_symbol s s' S Hprice) as [x Hx].
  destruct (PipelineProps.pipeline_rows Phi c h l df S ks sgs lps es ds tys)
    as [ps Hrun]; try assumption.
  { left. exists x. exact Hx. }
  eexists. split; [exact Hrun | reflexivity].
Qed.

End WithProvider.

End PriceProps.

(** ** Concatenation of frames with one schema *)

Module ConcatLemmas.

Lemma append_series_ok (a b : Series) :
  dtype_of a = dtype_of b ->
  exists ab, append_series a b = Some ab
             /\ dtype_of ab = dtype_of a
             /\ cells ab = cells a ++ cells b.
Proof.
  intros H. destruct a, b; try discriminate; eexists; (split; [reflexivity |]);
    (split; [reflexivity |]); simpl; apply map_app.
Qed.

Lemma concat_cols_ok (ca cb : list (string * Series)) :
  cols_schema ca = cols_schema cb ->
  exists cc, concat_cols ca cb = Some cc
             /\ cols_schema cc = cols_schema ca
             /\ forall k, cells_of (get_col cc k)
                          = cells_of (get_col ca k) ++ cells_of (get_col cb k).
Proof.
  revert cb. induction ca as [| [k a] ca IH]; intros [| [k' b] cb] H;
    try discriminate.
  - exists []. repeat split.
  - simpl in H. inversion H as [[Hk Hd Hrest]]. subst k'.
    destruct (append_series_ok a b Hd) as [ab [Hab [Hdt Hcells]]].
    destruct (IH cb Hrest) as [cc [Hcc [Hsch Hget]]].
    exists ((k, ab) :: cc). split; [| split].
    + simpl. rewrite String.eqb_refl, Hab, Hcc. reflexivity.
    + simpl. rewrite Hdt, Hsch. reflexivity.
    + intros k0. simpl. destruct (String.eqb k k0); [exact Hcells | apply Hget].
Qed.

Lemma concat2_ok (a b : DataFrame) :
  schema a = schema b ->
  exists r, concat2 a b = Some r
            /\ schema r = schema a
            /\ nrows r = (nrows a + nrows b)%nat
            /\ forall k, col_cells r k = col_cells a k ++ col_cells b k.
Proof.
  intros H.
  destruct (concat_cols_ok (columns a) (columns b) H) as [cc [Hcc [Hsch Hget]]].
  exists (mkDF (nrows a + nrows b) cc). unfold concat2. rewrite Hcc.
  repeat split; [exact Hsch |]. intros k. apply Hget.
Qed.

Lemma concat_all_ok (others : list DataFrame) :
  forall first,
  Forall (fun f => schema f = schema first) others ->
  exists r, concat_all first others = Some r
            /\ schema r = schema first
            /\ nrows r = fold_right (fun f n => (nrows f + n)%nat) 0%nat (first :: others)
            /\ forall k, col_cells r k
                         = flat_map (fun f => col_cells f k) (first :: others).
Proof.
  induction others as [| next others IH]; intros first Hall.
  - exists first. simpl. repeat split; [lia |].
    intros k. rewrite app_nil_r. reflexivity.
  - inversion Hall as [| ? ? Hnext Hrest]; subst.
    destruct (concat2_ok first next (eq_sym Hnext)) as [both [Hboth [Hsch [Hn Hcells]]]].
    destruct (IH both) as [r [Hr [Hrs [Hrn Hrc]]]].
    { apply Forall_impl with (2 := Hrest). intros f Hf. congruence. }
    exists r. simpl. rewrite Hboth. split; [exact Hr |]. split; [congruence |].
    split.
    + rewrite Hrn. simpl. rewrite Hn. lia.
    + intros k. rewrite Hrc. simpl. rewrite Hcells, <- app_assoc. reflexivity.
Qed.

(** *** Labelled provider frames *)

Lemma schema_set (a b : list (string * Series)) (k : string) (s s' : Series) :
  cols_schema a = cols_schema b -> dtype_of s = dtype_of s' ->
  cols_schema (set_col a k s) = cols_schema (set_col b k s').
Proof.
  intros H Hd. revert b H.
  induction a as [| [k0 a0] a IH]; intros [| [k1 b0] b] H; try discriminate.
  - simpl. rewrite Hd. reflexivity.
  - simpl in H. inversion H as [[Hk Hdt Hrest]]. subst k1. simpl.
    destruct (String.eqb k0 k); simpl.
    + rewrite Hd. f_equal. exact Hrest.
    + rewrite Hdt. f_equal. apply IH. exact Hrest.
Qed.

Lemma labelled_schema (kind kind' e e' : string) (a b : DataFrame) :
  schema a = schema b ->
  schema (labelled kind e a) = schema (labelled kind' e' b).
Proof.
  intros H. unfold schema, labelled, df_set. cbn [columns].
  apply schema_set; [| reflexivity].
  apply schema_set; [exact H | reflexivity].
Qed.

Lemma labelled_type (kind e : string) (df : DataFrame) :
  col_cells (labelled kind e df) "type" = repeat (VStr kind) (nrows df).
Proof.
  unfold col_cells, labelled.
  rewrite df_get_set_other by reflexivity. rewrite df_get_set_same.
  simpl. apply map_repeat.
Qed.

Lemma labelled_expiration (kind e : string) (df : DataFrame) :
  col_cells (labelled kind e df) "expiration" = repeat (VStr e) (nrows df).
Proof.
  unfold col_cells, labelled. rewrite df_get_set_same.
  simpl. apply map_repeat.
Qed.

Lemma labelled_other (kind e k : string) (df : DataFrame) :
  String.eqb "type" k = false -> String.eqb "expiration" k = false ->
  col_cells (labelled kind e df) k = col_cells df k.
Proof.
  intros H1 H2. unfold col_cells, labelled.
  rewrite !df_get_set_other by assumption. reflexivity.
Qed.

Lemma concat_cols_get (ca cb cc : list (string * Series)) :
  concat_cols ca cb = Some cc ->
  forall k a b, get_col ca k = Some a -> get_col cb k = Some b ->
                get_col cc k = append_series a b.
Proof.
  revert cb cc. induction ca as [| [k0 a0] ca IH]; intros [| [k1 b0] cb] cc H;
    try discriminate.
  cbn [concat_cols] in H.
  destruct (String.eqb k0 k1) eqn:Hk; [| discriminate].
  apply String.eqb_eq in Hk. subst k1.
  destruct (append_series a0 b0) as [ab |] eqn:Hab; [| discriminate].
  destruct (concat_cols ca cb) as [rest |] eqn:Hrest; [| discriminate].
  inversion H; subst cc. intros k a b. cbn [get_col].
  destruct (String.eqb k0 k).
  - intros Ha Hb. inversion Ha; inversion Hb; subst. symmetry. exact Hab.
  - apply (IH cb rest Hrest).
Qed.

Lemma concat2_get (a b r : DataFrame) (k : string) (sa sb : Series) :
  concat2 a b = Some r ->
  df_get a k = Some sa -> df_get b k = Some sb ->
  df_get r k = append_series sa sb.
Proof.
  unfold concat2, df_get.
  destruct (concat_cols (columns a) (columns b)) as [cc |] eqn:Hcc; [| discriminate].
  intros H. inversion H; subst r. cbn [columns].
  apply (concat_cols_get _ _ _ Hcc).
Qed.

(** columns of one dtype, built by [mk], are appended in order *)
Lemma concat_all_typed (A : Type) (mk : list A -> Series) (k : string) :
  (forall x y, append_series (mk x) (mk y) = Some (mk (x ++ y))) ->
  forall others first r xs0 xss,
  concat_all first others = Some r ->
  df_get first k = Some (mk xs0) ->
  Forall2 (fun f xs => df_get f k = Some (mk xs)) others xss ->
  df_get r k = Some (mk (xs0 ++ List.concat xss)).
Proof.
  intros Hmk. induction others as [| next others IH];
    intros first r xs0 xss Hcat Hfirst Hothers.
  - inversion Hothers; subst. cbn [concat_all] in Hcat. inversion Hcat; subst.
    cbn [List.concat]. rewrite app_nil_r. exact Hfirst.
  - inversion Hothers as [| ? xs1 ? xss' Hnext Hrest]; subst.
    cbn [concat_all] in Hcat.
    destruct (concat2 first next) as [both |] eqn:Hboth; [| discriminate].
    cbn [List.concat]. rewrite app_assoc.
    apply (IH both r (xs0 ++ xs1) xss' Hcat); [| exact Hrest].
    rewrite (concat2_get first next both k _ _ Hboth Hfirst Hnext).
    apply Hmk.
Qed.

End ConcatLemmas.
Import ConcatLemmas.

(** ** Fetching the option chain *)

Module FetchProps.

Lemma lookup_past (h t : list DataFrame) (n : nat) :
  nth_error (h ++ t) (List.length h + n)%nat = nth_error t n.
Proof.
  rewrite nth_error_app2 by lia. f_equal. lia.
Qed.

Lemma update_past (h t : list DataFrame) (n : nat) (x : DataFrame) :
  heap_update (h ++ t) (List.length h + n)%nat x = h ++ heap_update t n x.
Proof.
  induction h as [| d h IH]; simpl.
  - destruct t; reflexivity.
  - rewrite IH. reflexivity.
Qed.

Lemma run_setitem_scalar (c : Z) (h t : list DataFrame) (n : nat)
  (df : DataFrame) (k : string) (v : value) :
  nth_error t n = Some df ->
  setitem_scalar (List.length h + n)%nat k v (mkWorld c (h ++ t))
  = (Ok tt,
     mkWorld c (h ++ heap_update t n (df_set df k (broadcast v (nrows df))))).
Proof.
  intros H. unfold setitem_scalar, bind, deref, store. cbn [heap clock].
  rewrite lookup_past, H. cbn [heap clock]. rewrite update_past. reflexivity.
Qed.

Lemma deref_all_ok (c : Z) (hp : list DataFrame) (ls : list loc)
  (fs : list DataFrame) :
  Forall2 (fun l f => nth_error hp l = Some f) ls fs ->
  deref_all ls (mkWorld c hp) = (Ok fs, mkWorld c hp).
Proof.
  intros H. unfold deref_all. cbn [heap]. f_equal.
  induction H as [| l f ls fs Hl _ IH]; simpl; [reflexivity |].
  rewrite Hl. simpl. rewrite IH. reflexivity.
Qed.

Lemma run_pd_concat (c : Z) (hp : list DataFrame) (out : list message)
  (acc ls : list loc) (first final : DataFrame) (others : list DataFrame) :
  Forall2 (fun l f => nth_error hp l = Some f) ls (first :: others) ->
  concat_all first others = Some final ->
  pd_concat ls (mkSession (mkWorld c hp) out acc)
  = Some (Ok (List.length hp), mkSession (mkWorld c (hp ++ [final])) out acc).
Proof.
  intros Hls Hcat. unfold pd_concat, fbind, in_world.
  cbn [world stdout all_options].
  rewrite (deref_all_ok c hp ls (first :: others) Hls).
  rewrite Hcat. reflexivity.
Qed.

Lemma lookups_extend (h news : list DataFrame) (ls : list loc)
  (fs : list DataFrame) :
  Forall2 (fun l f => nth_error h l = Some f) ls fs ->
  Forall2 (fun l f => nth_error (h ++ news) l = Some f) ls fs.
Proof.
  intros H. apply Forall2_impl with (2 := H).
  intros l f Hl. rewrite nth_error_app1; [exact Hl |].
  apply nth_error_Some. congruence.
Qed.

Section WithProvider.

Variable options : string -> result (list string).
Variable option_chain : string -> string -> result (DataFrame * DataFrame).
Variable sleep : pyfloat -> result unit.

Lemma fetch_expiry_answered (sym : string) (t : pyfloat) (e : string)
  (c : Z) (h : list DataFrame) (out : list message) (acc : list loc)
  (calls puts cf : DataFrame) :
  option_chain sym e = Ok (calls, puts) ->
  concat2 (labelled "call" e calls) (labelled "put" e puts) = Some cf ->
  fetch_expiry option_chain sleep sym t e (mkSession (mkWorld c h) out acc)
  = Some (Ok tt,
          mkSession
            (mkWorld c (h ++ [labelled "call" e calls; labelled "put" e puts; cf]))
            (out ++ FetchedContracts (nrows cf) e
                 :: match sleep t with
                    | Ok _ => []
                    | Raise ex => [FailedOn e ex]
                    end)
            (acc ++ [List.length h + 2]%nat)).
Proof.
  intros Hchain Hcf.
  unfold fetch_expiry, try_except, fbind, external, in_world.
  rewrite Hchain. cbn [fst snd world stdout all_options].
  unfold alloc. cbn [heap clock world stdout all_options].
  rewrite <- !app_assoc. cbn [app].
  rewrite length_app. cbn [List.length].
  rewrite <- (Nat.add_0_r (List.length h)) at 1.
  rewrite (run_setitem_scalar c h [calls; puts] 0%nat calls) by reflexivity.
  cbn [heap_update world stdout all_options].
  rewrite (run_setitem_scalar c h _ 1%nat puts) by reflexivity.
  cbn [heap_update world stdout all_options].
  rewrite <- (Nat.add_0_r (List.length h)) at 1.
  rewrite (run_setitem_scalar c h _ 0%nat _ "expiration") by reflexivity.
  cbn [heap_update world stdout all_options].
  rewrite (run_setitem_scalar c h _ 1%nat _ "expiration") by reflexivity.
  cbn [heap_update world stdout all_options nrows df_set].
  fold (labelled "call" e calls). fold (labelled "put" e puts).
  rewrite (run_pd_concat c _ out acc _ (labelled "call" e calls) cf
             [labelled "put" e puts]).
  - unfold append_option, len_frame, fbind, in_world, deref, fret, print.
    cbn [world stdout all_options heap clock].
    rewrite lookup_fresh. cbn [world stdout all_options heap clock].
    rewrite length_app. cbn [List.length].
    rewrite <- app_assoc. cbn [app].
    destruct (sleep t) as [[] | ex]; cbn [world stdout all_options].
    + reflexivity.
    + rewrite <- app_assoc. reflexivity.
  - constructor; [| constructor; [| constructor]].
    + rewrite <- (Nat.add_0_r (List.length h)). apply lookup_past.
    + apply lookup_past.
  - cbn [concat_all]. rewrite Hcf. reflexivity.
Qed.

Lemma fetch_expiry_refused (sym : string) (t : pyfloat) (e : string)
  (s : Session) (ex : exn) :
  option_chain sym e = Raise ex ->
  fetch_expiry option_chain sleep sym t e s
  = Some (Ok tt, mkSession (world s) (stdout s ++ [FailedOn e ex]) (all_options s)).
Proof.
  intros Hchain. unfold fetch_expiry, try_except, fbind, external, print.
  rewrite Hchain. reflexivity.
Qed.

Lemma loop_run (sym : string) (t : pyfloat) (sch : list (string * dtype))
  (exps : list string) :
  forall (c : Z) (h : list DataFrame) (out : list message) (acc : list loc)
         (frames : list DataFrame),
  uniform sch (answered (option_chain sym) exps) ->
  Forall2 (fun l f => nth_error h l = Some f) acc frames ->
  exists news locs fs,
    for_each exps (fetch_expiry option_chain sleep sym t)
             (mkSession (mkWorld c h) out acc)
    = Some (Ok tt,
            mkSession (mkWorld c (h ++ news))
                      (out ++ reports (option_chain sym) (sleep t) exps)
                      (acc ++ locs))
    /\ Forall2 (fun l f => nth_error (h ++ news) l = Some f)
               (acc ++ locs) (frames ++ fs)
    /\ Forall2 combined_of (answered (option_chain sym) exps) fs.
Proof.
  induction exps as [| e rest IH]; intros c h out acc frames Huni Hacc.
  - exists [], [], []. rewrite !app_nil_r. repeat split; [exact Hacc | constructor].
  - cbn [for_each answered reports] in *. unfold fbind at 1.
    destruct (option_chain sym e) as [[calls puts] | ex] eqn:Hchain.
    + apply Forall_cons_iff in Huni. destruct Huni as [[Hc Hp] Hrest].
      cbn [fst snd] in Hc, Hp.
      destruct (concat2_ok (labelled "call" e calls) (labelled "put" e puts))
        as [cf [Hcf [Hsch [Hn _]]]].
      { apply labelled_schema. congruence. }
      rewrite (fetch_expiry_answered sym t e c h out acc calls puts cf Hchain Hcf).
      destruct (IH c (h ++ [labelled "call" e calls; labelled "put" e puts; cf])
                  (out ++ FetchedContracts (nrows cf) e
                       :: match sleep t with
                          | Ok _ => []
                          | Raise ex => [FailedOn e ex]
                          end)
                  (acc ++ [List.length h + 2]%nat) (frames ++ [cf]) Hrest)
        as [news [locs [fs [Hrun [Hlook Hcomb]]]]].
      { apply Forall2_app.
        - apply lookups_extend. exact Hacc.
        - constructor; [| constructor]. apply lookup_past. }
      exists ([labelled "call" e calls; labelled "put" e puts; cf] ++ news),
             ((List.length h + 2)%nat :: locs), (cf :: fs).
      split; [| split].
      * rewrite Hrun. rewrite <- !app_assoc. cbn [app].
        replace (nrows cf) with (nrows calls + nrows puts)%nat by (rewrite Hn; reflexivity).
        destruct (sleep t); reflexivity.
      * rewrite <- !app_assoc in Hlook. cbn [app] in Hlook. exact Hlook.
      * constructor; [exact Hcf | exact Hcomb].
    + rewrite (fetch_expiry_refused sym t e _ ex Hchain).
      cbn [world stdout all_options].
      destruct (IH c h (out ++ [FailedOn e ex]) acc frames Huni Hacc)
        as [news [locs [fs [Hrun [Hlook Hcomb]]]]].
      exists news, locs, fs. split; [| split; assumption].
      rewrite Hrun. rewrite <- app_assoc. reflexivity.
Qed.

Lemma combined_facts (a : string * DataFrame * DataFrame) (f : DataFrame) :
  schema (snd (fst a)) = schema (snd a) ->
  combined_of a f ->
  nrows f = (nrows (snd (fst a)) + nrows (snd a))%nat
  /\ schema f = schema (labelled "call" (fst (fst a)) (snd (fst a)))
  /\ df_get f "type"
     = Some (StrCol (repeat "call"%string (nrows (snd (fst a)))
                     ++ repeat "put"%string (nrows (snd a))))
  /\ df_get f "expiration"
     = Some (StrCol (repeat (fst (fst a)) (nrows (snd (fst a)) + nrows (snd a))))
  /\ forall k, String.eqb "type" k = false -> String.eqb "expiration" k = false ->
       col_cells f k = col_cells (snd (fst a)) k ++ col_cells (snd a) k.
Proof.
  destruct a as [[e calls] puts]. cbn [fst snd]. intros Hsch Hcomb.
  unfold combined_of in Hcomb. cbn [fst snd] in Hcomb.
  destruct (concat2_ok (labelled "call" e calls) (labelled "put" e puts))
    as [r [Hr [Hrs [Hrn Hrc]]]].
  { apply labelled_schema. exact Hsch. }
  assert (Heq : r = f) by congruence. subst r.
  split; [exact Hrn |]. split; [exact Hrs |]. split; [| split].
  - rewrite (concat2_get _ _ f "type" (StrCol (repeat "call"%string (nrows calls)))
               (StrCol (repeat "put"%string (nrows puts))) Hcomb).
    + reflexivity.
    + unfold labelled. rewrite df_get_set_other by reflexivity.
      apply df_get_set_same.
    + unfold labelled. rewrite df_get_set_other by reflexivity.
      apply df_get_set_same.
  - rewrite (concat2_get _ _ f "expiration" (StrCol (repeat e (nrows calls)))
               (StrCol (repeat e (nrows puts))) Hcomb).
    + cbn [append_series]. rewrite <- repeat_app. reflexivity.
    + unfold labelled. apply df_get_set_same.
    + unfold labelled. apply df_get_set_same.
  - intros k H1 H2. rewrite Hrc, !labelled_other by assumption. reflexivity.
Qed.

Lemma combined_floats (a : string * DataFrame * DataFrame) (f : DataFrame)
  (k : string) (xc xp : list pyfloat) :
  combined_of a f ->
  String.eqb "type" k = false -> String.eqb "expiration" k = false ->
  df_get (snd (fst a)) k = Some (FloatCol xc) ->
  df_get (snd a) k = Some (FloatCol xp) ->
  df_get f k = Some (FloatCol (floats_of (snd (fst a)) k ++ floats_of (snd a) k)).
Proof.
  destruct a as [[e calls] puts]. cbn [fst snd]. intros Hcomb H1 H2 Hc Hp.
  unfold combined_of in Hcomb. cbn [fst snd] in Hcomb.
  unfold floats_of. rewrite Hc, Hp.
  rewrite (concat2_get _ _ f k (FloatCol xc) (FloatCol xp) Hcomb).
  - reflexivity.
  - unfold labelled. rewrite !df_get_set_other by assumption. exact Hc.
  - unfold labelled. rewrite !df_get_set_other by assumption. exact Hp.
Qed.

Lemma strcol_cells (f : DataFrame) (k : string) (l : list string) :
  df_get f k = Some (StrCol l) -> col_cells f k = map VStr l.
Proof. intros H. unfold col_cells. rewrite H. reflexivity. Qed.

Lemma all_combined (sch : list (string * dtype))
  (answers : list (string * DataFrame * DataFrame)) (fs : list DataFrame) :
  uniform sch answers ->
  Forall2 combined_of answers fs ->
  fold_right (fun f n => (nrows f + n)%nat) 0%nat fs = contracts answers
  /\ flat_map (fun f => col_cells f "type") fs = kind_cells answers
  /\ flat_map (fun f => col_cells f "expiration") fs = expiry_cells answers
  /\ forall k, String.eqb "type" k = false -> String.eqb "expiration" k = false ->
       flat_map (fun f => col_cells f k) fs = data_cells k answers.
Proof.
  intros Huni Hcomb.
  induction Hcomb as [| a f answers fs Haf _ IH].
  - repeat split.
  - apply Forall_cons_iff in Huni. destruct Huni as [[Hc Hp] Hrest].
    destruct (IH Hrest) as [IHn [IHt [IHe IHk]]].
    destruct (combined_facts a f) as [Hn [_ [Ht [He Hk]]]];
      [congruence | exact Haf |].
    unfold contracts, kind_cells, expiry_cells, kind_rows, expiry_rows,
      data_cells in *.
    cbn [fold_right flat_map].
    rewrite (strcol_cells f "type" _ Ht), (strcol_cells f "expiration" _ He).
    rewrite Hn, IHn, IHt, IHe, !map_app.
    repeat split; try lia.
    intros k H1 H2. rewrite (Hk k H1 H2), (IHk k H1 H2). reflexivity.
Qed.

Lemma combined_same_schema (sch : list (string * dtype))
  (answers : list (string * DataFrame * DataFrame)) (fs : list DataFrame) :
  uniform sch answers ->
  Forall2 combined_of answers fs ->
  forall a0 f0, schema (snd (fst a0)) = sch -> schema (snd a0) = sch ->
                combined_of a0 f0 ->
  Forall (fun f => schema f = schema f0) fs.
Proof.
  intros Huni Hcomb a0 f0 Hc0 Hp0 Hf0.
  destruct (combined_facts a0 f0) as [_ [Hs0 _]]; [congruence | exact Hf0 |].
  induction Hcomb as [| a f answers fs Haf _ IH]; [constructor |].
  apply Forall_cons_iff in Huni. destruct Huni as [[Hc Hp] Hrest].
  constructor; [| exact (IH Hrest)].
  destruct (combined_facts a f) as [_ [Hs _]]; [congruence | exact Haf |].
  rewrite Hs, Hs0. apply labelled_schema. congruence.
Qed.

(** what the merged frame holds, cell by cell *)
Lemma merged_cells (sch : list (string * dtype))
  (answers : list (string * DataFrame * DataFrame)) (fs : list DataFrame)
  (final : DataFrame) :
  uniform sch answers ->
  Forall2 combined_of answers fs ->
  merged fs final ->
  nrows final = contracts answers
  /\ col_cells final "type" = kind_cells answers
  /\ col_cells final "expiration" = expiry_cells answers
  /\ forall k, String.eqb "type" k = false -> String.eqb "expiration" k = false ->
       col_cells final k = data_cells k answers.
Proof.
  intros Huni Hcomb Hmerged.
  destruct (all_combined sch answers fs Huni Hcomb) as [Hn [Ht [He Hk]]].
  destruct Hcomb as [| a0 f0 arest frest Ha0 Harest].
  - cbn [merged] in Hmerged. subst final. repeat split.
  - cbn [merged] in Hmerged.
    apply Forall_cons_iff in Huni. destruct Huni as [[Hc0 Hp0] Hrest].
    destruct (concat_all_ok frest f0) as [r [Hr [_ [Hrn Hrc]]]].
    { exact (combined_same_schema sch arest frest Hrest Harest a0 f0 Hc0 Hp0 Ha0). }
    assert (Heq : r = final) by congruence. subst r.
    rewrite Hrn, !Hrc, Hn, Ht, He.
    repeat split. intros k H1 H2. rewrite Hrc. apply Hk; assumption.
Qed.

(** the run of the whole function when the provider lists [avail] *)
Lemma fetch_run (sym : string) (n : option Z) (t : option pyfloat)
  (sch : list (string * dtype)) (avail : list string)
  (c : Z) (h : list DataFrame) (out : list message) (acc : list loc) :
  options sym = Ok avail ->
  uniform sch (answered (option_chain sym) (requested n avail)) ->
  exists news locs fs final,
    fetch_full_option_chain options option_chain sleep sym n t
      (mkSession (mkWorld c h) out acc)
    = Some (Ok (List.length (h ++ news)),
            mkSession (mkWorld c ((h ++ news) ++ [final]))
                      (out ++ reports (option_chain sym) (sleep (pause t))
                                      (requested n avail))
                      locs)
    /\ Forall2 combined_of (answered (option_chain sym) (requested n avail)) fs
    /\ merged fs final.
Proof.
  intros Hopt Huni.
  destruct (loop_run sym (pause t) sch (requested n avail) c h out [] [] Huni
              (Forall2_nil _)) as [news [locs [fs [Hloop [Hlook Hcomb]]]]].
  cbn [app] in Hloop, Hlook.
  unfold fetch_full_option_chain, fbind, external, fresult. rewrite Hopt.
  fold (requested n avail) (pause t). unfold reset_all_options.
  cbn [world stdout all_options].
  rewrite Hloop. unfold read_all_options. cbn [world stdout all_options].
  destruct locs as [| l0 locs].
  - inversion Hlook; subst.
    exists news, [], [], (mkDF 0 []).
    split; [reflexivity |]. split; [exact Hcomb | reflexivity].
  - inversion Hlook as [| ? f0 ? frest Hl0 Hlrest]; subst.
    assert (Hfinal : exists final, concat_all f0 frest = Some final).
    { inversion Hcomb as [| a0 ? arest ? Ha0 Harest Hans]; subst.
      rewrite <- Hans in Huni.
      apply Forall_cons_iff in Huni. destruct Huni as [[Hc0 Hp0] Hrest].
      destruct (concat_all_ok frest f0) as [r [Hr _]].
      { exact (combined_same_schema sch arest frest Hrest Harest a0 f0 Hc0 Hp0 Ha0). }
      exists r. exact Hr. }
    destruct Hfinal as [final Hfinal].
    exists news, (l0 :: locs), (f0 :: frest), final.
    split; [| split; [exact Hcomb | exact Hfinal]].
    assert (Hall : Forall2 (fun l f => nth_error (h ++ news) l = Some f)
                     (l0 :: locs) (f0 :: frest)).
    { constructor; assumption. }
    rewrite (run_pd_concat c (h ++ news) _ _ (l0 :: locs) f0 final frest Hall Hfinal).
    reflexivity.
Qed.

Lemma reports_cover (sym : string) (slept : result unit) (exps : list string) :
  forall e calls puts,
  In (e, calls, puts) (answered (option_chain sym) exps) ->
  In (FetchedContracts (nrows calls + nrows puts) e)
     (reports (option_chain sym) slept exps)
  /\ forall ex, slept = Raise ex ->
       In (FailedOn e ex) (reports (option_chain sym) slept exps).
Proof.
  intros e calls puts. induction exps as [| e0 exps IH]; [intros [] |].
  cbn [answered reports].
  destruct (option_chain sym e0) as [[c0 p0] | ex0].
  - intros [Heq | Hin].
    + inversion Heq; subst. split; [left; reflexivity |].
      intros ex ->. right. left. reflexivity.
    + destruct (IH Hin) as [Hf Hs]. split.
      * right. destruct slept; [exact Hf | right; exact Hf].
      * intros ex ->. right. right. apply Hs. reflexivity.
  - intros Hin. destruct (IH Hin) as [Hf Hs]. split.
    + right. exact Hf.
    + intros ex Hex. right. apply Hs. exact Hex.
Qed.

Lemma Forall2_with (A B : Type) (P : A -> Prop) (R Q : A -> B -> Prop)
  (xs : list A) (ys : list B) :
  (forall a b, P a -> R a b -> Q a b) ->
  Forall P xs -> Forall2 R xs ys -> Forall2 Q xs ys.
Proof.
  intros Himp HP HR. induction HR as [| a b xs ys Hab _ IH]; [constructor |].
  apply Forall_cons_iff in HP. destruct HP as [Pa Pxs].
  constructor; [exact (Himp a b Pa Hab) | exact (IH Pxs)].
Qed.

(** a column of one dtype of the merged frame, from the frames of the loop *)
Lemma merged_typed (A : Type) (mk : list A -> Series) (k : string)
  (g : string * DataFrame * DataFrame -> list A)
  (answers : list (string * DataFrame * DataFrame)) (fs : list DataFrame)
  (final : DataFrame) :
  (forall x y, append_series (mk x) (mk y) = Some (mk (x ++ y))) ->
  Forall2 (fun a f => df_get f k = Some (mk (g a))) answers fs ->
  merged fs final ->
  answers <> [] ->
  df_get final k = Some (mk (flat_map g answers)).
Proof.
  intros Hmk Hcols Hmerged Hne.
  destruct Hcols as [| a0 f0 arest frest Ha0 Harest]; [congruence |].
  cbn [merged] in Hmerged. cbn [flat_map]. rewrite flat_map_concat_map.
  apply (concat_all_typed A mk k Hmk frest f0 final (g a0) (map g arest) Hmerged Ha0).
  clear Hmerged Ha0 Hne. induction Harest; constructor; assumption.
Qed.

Lemma rows_lengths (answers : list (string * DataFrame * DataFrame)) :
  List.length (kind_rows answers) = contracts answers
  /\ List.length (expiry_rows answers) = contracts answers.
Proof.
  unfold kind_rows, expiry_rows, contracts.
  induction answers as [| a answers [IHk IHe]]; [split; reflexivity |].
  cbn [flat_map fold_right]. rewrite !length_app, !repeat_length, IHk, IHe.
  split; reflexivity.
Qed.

Lemma numbers_length (k : string)
  (answers : list (string * DataFrame * DataFrame)) :
  In k ["strike"; "impliedVolatility"; "lastPrice"]%string ->
  Forall (fun a => quoted (snd (fst a)) /\ quoted (snd a)) answers ->
  List.length (numbers_of k answers) = contracts answers.
Proof.
  intros Hk Hq. unfold numbers_of, contracts.
  induction Hq as [| a answers [Hc Hp] _ IH]; [reflexivity |].
  cbn [flat_map fold_right]. rewrite !length_app, IH.
  destruct (Hc k Hk) as [xc [Ec Lc]]. destruct (Hp k Hk) as [xp [Ep Lp]].
  unfold floats_of. rewrite Ec, Ep, Lc, Lp. reflexivity.
Qed.

(** the merged frame of quoted answers has the columns the pipeline reads *)
Lemma merged_is_priceable (sch : list (string * dtype))
  (answers : list (string * DataFrame * DataFrame)) (fs : list DataFrame)
  (final : DataFrame) (ds : list (Z * Z * Z)) :
  uniform sch answers ->
  Forall2 combined_of answers fs ->
  merged fs final ->
  answers <> [] ->
  Forall (fun a => quoted (snd (fst a)) /\ quoted (snd a)) answers ->
  Forall2 (fun e d => parse_iso_date e = Some d) (expiry_rows answers) ds ->
  nrows final = contracts answers
  /\ has_numbers final "strike" (numbers_of "strike" answers)
  /\ has_dates final "expiration" (expiry_rows answers) ds
  /\ has_numbers final "impliedVolatility" (numbers_of "impliedVolatility" answers)
  /\ has_numbers final "lastPrice" (numbers_of "lastPrice" answers)
  /\ has_cells final "type" (kind_cells answers).
Proof.
  intros Huni Hcomb Hmerged Hne Hq Hds.
  destruct (merged_cells sch answers fs final Huni Hcomb Hmerged) as [Hn _].
  destruct (rows_lengths answers) as [Lk Le].
  assert (Hnum : forall k, In k ["strike"; "impliedVolatility"; "lastPrice"]%string ->
            String.eqb "type" k = false -> String.eqb "expiration" k = false ->
            has_numbers final k (numbers_of k answers)).
  { intros k Hk H1 H2. exists (FloatCol (numbers_of k answers)).
    split; [| split; [reflexivity |]].
    - apply (merged_typed _ FloatCol k
               (fun a => floats_of (snd (fst a)) k ++ floats_of (snd a) k)
               answers fs final); try assumption; [reflexivity |].
      apply (Forall2_with _ _ _ combined_of) with (2 := Hq) (3 := Hcomb).
      intros a f [Hc Hp] Haf.
      destruct (Hc k Hk) as [xc [Ec _]]. destruct (Hp k Hk) as [xp [Ep _]].
      exact (combined_floats a f k xc xp Haf H1 H2 Ec Ep).
    - rewrite Hn. apply numbers_length; assumption. }
  split; [exact Hn |].
  split; [apply Hnum; [left; reflexivity | reflexivity | reflexivity] |].
  split.
  { split; [| split; [exact Hds | rewrite Hn; exact Le]].
    apply (merged_typed _ StrCol "expiration"
             (fun a => repeat (fst (fst a)) (nrows (snd (fst a)) + nrows (snd a)))
             answers fs final); try assumption; [reflexivity |].
    apply (Forall2_with _ _ _ combined_of) with (2 := Huni) (3 := Hcomb).
    intros a f [Hc Hp] Haf.
    destruct (combined_facts a f) as [_ [_ [_ [He _]]]]; [congruence | exact Haf |].
    exact He. }
  split; [apply Hnum; [right; left; reflexivity | reflexivity | reflexivity] |].
  split; [apply Hnum; [right; right; left; reflexivity | reflexivity | reflexivity] |].
  exists (StrCol (kind_rows answers)). split; [| split].
  - apply (merged_typed _ StrCol "type"
             (fun a => repeat "call"%string (nrows (snd (fst a)))
                       ++ repeat "put"%string (nrows (snd a)))
             answers fs final); try assumption; [reflexivity |].
    apply (Forall2_with _ _ _ combined_of) with (2 := Huni) (3 := Hcomb).
    intros a f [Hc Hp] Haf.
    destruct (combined_facts a f) as [_ [_ [Ht _]]]; [congruence | exact Haf |].
    exact Ht.
  - intros i _. unfold kind_cells. cbn [cell]. rewrite nth_error_map. reflexivity.
  - unfold kind_cells. rewrite length_map, Hn. exact Lk.
Qed.

Lemma fresh_frame (h : list DataFrame) (final : DataFrame) :
  nth_error (h ++ [final]) (List.length h) = Some final.
Proof. rewrite nth_error_app2 by lia. rewrite Nat.sub_diag. reflexivity. Qed.

(** X19: when the provider lists expirations and its chains share one
    schema, the fetcher returns a new frame holding every contract of
    every answered expiration among the first [max_expirations]: calls
    before puts, expirations in the provider's order, each row labelled
    with its kind and its expiration, the other columns unchanged. *)
Theorem fetcher_labels_every_contract
  (sym : string) (n : option Z) (t : option pyfloat)
  (sch : list (string * dtype)) (avail : list string) (s : Session) :
  options sym = Ok avail ->
  uniform sch (answered (option_chain sym) (requested n avail)) ->
  exists l s' final,
    fetch_full_option_chain options option_chain sleep sym n t s = Some (Ok l, s')
    /\ nth_error (heap (world s)) l = None
    /\ nth_error (heap (world s')) l = Some final
    /\ nrows final = contracts (answered (option_chain sym) (requested n avail))
    /\ col_cells final "type"
       = kind_cells (answered (option_chain sym) (requested n avail))
    /\ col_cells final "expiration"
       = expiry_cells (answered (option_chain sym) (requested n avail))
    /\ forall k, String.eqb "type" k = false -> String.eqb "expiration" k = false ->
         col_cells final k
         = data_cells k (answered (option_chain sym) (requested n avail)).
Proof.
  intros Hopt Huni. destruct s as [[c h] out acc].
  destruct (fetch_run sym n t sch avail c h out acc Hopt Huni)
    as [news [locs [fs [final [Hrun [Hcomb Hmerged]]]]]].
  eexists _, _, final.
  split; [exact Hrun |]. cbn [world heap].
  split.
  { apply nth_error_None. rewrite length_app. lia. }
  split; [apply fresh_frame |].
  exact (merged_cells sch _ fs final Huni Hcomb Hmerged).
Qed.

(** X20: the frames that were in the store before the call are the same
    after it: the fetcher only adds frames. *)
Theorem fetcher_keeps_the_store
  (sym : string) (n : option Z) (t : option pyfloat)
  (sch : list (string * dtype)) (avail : list string) (s : Session) :
  options sym = Ok avail ->
  uniform sch (answered (option_chain sym) (requested n avail)) ->
  exists l s',
    fetch_full_option_chain options option_chain sleep sym n t s = Some (Ok l, s')
    /\ forall l0 df0, nth_error (heap (world s)) l0 = Some df0 ->
                      nth_error (heap (world s')) l0 = Some df0.
Proof.
  intros Hopt Huni. destruct s as [[c h] out acc].
  destruct (fetch_run sym n t sch avail c h out acc Hopt Huni)
    as [news [locs [fs [final [Hrun _]]]]].
  eexists _, _.
  split; [exact Hrun |]. cbn [world heap].
  intros l0 df0 Hl0. rewrite <- app_assoc.
  rewrite nth_error_app1; [exact Hl0 |].
  apply nth_error_Some. congruence.
Qed.

(** X21: when no requested expiration is answered (all requests fail, the
    provider lists none, or [max_expirations] is 0), the fetcher returns
    the empty frame without columns, and the pricing pipeline run on it
    raises [KeyError('strike')]. *)
Theorem fetcher_returns_empty_frame_when_nothing_answers
  (sym : string) (n : option Z) (t : option pyfloat)
  (avail : list string) (s : Session) :
  options sym = Ok avail ->
  answered (option_chain sym) (requested n avail) = [] ->
  exists l s',
    fetch_full_option_chain options option_chain sleep sym n t s = Some (Ok l, s')
    /\ nth_error (heap (world s')) l = Some (mkDF 0 [])
    /\ forall Phi S c',
         outcome (pipeline Phi l S) (mkWorld c' (heap (world s')))
         = Raise (KeyError "strike").
Proof.
  intros Hopt Hnil. destruct s as [[c h] out acc].
  assert (Huni : uniform [] (answered (option_chain sym) (requested n avail))).
  { rewrite Hnil. constructor. }
  destruct (fetch_run sym n t [] avail c h out acc Hopt Huni)
    as [news [locs [fs [final [Hrun [Hcomb Hmerged]]]]]].
  rewrite Hnil in Hcomb. inversion Hcomb; subst fs.
  cbn [merged] in Hmerged. subst final.
  eexists _, _.
  split; [exact Hrun |]. cbn [world heap].
  split; [apply fresh_frame |].
  intros Phi S c'. unfold outcome, pipeline, bind.
  rewrite (EnricherMore.enrich_without_strike c' _ _ (mkDF 0 []) (val S)
             (fresh_frame (h ++ news) (mkDF 0 [])) eq_refl).
  reflexivity.
Qed.

(** X22: an error of the provider while listing the expirations is not
    caught: it leaves the fetcher, nothing is printed and nothing is
    stored. *)
Theorem fetcher_does_not_catch_listing_errors
  (sym : string) (n : option Z) (t : option pyfloat) (ex : exn) (s : Session) :
  options sym = Raise ex ->
  fetch_full_option_chain options option_chain sleep sym n t s = Some (Raise ex, s).
Proof.
  intros Hopt. unfold fetch_full_option_chain, fbind, external, fresult.
  rewrite Hopt. reflexivity.
Qed.

(** X23: the console gets one report per requested expiration, in order;
    when [time.sleep] raises, the contracts are kept all the same, and
    every answered expiration is reported twice, as fetched and as
    failed. *)
Theorem fetcher_reports_each_expiration
  (sym : string) (n : option Z) (t : option pyfloat)
  (sch : list (string * dtype)) (avail : list string) (s : Session) :
  options sym = Ok avail ->
  uniform sch (answered (option_chain sym) (requested n avail)) ->
  exists l s' final,
    fetch_full_option_chain options option_chain sleep sym n t s = Some (Ok l, s')
    /\ stdout s'
       = stdout s ++ reports (option_chain sym) (sleep (pause t)) (requested n avail)
    /\ nth_error (heap (world s')) l = Some final
    /\ nrows final = contracts (answered (option_chain sym) (requested n avail))
    /\ forall e calls puts ex,
         In (e, calls, puts) (answered (option_chain sym) (requested n avail)) ->
         sleep (pause t) = Raise ex ->
         In (FetchedContracts (nrows calls + nrows puts) e) (stdout s')
         /\ In (FailedOn e ex) (stdout s').
Proof.
  intros Hopt Huni. destruct s as [[c h] out acc].
  destruct (fetch_run sym n t sch avail c h out acc Hopt Huni)
    as [news [locs [fs [final [Hrun [Hcomb Hmerged]]]]]].
  destruct (merged_cells sch _ fs final Huni Hcomb Hmerged) as [Hn _].
  eexists _, _, final.
  split; [exact Hrun |]. cbn [world heap stdout].
  split; [reflexivity |].
  split; [apply fresh_frame |].
  split; [exact Hn |].
  intros e calls puts ex Hin Hsl.
  destruct (reports_cover sym (sleep (pause t)) (requested n avail) e calls puts Hin)
    as [Hf Hs].
  split; apply in_or_app; right; [exact Hf | exact (Hs ex Hsl)].
Qed.

(** X24: from the provider to the prices.  When the answered chains are
    quoted (a float strike, implied volatility and last price for each row)
    and their expirations are ISO dates, the frame the fetcher returns goes
    through the pipeline, whenever that is run: every contract is priced
    for the kind the fetcher labelled it with and for the time to its
    expiration, and gets its pricing error. *)
Theorem fetched_chain_is_priced
  (Phi : R -> R) (S : scalar) (sym : string) (n : option Z) (t : option pyfloat)
  (sch : list (string * dtype)) (avail : list string) (s : Session)
  (ds : list (Z * Z * Z)) (c' : Z) :
  let answers := answered (option_chain sym) (requested n avail) in
  options sym = Ok avail ->
  uniform sch answers ->
  answers <> [] ->
  Forall (fun a => quoted (snd (fst a)) /\ quoted (snd a)) answers ->
  Forall2 (fun e d => parse_iso_date e = Some d) (expiry_rows answers) ds ->
  no_zero_division S (numbers_of "strike" answers) ->
  exists l s' df'',
    fetch_full_option_chain options option_chain sleep sym n t s = Some (Ok l, s')
    /\ outcome (pipeline Phi l S) (mkWorld c' (heap (world s'))) = Ok df''
    /\ nrows df'' = contracts answers
    /\ forall i k e sg ty lp,
        nth_error (numbers_of "strike" answers) i = Some k ->
        nth_error ds i = Some e ->
        nth_error (numbers_of "impliedVolatility" answers) i = Some sg ->
        nth_error (kind_cells answers) i = Some ty ->
        nth_error (numbers_of "lastPrice" answers) i = Some lp ->
        exists p,
          price Phi S (PyNum k)
                (Fin (IZR (day_of e - c' / ns_per_day) / 365))
                (Fin 0.045) sg ty = Ok p
          /\ float_at df'' "bs_price" i = Some p
          /\ float_at df'' "pricing_error" i = Some (fsub lp p).
Proof.
  intros answers Hopt Huni Hne Hq Hds Hsafe. destruct s as [[c h] out acc].
  destruct (fetch_run sym n t sch avail c h out acc Hopt Huni)
    as [news [locs [fs [final [Hrun [Hcomb Hmerged]]]]]].
  destruct (merged_is_priceable sch answers fs final ds Huni Hcomb Hmerged Hne Hq Hds)
    as [Hn [Hks [Hes [Hsgs [Hlps Htys]]]]].
  destruct (PipelineMore.pipeline_row_facts Phi c' ((h ++ news) ++ [final])
              (List.length (h ++ news)) final S
              (numbers_of "strike" answers)
              (numbers_of "impliedVolatility" answers)
              (numbers_of "lastPrice" answers)
              (expiry_rows answers) ds (kind_cells answers))
    as [df'' [Hout [Hrows Hprices]]]; try assumption.
  { apply fresh_frame. }
  eexists _, _, df''.
  split; [exact Hrun |]. cbn [world heap].
  split; [exact Hout |].
  split; [rewrite Hrows; exact Hn | exact Hprices].
Qed.

End WithProvider.

End FetchProps.

(** ** Closed instances *)

Module MoreExamples.

Lemma Phi_test_bounded (x : R) : 0 <= Phi_test x <= 1.
Proof.
  unfold Phi_test.
  assert (Hd : 0 < 1 + Rabs x) by (pose proof (Rabs_pos x); lra).
  assert (Hq : x / (1 + Rabs x) * (1 + Rabs x) = x) by (field; lra).
  assert (Hx : - Rabs x <= x <= Rabs x).
  { split; [| apply Rle_abs]. pose proof (Rle_abs (- x)) as H.
    rewrite Rabs_Ropp in H. lra. }
  set (q := x / (1 + Rabs x)) in *.
  split; nra.
Qed.

(** X1 for a spot of 150, a strike of 100, 30 days and a volatility of 25%. *)
Lemma closed_form_on_positive_domain_witness :
  let d1 := (ln (150 / 100) + (0.045 + 0.5 * (0.25 * 0.25)) * (30 / 365)) /
    (0.25 * sqrt (30 / 365)) in
  let d2 := d1 - (0.25) * sqrt (30 / 365) in
  black_scholes_price Phi_test (NpNum (Fin 150)) (PyNum (Fin 100)) (Fin (30 / 365))
    (Fin 0.045) (Fin 0.25) (VStr "call")
    = (Ok (Fin (150 * Phi_test d1 - 100 * exp (- (0.045) * (30 / 365)) * Phi_test d2)),
       [NpLog; NpSqrt; NpSqrt; NormCdf; NpExp; NormCdf])
  /\ black_scholes_price Phi_test (NpNum (Fin 150)) (PyNum (Fin 100)) (Fin (30 / 365))
    (Fin 0.045) (Fin 0.25) (VStr "put")
    = (Ok (Fin
      (100 * exp (- (0.045) * (30 / 365)) * Phi_test (- d2) - 150 * Phi_test (- d1))),
       [NpLog; NpSqrt; NpSqrt; NpExp; NormCdf; NormCdf]).
Proof.
  apply (PricerMore.closed_form_on_positive_domain Phi_test (NpNum (Fin 150))
           (PyNum (Fin 100)) 150 100 (30 / 365) 0.045 0.25).
  - reflexivity.
  - reflexivity.
  - lra.
  - lra.
  - lra.
  - lra.
  - apply small_in_range. rewrite Rabs_right; lra.
Defined.

(** X2 at expiry: [S = 150], [K = 140], [T = 0]. *)
Lemma edge_branch_parity_is_undiscounted_witness :
  exists c p : R,
    price Phi_test (NpNum (Fin 150)) (PyNum (Fin 140)) (Fin 0) (Fin 0.045) (Fin 0.25)
      (VStr "call") = Ok (Fin c)
    /\ price Phi_test (NpNum (Fin 150)) (PyNum (Fin 140)) (Fin 0) (Fin 0.045)
      (Fin 0.25) (VStr "put") = Ok (Fin p)
    /\ c - p = 150 - 140.
Proof.
  apply (PricerMore.edge_branch_parity_is_undiscounted Phi_test
           (NpNum (Fin 150)) (PyNum (Fin 140)) 150 140 0 0.045 0.25).
  - reflexivity.
  - reflexivity.
  - left. lra.
Defined.

(** X3 for a call at expiry with a spot price that is NaN. *)
Lemma edge_branch_prices_nan_at_zero_witness :
  black_scholes_price Phi_test (NpNum NaN) (PyNum (Fin 140)) (Fin 0) (Fin 0.045)
    (Fin 0.25) (VStr "call") = (Ok (Fin 0), []).
Proof.
  apply (PricerMore.edge_branch_prices_nan_at_zero Phi_test (NpNum NaN)
           (PyNum (Fin 140)) (Fin 0) (Fin 0.045) (Fin 0.25) (VStr "call")).
  - apply Bool.orb_true_iff. left. apply Rleb_true. lra.
  - left. reflexivity.
Defined.

(** X4 for a put, doubling a spot of 150 and a strike of 100. *)
Lemma price_scales_with_spot_and_strike_witness :
  exists p : R,
    price Phi_test (NpNum (Fin 150)) (PyNum (Fin 100)) (Fin (30 / 365)) (Fin 0.045)
      (Fin 0.25) (VStr "put") = Ok (Fin p)
    /\ price Phi_test (NpNum (Fin (2 * 150))) (PyNum (Fin (2 * 100))) (Fin (30 / 365))
      (Fin 0.045) (Fin 0.25) (VStr "put")
       = Ok (Fin (2 * p)).
Proof.
  apply (PricerMore.price_scales_with_spot_and_strike Phi_test
           (NpNum (Fin 150)) (PyNum (Fin 100)) (NpNum (Fin (2 * 150)))
           (PyNum (Fin (2 * 100))) 2 150 100 (30 / 365) 0.045 0.25
           (VStr "put")).
  - lra.
  - lra.
  - lra.
  - reflexivity.
  - reflexivity.
  - reflexivity.
  - reflexivity.
Defined.

(** X5 for a spot of 150 and a strike of 100. *)
Lemma prices_bounded_by_spot_and_discounted_strike_witness :
  exists c p : R,
    price Phi_test (NpNum (Fin 150)) (PyNum (Fin 100)) (Fin (30 / 365)) (Fin 0.045)
      (Fin 0.25) (VStr "call") = Ok (Fin c)
    /\ price Phi_test (NpNum (Fin 150)) (PyNum (Fin 100)) (Fin (30 / 365)) (Fin 0.045)
      (Fin 0.25) (VStr "put") = Ok (Fin p)
    /\ c <= 150
    /\ p <= 100 * exp (- (0.045) * (30 / 365)).
Proof.
  apply (PricerMore.prices_bounded_by_spot_and_discounted_strike Phi_test
           (NpNum (Fin 150)) (PyNum (Fin 100)) 150 100 (30 / 365) 0.045 0.25).
  - exact Phi_test_bounded.
  - reflexivity.
  - reflexivity.
  - lra.
  - lra.
  - lra.
  - lra.
Defined.

(** X6 on the enriched chain. *)
Lemma driver_appends_three_columns_witness :
  exists df',
    outcome (calculate_bs_prices Phi_test 0%nat (NpNum (Fin 150)) None)
      (mkWorld clock_mar1 [enriched_chain]) = Ok df'
    /\ nrows df' = nrows enriched_chain
    /\ map fst (columns df')
       = map fst (columns enriched_chain) ++ ["T"; "bs_price"; "pricing_error"]%string
    /\ forall k, String.eqb "T" k = false -> String.eqb "bs_price" k = false ->
         String.eqb "pricing_error" k = false ->
         df_get df' k = df_get enriched_chain k.
Proof.
  apply (DriverMore.driver_appends_three_columns Phi_test clock_mar1
           [enriched_chain] 0%nat enriched_chain (NpNum (Fin 150)) None
           (map Fin strikes) day_counts vols lasts (map VStr kinds)).
  - reflexivity.
  - apply Examples.numbers_here; reflexivity.
  - exact Examples.enriched_chain_days.
  - apply Examples.numbers_here; reflexivity.
  - apply Examples.numbers_here; reflexivity.
  - apply Examples.kinds_here; reflexivity.
  - apply Examples.strikes_nonzero.
  - reflexivity.
  - reflexivity.
  - reflexivity.
Defined.

(** X7 on the enriched chain. *)
Lemma driver_is_idempotent_witness :
  exists df',
    outcome (calculate_bs_prices Phi_test 0%nat (NpNum (Fin 150)) None)
      (mkWorld clock_mar1 [enriched_chain]) = Ok df'
    /\ forall c2 h2 l2, nth_error h2 l2 = Some df' ->
         outcome (calculate_bs_prices Phi_test l2 (NpNum (Fin 150)) None)
           (mkWorld c2 h2) = Ok df'.
Proof.
  apply (DriverMore.driver_is_idempotent Phi_test clock_mar1 [enriched_chain]
           0%nat enriched_chain (NpNum (Fin 150)) None (map Fin strikes)
           day_counts vols lasts (map VStr kinds)).
  - reflexivity.
  - apply Examples.numbers_here; reflexivity.
  - exact Examples.enriched_chain_days.
  - apply Examples.numbers_here; reflexivity.
  - apply Examples.numbers_here; reflexivity.
  - apply Examples.kinds_here; reflexivity.
  - apply Examples.strikes_nonzero.
Defined.

(** X8 on the raw chain, which has not been enriched. *)
Lemma driver_needs_days_to_expiration_witness :
  calculate_bs_prices Phi_test 0%nat (NpNum (Fin 150)) None (mkWorld clock_mar1 [chain])
    = (Raise (KeyError "days_to_expiration"), mkWorld clock_mar1 ([chain] ++ [chain])).
Proof.
  apply (DriverMore.driver_needs_days_to_expiration Phi_test clock_mar1
           [chain] 0%nat chain (NpNum (Fin 150)) None).
  - reflexivity.
  - reflexivity.
Defined.

(** X9 on the enriched chain without its [lastPrice] column. *)
Lemma driver_notices_missing_last_price_late_witness :
  exists ps,
    List.length ps = nrows (df_del enriched_chain "lastPrice")
    /\ calculate_bs_prices Phi_test 0%nat (NpNum (Fin 150)) None
      (mkWorld clock_mar1 [df_del enriched_chain "lastPrice"])
       = (Raise (KeyError "lastPrice"),
          mkWorld clock_mar1
            ([df_del enriched_chain "lastPrice"] ++
            [df_set (with_T (df_del enriched_chain "lastPrice") day_counts) "bs_price"
            (FloatCol ps)])).
Proof.
  apply (DriverMore.driver_notices_missing_last_price_late Phi_test clock_mar1
           [df_del enriched_chain "lastPrice"] 0%nat
           (df_del enriched_chain "lastPrice") (NpNum (Fin 150)) None
           (map Fin strikes) day_counts vols (map VStr kinds)).
  - reflexivity.
  - apply Examples.numbers_here; reflexivity.
  - exists (IntCol [30; -1; 30]%Z). repeat split.
  - apply Examples.numbers_here; reflexivity.
  - apply Examples.kinds_here; reflexivity.
  - apply Examples.strikes_nonzero.
  - reflexivity.
Defined.

(** X10 on the empty frame. *)
Lemma enricher_needs_strike_witness :
  enrich_option_data 0%nat (Fin 150) (mkWorld clock_mar1 [mkDF 0 []])
    = (Raise (KeyError "strike"), mkWorld clock_mar1 ([mkDF 0 []] ++ [(mkDF 0 [])]))
  /\ outcome (pipeline Phi_test 0%nat (NpNum (Fin 150)))
    (mkWorld clock_mar1 [mkDF 0 []]) = Raise (KeyError "strike").
Proof.
  apply (EnricherMore.enricher_needs_strike Phi_test clock_mar1 [mkDF 0 []]
           0%nat (mkDF 0 []) (Fin 150) (NpNum (Fin 150))).
  - reflexivity.
  - reflexivity.
Defined.

(** X11 on the raw chain without its [expiration] column. *)
Lemma enricher_needs_expiration_witness :
  outcome (enrich_option_data 0%nat (Fin 150))
    (mkWorld clock_mar1 [df_del chain "expiration"]) = Raise (KeyError "expiration")
  /\ nth_error
    (heap (snd
    (enrich_option_data 0%nat (Fin 150)
    (mkWorld clock_mar1 [df_del chain "expiration"])))) 0%nat
    = Some (df_del chain "expiration").
Proof.
  apply (EnricherMore.enricher_needs_expiration clock_mar1
           [df_del chain "expiration"] 0%nat (df_del chain "expiration")
           (Fin 150) (map Fin strikes)).
  - reflexivity.
  - apply Examples.numbers_here; reflexivity.
  - reflexivity.
Defined.

(** X12 on the raw chain, on 2025-03-01. *)
Lemma enricher_output_columns_witness :
  exists df',
    outcome (enrich_option_data 0%nat (Fin 150)) (mkWorld clock_mar1 [chain]) = Ok df'
    /\ nrows df' = nrows chain
    /\ df_get df' "current_date" = None
    /\ df_get df' "expiration" = Some (TimeCol (map timestamp_of_date expiry_dates))
    /\ (forall k, String.eqb "moneyness" k = false ->
          String.eqb "current_date" k = false ->
          String.eqb "expiration" k = false ->
          String.eqb "days_to_expiration" k = false ->
          df_get df' k = df_get chain k)
    /\ (df_get chain "moneyness" = None -> df_get chain "current_date" = None ->
        df_get chain "days_to_expiration" = None ->
        map fst (columns df')
        = map fst (columns chain) ++ ["moneyness"; "days_to_expiration"]%string).
Proof.
  apply (EnricherMore.enricher_output_columns clock_mar1 [chain] 0%nat chain
           (Fin 150) (map Fin strikes) expiries expiry_dates).
  - reflexivity.
  - apply Examples.numbers_here; reflexivity.
  - exact Examples.chain_dates.
Defined.

(** X13 on the raw chain, on 2025-03-01. *)
Lemma enricher_is_idempotent_within_a_day_witness :
  exists df',
    outcome (enrich_option_data 0%nat (Fin 150)) (mkWorld clock_mar1 [chain]) = Ok df'
    /\ forall c2 h2 l2,
         nth_error h2 l2 = Some df' ->
         (c2 / ns_per_day = clock_mar1 / ns_per_day)%Z ->
         outcome (enrich_option_data l2 (Fin 150)) (mkWorld c2 h2) = Ok df'.
Proof.
  apply (EnricherMore.enricher_is_idempotent_within_a_day clock_mar1 [chain]
           0%nat chain (Fin 150) (map Fin strikes) expiries expiry_dates).
  - reflexivity.
  - apply Examples.numbers_here; reflexivity.
  - exact Examples.chain_dates.
Defined.

(** X14 on the raw chain, on 2025-03-01, for an underlying at 150. *)
Lemma pipeline_prices_each_contract_witness :
  exists df'',
    outcome (pipeline Phi_test 0%nat (NpNum (Fin 150))) (mkWorld clock_mar1 [chain])
      = Ok df''
    /\ nrows df'' = nrows chain
    /\ forall i k e sg ty lp,
        nth_error (map Fin strikes) i = Some k -> nth_error expiry_dates i = Some e ->
        nth_error vols i = Some sg -> nth_error (map VStr kinds) i = Some ty ->
        nth_error lasts i = Some lp ->
        exists p,
          price Phi_test (NpNum (Fin 150)) (PyNum k)
                (Fin (IZR (day_of e - clock_mar1 / ns_per_day) / 365))
                (Fin 0.045) sg ty = Ok p
          /\ float_at df'' "bs_price" i = Some p
          /\ float_at df'' "pricing_error" i = Some (fsub lp p).
Proof.
  apply (PipelineMore.pipeline_prices_each_contract Phi_test clock_mar1
           [chain] 0%nat chain (NpNum (Fin 150)) (map Fin strikes) vols lasts
           expiries expiry_dates (map VStr kinds)).
  - reflexivity.
  - apply Examples.numbers_here; reflexivity.
  - exact Examples.chain_dates.
  - apply Examples.numbers_here; reflexivity.
  - apply Examples.numbers_here; reflexivity.
  - apply Examples.kinds_here; reflexivity.
  - apply Examples.strikes_nonzero.
Defined.

(** X15 on the raw chain, whose second contract expired on 2025-02-28. *)
Lemma pipeline_prices_expired_contracts_at_intrinsic_value_witness :
  exists df'',
    outcome (pipeline Phi_test 0%nat (NpNum (Fin 150))) (mkWorld clock_mar1 [chain])
      = Ok df''
    /\ forall i k e ty,
        nth_error (map Fin strikes) i = Some (Fin k) ->
        nth_error expiry_dates i = Some e ->
        nth_error (map VStr kinds) i = Some ty ->
        (day_of e <= clock_mar1 / ns_per_day)%Z ->
        float_at df'' "bs_price" i
        = Some (Fin (if is_call ty then Rmax 0 (150 - k) else Rmax 0 (k - 150))).
Proof.
  apply (PipelineMore.pipeline_prices_expired_contracts_at_intrinsic_value
           Phi_test clock_mar1 [chain] 0%nat chain (NpNum (Fin 150)) 150
           (map Fin strikes) vols lasts expiries expiry_dates (map VStr kinds)).
  - reflexivity.
  - apply Examples.numbers_here; reflexivity.
  - exact Examples.chain_dates.
  - apply Examples.numbers_here; reflexivity.
  - apply Examples.numbers_here; reflexivity.
  - apply Examples.kinds_here; reflexivity.
  - apply Examples.strikes_nonzero.
  - reflexivity.
Defined.

(** X16 for a symbol the provider has no bars for. *)
Lemma get_todays_price_swallows_every_error_witness :
  exists r s',
    get_todays_price exact provider_ticker provider_history "XXXX" session0
      = Some (r, s')
    /\ heap (world s') = heap (world session0)
    /\ match provider_ticker "XXXX" with
       | Raise e => r = Raise e /\ stdout s' = stdout session0
       | Ok _ =>
           (exists S, r = Ok (Some S) /\ stdout s' = stdout session0)
           \/ (exists e, r = Ok None
                         /\ stdout s'
                            = stdout session0 ++ [ErrorFetchingPrice "XXXX" e])
       end.
Proof.
  apply (PriceProps.get_todays_price_swallows_every_error exact
           provider_ticker provider_history "XXXX" session0).
  - intros data H. inversion H; subst data. intros k col Hk. discriminate Hk.
Defined.

(** X17 for a last close of 150.004 and a rounding without error. *)
Lemma get_todays_price_rounds_the_last_close_witness :
  exists n : Z,
    get_todays_price exact provider_ticker provider_history "AAPL" session0
      = Some (Ok (Some (NpNum (Fin (exact (IZR n / 100))))), session0)
    /\ Rabs (exact (IZR n / 100) - (150.004)) <= 0.005 + (3 * Rabs 150.004 + 0.005) * 0.
Proof.
  apply (PriceProps.get_todays_price_rounds_the_last_close exact
           provider_ticker provider_history "AAPL" session0 quotes [Fin 149.5]
           150.004 0).
  - reflexivity.
  - reflexivity.
  - reflexivity.
  - reflexivity.
  - lra.
  - unfold exact, Rminus. rewrite Rplus_opp_r, Rabs_R0. lra.
  - unfold exact, Rminus. rewrite Rplus_opp_r, Rabs_R0. lra.
Defined.

(** X18 for the price fetched from the example provider. *)
Lemma pipeline_accepts_every_fetched_price_witness :
  exists df'',
    outcome (pipeline Phi_test 0%nat (NpNum (round2 exact (Fin 150.004))))
      (mkWorld clock_mar1 [chain]) = Ok df''
    /\ nrows df'' = nrows chain.
Proof.
  apply (PriceProps.pipeline_accepts_every_fetched_price exact provider_ticker
           provider_history Phi_test "AAPL" session0 session0
           (NpNum (round2 exact (Fin 150.004))) clock_mar1 [chain] 0%nat chain
           (map Fin strikes) vols lasts expiries expiry_dates (map VStr kinds)).
  - reflexivity.
  - reflexivity.
  - apply Examples.numbers_here; reflexivity.
  - exact Examples.chain_dates.
  - apply Examples.numbers_here; reflexivity.
  - apply Examples.numbers_here; reflexivity.
  - apply Examples.kinds_here; reflexivity.
Defined.

(** X19 with the example provider, which answers two of its three expirations. *)
Lemma fetcher_labels_every_contract_witness :
  exists l s' final,
    fetch_full_option_chain provider_options provider_chain provider_sleep "AAPL" None
      None session0 = Some (Ok l, s')
    /\ nth_error (heap (world session0)) l = None
    /\ nth_error (heap (world s')) l = Some final
    /\ nrows final
      = contracts (answered (provider_chain "AAPL") (requested None listed))
    /\ col_cells final "type"
       = kind_cells (answered (provider_chain "AAPL") (requested None listed))
    /\ col_cells final "expiration"
       = expiry_cells (answered (provider_chain "AAPL") (requested None listed))
    /\ forall k, String.eqb "type" k = false -> String.eqb "expiration" k = false ->
         col_cells final k
         = data_cells k (answered (provider_chain "AAPL") (requested None listed)).
Proof.
  apply (FetchProps.fetcher_labels_every_contract provider_options
           provider_chain provider_sleep "AAPL" None None (schema march_calls)
           listed session0).
  - reflexivity.
  - repeat constructor.
Defined.

(** X20 with the example provider and [max_expirations = 2]. *)
Lemma fetcher_keeps_the_store_witness :
  exists l s',
    fetch_full_option_chain provider_options provider_chain provider_sleep "AAPL"
      (Some 2%Z) None session0 = Some (Ok l, s')
    /\ forall l0 df0, nth_error (heap (world session0)) l0 = Some df0 ->
                      nth_error (heap (world s')) l0 = Some df0.
Proof.
  apply (FetchProps.fetcher_keeps_the_store provider_options provider_chain
           provider_sleep "AAPL" (Some 2%Z) None (schema march_calls) listed
           session0).
  - reflexivity.
  - repeat constructor.
Defined.

(** X21 with [max_expirations = 0]. *)
Lemma fetcher_returns_empty_frame_when_nothing_answers_witness :
  exists l s',
    fetch_full_option_chain provider_options provider_chain provider_sleep "AAPL"
      (Some 0%Z) None session0 = Some (Ok l, s')
    /\ nth_error (heap (world s')) l = Some (mkDF 0 [])
    /\ forall Phi S c',
         outcome (pipeline Phi l S) (mkWorld c' (heap (world s')))
         = Raise (KeyError "strike").
Proof.
  apply (FetchProps.fetcher_returns_empty_frame_when_nothing_answers
           provider_options provider_chain provider_sleep "AAPL" (Some 0%Z)
           None listed session0).
  - reflexivity.
  - reflexivity.
Defined.

(** X22 for a symbol the provider cannot list. *)
Lemma fetcher_does_not_catch_listing_errors_witness :
  fetch_full_option_chain provider_options provider_chain provider_sleep "XXXX" None
    None session0 = Some (Raise ValueError, session0).
Proof.
  apply (FetchProps.fetcher_does_not_catch_listing_errors provider_options
           provider_chain provider_sleep "XXXX" None None ValueError session0).
  - reflexivity.
Defined.

(** X23 with a negative [sleep_time], which [time.sleep] refuses. *)
Lemma fetcher_reports_each_expiration_witness :
  exists l s' final,
    fetch_full_option_chain provider_options provider_chain provider_sleep "AAPL" None
      (Some (Fin (-1))) session0 = Some (Ok l, s')
    /\ stdout s'
       = stdout session0 ++ reports (provider_chain "AAPL")
         (provider_sleep (pause (Some (Fin (-1))))) (requested None listed)
    /\ nth_error (heap (world s')) l = Some final
    /\ nrows final
      = contracts (answered (provider_chain "AAPL") (requested None listed))
    /\ forall e calls puts ex,
         In (e, calls, puts)
           (answered (provider_chain "AAPL") (requested None listed)) ->
         provider_sleep (pause (Some (Fin (-1)))) = Raise ex ->
         In (FetchedContracts (nrows calls + nrows puts) e) (stdout s')
         /\ In (FailedOn e ex) (stdout s').
Proof.
  apply (FetchProps.fetcher_reports_each_expiration provider_options
           provider_chain provider_sleep "AAPL" None (Some (Fin (-1)))
           (schema march_calls) listed session0).
  - reflexivity.
  - repeat constructor.
Defined.

(** X24 with the example provider, the pipeline being run on 2025-03-02 for
    an underlying at 150. *)
Lemma fetched_chain_is_priced_witness :
  let answers := answered (provider_chain "AAPL") (requested None listed) in
  exists l s' df'',
    fetch_full_option_chain provider_options provider_chain provider_sleep
      "AAPL" None None session0 = Some (Ok l, s')
    /\ outcome (pipeline Phi_test l (NpNum (Fin 150)))
               (mkWorld clock_mar2 (heap (world s'))) = Ok df''
    /\ nrows df'' = contracts answers
    /\ forall i k e sg ty lp,
        nth_error (numbers_of "strike" answers) i = Some k ->
        nth_error listed_dates i = Some e ->
        nth_error (numbers_of "impliedVolatility" answers) i = Some sg ->
        nth_error (kind_cells answers) i = Some ty ->
        nth_error (numbers_of "lastPrice" answers) i = Some lp ->
        exists p,
          price Phi_test (NpNum (Fin 150)) (PyNum k)
                (Fin (IZR (day_of e - clock_mar2 / ns_per_day) / 365))
                (Fin 0.045) sg ty = Ok p
          /\ float_at df'' "bs_price" i = Some p
          /\ float_at df'' "pricing_error" i = Some (fsub lp p).
Proof.
  apply (FetchProps.fetched_chain_is_priced provider_options provider_chain
           provider_sleep Phi_test (NpNum (Fin 150)) "AAPL" None None
           (schema march_calls) listed session0 listed_dates clock_mar2).
  - reflexivity.
  - repeat constructor.
  - discriminate.
  - assert (Hq : forall df,
              In df [march_calls; march_puts; april_calls; april_puts] ->
              quoted df).
    { intros df Hdf k Hk. cbn [In] in Hdf, Hk.
      destruct Hdf as [<- | [<- | [<- | [<- | []]]]];
        destruct Hk as [<- | [<- | [<- | []]]];
        eexists; split; reflexivity. }
    apply Forall_cons; [split; apply Hq; simpl; auto 10 |].
    apply Forall_cons; [split; apply Hq; simpl; auto 10 |].
    apply Forall_nil.
  - repeat constructor.
  - left. eexists. reflexivity.
Defined.

End MoreExamples.
